(** * Crop-AI-Sys: the browser side of the crop-disease application

    A shallow embedding of the two client scripts of the repository,

    - the uploader and result renderer ([handleFiles], the analyze click
      handler, [displayResults]), and
    - the chat widget, [static/js/chatbot.js] ([addMessage], [sendMessage],
      [renderQuickReplies] and the three listeners it installs),

    as handlers over an explicit page state.  An [async] function is cut at
    its [await]: the part before it runs inside the handler that calls it,
    the part after it runs when the environment delivers the settlement of
    the request (an event of its own), so every interleaving the browser
    allows is a sequence of events here.

    JavaScript strings are kept as their UTF-8 bytes in [string]. *)

From Stdlib Require Import String Ascii List ZArith Lia Bool.
From stdpp Require Import base option list strings pretty gmap.
Import ListNotations.

Local Open Scope stdpp_scope.

(** ** Values a JSON response can hold *)

(** The program never computes with numbers: it prints one (a template
    literal) and tests one for zero ([||], [=== 0]).  The number type of the
    platform is taken with those two observations. *)
Class JsNumber := {
  number : Type;
  number_to_string : number -> string;
  number_is_zero : number -> bool
}.

Section Values.
Context {num : JsNumber}.

(** What [JSON.parse] builds.  An object is the list of its own properties. *)
#[warnings="-register-all"]
Inductive json :=
| JNull
| JBool (b : bool)
| JNum (n : number)
| JStr (s : string)
| JArr (items : list json)
| JObj (props : list (string * json)).

(** A JavaScript value of this program: [None] is [undefined]. *)
Definition jsval := option json.

(** [ToString], as a template literal, a DOMString attribute and
    [Array.prototype.join] apply it; [None] when it throws.  An object
    prints as [[object Object]] through [Object.prototype.toString], unless
    it has a property [toString] of its own: a parsed value is never
    callable, the conversion then finds no primitive and throws a
    [TypeError]. *)
Fixpoint to_string (v : json) : option string :=
  match v with
  | JNull => Some "null"
  | JBool true => Some "true"
  | JBool false => Some "false"
  | JNum n => Some (number_to_string n)
  | JStr s => Some s
  | JArr items =>
      (fix join (l : list json) : option string :=
         match l with
         | [] => Some ""
         | x :: r =>
             match (match x with JNull => Some "" | _ => to_string x end) with
             | None => None
             | Some sx =>
                 match r with
                 | [] => Some sx
                 | _ :: _ =>
                     match join r with
                     | None => None
                     | Some sr => Some (sx +:+ "," +:+ sr)
                     end
                 end
             end
         end) items
  | JObj props =>
      if existsb (fun kv => String.eqb (fst kv) "toString") props
      then None
      else Some "[object Object]"
  end.

(** [`${v}`] *)
Definition template (v : jsval) : option string :=
  match v with
  | None => Some "undefined"
  | Some j => to_string j
  end.

(** The conversion of a value assigned to [innerText]: the attribute is a
    DOMString that takes [null] as the empty string. *)
Definition dom_string (v : jsval) : option string :=
  match v with
  | None => Some "undefined"
  | Some JNull => Some ""
  | Some j => to_string j
  end.

(** [ToBoolean]; of the numbers JSON can write, the zeros are the false
    ones. *)
Definition truthy (v : jsval) : bool :=
  match v with
  | None => false
  | Some JNull => false
  | Some (JBool b) => b
  | Some (JNum n) => negb (number_is_zero n)
  | Some (JStr s) => negb (String.eqb s "")
  | Some (JArr _) => true
  | Some (JObj _) => true
  end.

Fixpoint assoc (k : string) (props : list (string * json)) : jsval :=
  match props with
  | [] => None
  | (k', v) :: rest => if String.eqb k k' then Some v else assoc k rest
  end.

End Values.

(** [v === lit] for a string literal [lit]: no conversion, so only the
    string itself is equal to it. *)
Definition strict_eq_string {num : JsNumber} (v : jsval) (lit : string) : bool :=
  match v with
  | Some (JStr s) => String.eqb s lit
  | _ => false
  end.

(** ** [String.prototype.trim] *)

(** White space and line terminators of ECMAScript, on UTF-8 bytes: the
    one-byte ones (TAB, LF, VT, FF, CR, SP), U+00A0 (C2 A0), and the
    three-byte ones U+1680, U+2000..U+200A, U+2028, U+2029, U+202F, U+205F,
    U+3000 and U+FEFF. *)
Definition ws1 (c : ascii) : bool :=
  let n := nat_of_ascii c in
  (Nat.leb 9 n && Nat.leb n 13) || Nat.eqb n 32.

Definition ws2 (c1 c2 : ascii) : bool :=
  Nat.eqb (nat_of_ascii c1) 194 && Nat.eqb (nat_of_ascii c2) 160.

Definition ws3 (c1 c2 c3 : ascii) : bool :=
  let a := nat_of_ascii c1 in
  let b := nat_of_ascii c2 in
  let c := nat_of_ascii c3 in
  (Nat.eqb a 225 && Nat.eqb b 154 && Nat.eqb c 128)
  || (Nat.eqb a 226 && Nat.eqb b 128 &&
      ((Nat.leb 128 c && Nat.leb c 138) || Nat.eqb c 168 || Nat.eqb c 169 || Nat.eqb c 175))
  || (Nat.eqb a 226 && Nat.eqb b 129 && Nat.eqb c 159)
  || (Nat.eqb a 227 && Nat.eqb b 128 && Nat.eqb c 128)
  || (Nat.eqb a 239 && Nat.eqb b 187 && Nat.eqb c 191).

(** Drops the white space at the head of [s]; with [back] the string is read
    from its end (the bytes of a code point come last byte first). *)
Fixpoint strip (back : bool) (s : string) : string :=
  match s with
  | EmptyString => s
  | String c1 r1 =>
      if ws1 c1 then strip back r1 else
      match r1 with
      | EmptyString => s
      | String c2 r2 =>
          if (if back then ws2 c2 c1 else ws2 c1 c2) then strip back r2 else
          match r2 with
          | EmptyString => s
          | String c3 r3 =>
              if (if back then ws3 c3 c2 c1 else ws3 c1 c2 c3) then strip back r3 else s
          end
      end
  end.

Definition trim (s : string) : string :=
  String.rev (strip true (String.rev (strip false s))).
Arguments trim : simpl never.

(** ** Exceptions and the handler monad *)

Inductive js_error :=
| TypeError (msg : string)
| SyntaxError (msg : string).

Inductive outcome (A : Type) :=
| Returned (a : A)
| Thrown (e : js_error).
Arguments Returned {A} a.
Arguments Thrown {A} e.

(** A computation over a page state [S]: what it has written before it
    throws stays written. *)
Definition M (S A : Type) : Type := S -> outcome A * S.

Definition ret {S A} (a : A) : M S A := fun s => (Returned a, s).
Definition throw {S A} (e : js_error) : M S A := fun s => (Thrown e, s).
Definition bind {S A B} (c : M S A) (k : A -> M S B) : M S B :=
  fun s =>
    match c s with
    | (Returned a, s') => k a s'
    | (Thrown e, s') => (Thrown e, s')
    end.
Definition modify {S} (f : S -> S) : M S unit := fun s => (Returned tt, f s).
Definition gets {S A} (f : S -> A) : M S A := fun s => (Returned (f s), s).

(** The result of a conversion to a string that may throw. *)
Definition converted {S} (o : option string) : M S string :=
  match o with
  | Some s => ret s
  | None => throw (TypeError "Cannot convert object to primitive value")
  end.

Declare Scope js_scope.
Delimit Scope js_scope with js.
Notation "'let*' x ':=' c 'in' k" := (bind c (fun x => k))
  (at level 10, x name, c at level 100, k at level 200) : js_scope.
Notation "'do' c 'then' k" := (bind c (fun _ => k))
  (at level 10, c at level 100, k at level 200) : js_scope.

Section Access.
Context {num : JsNumber}.

(** [v.k] for a property name [k] that no prototype defines (every name this
    program reads: [result], [plant], [reply], ...): reading a property of
    [undefined] or [null] throws, a primitive or an array has none. *)
Definition get_prop {S} (v : jsval) (k : string) : M S jsval :=
  match v with
  | None => throw (TypeError ("Cannot read properties of undefined (reading '" +:+ k +:+ "')"))
  | Some JNull => throw (TypeError ("Cannot read properties of null (reading '" +:+ k +:+ "')"))
  | Some (JObj props) => ret (assoc k props)
  | Some _ => ret None
  end.

End Access.

(** The outcome of [fetch] followed by [res.json()].  [fetch] rejects only
    when the request does not complete; a response of any status resolves,
    and [res.json()] rejects when its body is not JSON ([body = None]). *)
Inductive fetch_result {num : JsNumber} :=
| NetworkFailure
| Response (status : nat) (body : option json).

(** What an element holds after an assignment to one of its two content
    attributes: [innerText] stores the string as text (line breaks apart, no
    character of it is read as markup), [innerHTML] hands it to the HTML
    parser. *)
Inductive content :=
| Text (s : string)
| Html (markup : string).

(** Characters the templates need and a literal cannot hold. *)
Definition dq : string := String "034" EmptyString.
Definition nl : string := String "010" EmptyString.

(** ** The uploader and the result renderer *)

Module Uploader.

Record file := {
  file_name : string;
  file_type : string;
  file_bytes : list Byte.byte
}.

(** [reader.result] after [reader.readAsDataURL(f)] has loaded: the data URL
    of the bytes of [f], computed by the browser from the file alone. *)
Class FileReaderApi := dataURL : file -> string.

(** A [FileReader] made by [handleFiles]: the file it was told to read, and
    whether its [load] event has fired. *)
Record reader := {
  reading : file;
  fired : bool
}.

(** The argument of [fetch("/upload", ...)]: method and the form's parts. *)
Record upload_request := {
  up_url : string;
  up_method : string;
  up_form : list (string * file)
}.

Record state := {
  selectedFile : option file;        (* let selectedFile = null *)
  preview : content;                 (* what #preview holds *)
  analyzeDisabled : bool;            (* analyzeBtn.disabled *)
  hover : bool;                      (* "hover" in dropArea.classList *)
  results : content;                 (* what #results holds *)
  readers : list reader;             (* oldest first *)
  uploads : list (upload_request * bool); (* fetch calls, oldest first; settled? *)
  pickerOpened : nat;                (* calls of fileInput.click() *)
  defaultPrevented : nat;            (* calls of e.preventDefault() *)
  rejections : list js_error         (* unhandled promise rejections *)
}.

Definition set_selectedFile v (s : state) : state :=
  {| selectedFile := v; preview := preview s; analyzeDisabled := analyzeDisabled s;
     hover := hover s; results := results s; readers := readers s;
     uploads := uploads s; pickerOpened := pickerOpened s;
     defaultPrevented := defaultPrevented s; rejections := rejections s |}.
Definition set_preview v (s : state) : state :=
  {| selectedFile := selectedFile s; preview := v; analyzeDisabled := analyzeDisabled s;
     hover := hover s; results := results s; readers := readers s;
     uploads := uploads s; pickerOpened := pickerOpened s;
     defaultPrevented := defaultPrevented s; rejections := rejections s |}.
Definition set_analyzeDisabled v (s : state) : state :=
  {| selectedFile := selectedFile s; preview := preview s; analyzeDisabled := v;
     hover := hover s; results := results s; readers := readers s;
     uploads := uploads s; pickerOpened := pickerOpened s;
     defaultPrevented := defaultPrevented s; rejections := rejections s |}.
Definition set_hover v (s : state) : state :=
  {| selectedFile := selectedFile s; preview := preview s; analyzeDisabled := analyzeDisabled s;
     hover := v; results := results s; readers := readers s;
     uploads := uploads s; pickerOpened := pickerOpened s;
     defaultPrevented := defaultPrevented s; rejections := rejections s |}.
Definition set_results v (s : state) : state :=
  {| selectedFile := selectedFile s; preview := preview s; analyzeDisabled := analyzeDisabled s;
     hover := hover s; results := v; readers := readers s;
     uploads := uploads s; pickerOpened := pickerOpened s;
     defaultPrevented := defaultPrevented s; rejections := rejections s |}.
Definition set_readers v (s : state) : state :=
  {| selectedFile := selectedFile s; preview := preview s; analyzeDisabled := analyzeDisabled s;
     hover := hover s; results := results s; readers := v;
     uploads := uploads s; pickerOpened := pickerOpened s;
     defaultPrevented := defaultPrevented s; rejections := rejections s |}.
Definition set_uploads v (s : state) : state :=
  {| selectedFile := selectedFile s; preview := preview s; analyzeDisabled := analyzeDisabled s;
     hover := hover s; results := results s; readers := readers s;
     uploads := v; pickerOpened := pickerOpened s;
     defaultPrevented := defaultPrevented s; rejections := rejections s |}.
Definition set_pickerOpened v (s : state) : state :=
  {| selectedFile := selectedFile s; preview := preview s; analyzeDisabled := analyzeDisabled s;
     hover := hover s; results := results s; readers := readers s;
     uploads := uploads s; pickerOpened := v;
     defaultPrevented := defaultPrevented s; rejections := rejections s |}.
Definition set_defaultPrevented v (s : state) : state :=
  {| selectedFile := selectedFile s; preview := preview s; analyzeDisabled := analyzeDisabled s;
     hover := hover s; results := results s; readers := readers s;
     uploads := uploads s; pickerOpened := pickerOpened s;
     defaultPrevented := v; rejections := rejections s |}.
Definition set_rejections v (s : state) : state :=
  {| selectedFile := selectedFile s; preview := preview s; analyzeDisabled := analyzeDisabled s;
     hover := hover s; results := results s; readers := readers s;
     uploads := uploads s; pickerOpened := pickerOpened s;
     defaultPrevented := defaultPrevented s; rejections := v |}.

Definition preventDefault : M state unit :=
  modify (fun s => set_defaultPrevented (S (defaultPrevented s)) s).

Section Handlers.
Context {num : JsNumber} {fr : FileReaderApi}.
Local Open Scope js_scope.

(** [function displayResults(result)]; a template literal converts each
    value as soon as it has read it. *)
Definition displayResults (result : jsval) : M state unit :=
  let* plant := get_prop result "plant" in
  let* plant := converted (template plant) in
  let* status := get_prop result "status" in
  let* status_text := converted (template status) in
  let* confidence := get_prop result "confidence" in
  let* confidence := converted (template confidence) in
  let html :=
    "<div class=" +:+ dq +:+ "result-card" +:+ dq +:+ ">" +:+ nl +:+
    "        <h3>Plant: " +:+ plant +:+ "</h3>" +:+ nl +:+
    "        <p>Status: " +:+ status_text +:+ "</p>" +:+ nl +:+
    "        <p>Confidence: " +:+ confidence +:+ "%</p>" in
  let* status := get_prop result "status" in
  let* html :=
    (if strict_eq_string status "Diseased" then
        let* disease := get_prop result "disease" in
        let* disease := converted (template disease) in
        let* symptoms := get_prop result "symptoms" in
        let* symptoms := converted (template symptoms) in
        let* treatments := get_prop result "treatments" in
        let* treatments := converted (template treatments) in
        let* prevention := get_prop result "prevention" in
        let* prevention := converted (template prevention) in
        ret (html +:+
          "<p><b>Disease:</b> " +:+ disease +:+ "</p>" +:+ nl +:+
          "                 <p><b>Symptoms:</b> " +:+ symptoms +:+ "</p>" +:+ nl +:+
          "                 <p><b>Treatments:</b> " +:+ treatments +:+ "</p>" +:+ nl +:+
          "                 <p><b>Prevention:</b> " +:+ prevention +:+ "</p>")
    else
        let* care_tips := get_prop result "care_tips" in
        let* care_tips := converted (template care_tips) in
        ret (html +:+ "<p><b>Care Tips:</b> " +:+ care_tips +:+ "</p>"))
    in
  let html := html +:+ "</div>" in
  modify (set_results (Html html)).

(** [function handleFiles(files)]: the synchronous part; [reader.onload] is
    [reader_onload] below. *)
Definition handleFiles (files : list file) : M state unit :=
  match files with
  | f :: _ =>
      do modify (set_selectedFile (Some f)) then
      do modify (fun s => set_readers (readers s ++ [{| reading := f; fired := false |}]) s) then
      modify (set_analyzeDisabled false)
  | [] => ret tt
  end.

(** [reader.onload = (e) => { preview.innerHTML = ... }] with
    [e.target.result] the data URL of the file read. *)
Definition reader_onload (result : string) : M state unit :=
  modify (set_preview
    (Html ("<img src=" +:+ dq +:+ result +:+ dq +:+ " alt=" +:+ dq +:+ "Preview" +:+ dq +:+ ">"))).

(** The analyze click handler up to [await fetch(...)]. *)
Definition analyze_click : M state unit :=
  let* sel := gets selectedFile in
  match sel with
  | None => ret tt
  | Some f =>
      let formData := [("file", f)] in
      modify (fun s => set_uploads
        (uploads s ++ [({| up_url := "/upload"; up_method := "POST"; up_form := formData |}, false)]) s)
  end.

(** The rest of the handler, from the settlement of the request on. *)
Definition analyze_resume (o : fetch_result) : M state unit :=
  match o with
  | NetworkFailure => throw (TypeError "Failed to fetch")
  | Response _ None => throw (SyntaxError "Unexpected token")
  | Response _ (Some data) =>
      let* result := get_prop (Some data) "result" in
      displayResults result
  end.

Inductive event :=
| FileSelectClick                         (* click on #fileSelect *)
| InputChange (files : list file)         (* change on #fileElem *)
| DragOver
| DragLeave
| Drop (files : list file)                (* drop, with e.dataTransfer.files *)
| ReaderLoad (r : nat)                    (* load of the r-th FileReader *)
| AnalyzeClick
| UploadSettled (u : nat) (o : fetch_result).

(** A listener that returns leaves the state it wrote; an exception that
    escapes an [async] function is an unhandled rejection. *)
Definition settle (c : M state unit) (s : state) : state :=
  match c s with
  | (Returned _, s') => s'
  | (Thrown e, s') => set_rejections (rejections s' ++ [e]) s'
  end.

Definition handle (e : event) (s : state) : state :=
  match e with
  | FileSelectClick => set_pickerOpened (S (pickerOpened s)) s
  | InputChange files => settle (handleFiles files) s
  | DragOver => settle (do preventDefault then modify (set_hover true)) s
  | DragLeave => set_hover false s
  | Drop files =>
      settle (do preventDefault then do modify (set_hover false) then handleFiles files) s
  | ReaderLoad r =>
      match readers s !! r with
      | Some {| reading := f; fired := false |} =>
          settle (reader_onload (dataURL f))
                 (set_readers (<[r := {| reading := f; fired := true |}]> (readers s)) s)
      | _ => s
      end
  | AnalyzeClick => settle analyze_click s
  | UploadSettled u o =>
      match uploads s !! u with
      | Some (req, false) =>
          settle (analyze_resume o) (set_uploads (<[u := (req, true)]> (uploads s)) s)
      | _ => s
      end
  end.

Definition run (es : list event) (s : state) : state :=
  fold_left (fun s e => handle e s) es s.

End Handlers.

(** Modelled from the spec: the page as the script finds it.  The template
    that declares [#preview], [#results] and [#analyzeBtn] is not among the
    sources; the regions start empty and the analyze action disabled. *)
Definition initial : state :=
  {| selectedFile := None; preview := Html ""; analyzeDisabled := true; hover := false;
     results := Html ""; readers := []; uploads := []; pickerOpened := 0;
     defaultPrevented := 0; rejections := [] |}.

End Uploader.

(** ** The chat widget, [static/js/chatbot.js] *)

Module Chat.

Section Widget.
Context {num : JsNumber}.
Local Open Scope js_scope.

(** A child of [#chatHistory], as [addMessage] builds it. *)
Record message := {
  msg_class : string;                (* el.className *)
  msg_content : content
}.

(** A child of [#quickReplies], as [renderQuickReplies] builds it; [btn_arg]
    is the [q] its [onclick] closure passes to [sendMessage]. *)
Record button := {
  btn_class : string;
  btn_content : content;
  btn_arg : json
}.

(** The arguments of [fetch]; [req_body] is the value [JSON.stringify]
    serializes. *)
Record request := {
  req_url : string;
  req_method : string;
  req_headers : list (string * string);
  req_body : json
}.

(** What the script does to the page and the platform, in order. *)
Inductive effect :=
| GetItem (key : string)              (* localStorage.getItem(key) *)
| AppendMessage (m : message)         (* chatHistory.appendChild(el) *)
| ScrollToEnd                         (* chatHistory.scrollTop = scrollHeight *)
| SetInput (v : string)               (* chatInput.value = v *)
| Fetch (r : request)                 (* fetch(url, init) *)
| ClearQuickReplies                   (* quickRepliesDiv.innerHTML = "" *)
| AppendButton (b : button)           (* quickRepliesDiv.appendChild(b) *)
| PreventDefault.                     (* e.preventDefault() *)

Record state := {
  localStorage : gmap string string;
  sessionId : option string;          (* null when the key is absent *)
  chatHistory : list message;         (* children, in document order *)
  chatInput : string;                 (* chatInput.value *)
  quickReplies : list button;         (* children, in document order *)
  requests : list (request * bool);   (* fetch calls, oldest first; settled? *)
  rejections : list js_error;         (* unhandled promise rejections *)
  trace : list effect                 (* oldest first *)
}.

Definition set_chatHistory v (s : state) : state :=
  {| localStorage := localStorage s; sessionId := sessionId s; chatHistory := v;
     chatInput := chatInput s; quickReplies := quickReplies s;
     requests := requests s; rejections := rejections s; trace := trace s |}.
Definition set_chatInput v (s : state) : state :=
  {| localStorage := localStorage s; sessionId := sessionId s; chatHistory := chatHistory s;
     chatInput := v; quickReplies := quickReplies s;
     requests := requests s; rejections := rejections s; trace := trace s |}.
Definition set_quickReplies v (s : state) : state :=
  {| localStorage := localStorage s; sessionId := sessionId s; chatHistory := chatHistory s;
     chatInput := chatInput s; quickReplies := v;
     requests := requests s; rejections := rejections s; trace := trace s |}.
Definition set_requests v (s : state) : state :=
  {| localStorage := localStorage s; sessionId := sessionId s; chatHistory := chatHistory s;
     chatInput := chatInput s; quickReplies := quickReplies s;
     requests := v; rejections := rejections s; trace := trace s |}.
Definition set_rejections v (s : state) : state :=
  {| localStorage := localStorage s; sessionId := sessionId s; chatHistory := chatHistory s;
     chatInput := chatInput s; quickReplies := quickReplies s;
     requests := requests s; rejections := v; trace := trace s |}.
Definition set_trace v (s : state) : state :=
  {| localStorage := localStorage s; sessionId := sessionId s; chatHistory := chatHistory s;
     chatInput := chatInput s; quickReplies := quickReplies s;
     requests := requests s; rejections := rejections s; trace := v |}.

Definition emit (e : effect) : M state unit :=
  modify (fun s => set_trace (trace s ++ [e]) s).

(** [function addMessage(who, text)]; the element joins the page after its
    text is set. *)
Definition addMessage (who : string) (text : jsval) : M state unit :=
  let className := "msg " +:+ (if String.eqb who "bot" then "bot" else "user") in
  let* innerText := converted (dom_string text) in
  let el := {| msg_class := className; msg_content := Text innerText |} in
  do modify (fun s => set_chatHistory (chatHistory s ++ [el]) s) then
  do emit (AppendMessage el) then
  emit ScrollToEnd.

(** [async function sendMessage(text)] up to [await fetch(...)]. *)
Definition sendMessage (text : json) : M state unit :=
  do addMessage "user" (Some text) then
  do modify (set_chatInput "") then
  do emit (SetInput "") then
  let* sid := gets sessionId in
  let req :=
    {| req_url := "/api/chat";
       req_method := "POST";
       req_headers := [("Content-Type", "application/json")];
       req_body := JObj [("session_id", match sid with Some v => JStr v | None => JNull end);
                         ("message", text)] |} in
  do modify (fun s => set_requests (requests s ++ [(req, false)]) s) then
  emit (Fetch req).

(** The body of [list.forEach(q => ...)]. *)
Definition add_quick_reply (q : json) : M state unit :=
  let* innerText := converted (dom_string (Some q)) in
  let b :=
    {| btn_class := "quick-btn";
       btn_content := Text innerText;
       btn_arg := q |} in
  do modify (fun s => set_quickReplies (quickReplies s ++ [b]) s) then
  emit (AppendButton b).

Fixpoint forEach (items : list json) (f : json -> M state unit) : M state unit :=
  match items with
  | [] => ret tt
  | q :: rest => do f q then forEach rest f
  end.

(** [function renderQuickReplies(list)].  A truthy [list] that is no array
    has no [forEach] to call; an object may still answer [length === 0]. *)
Definition renderQuickReplies (list : jsval) : M state unit :=
  do modify (set_quickReplies []) then
  do emit ClearQuickReplies then
  if negb (truthy list) then ret tt else
  match list with
  | Some (JArr []) => ret tt
  | Some (JArr items) => forEach items add_quick_reply
  | Some (JObj props) =>
      match assoc "length" props with
      | Some (JNum n) =>
          if number_is_zero n then ret tt
          else throw (TypeError "list.forEach is not a function")
      | _ => throw (TypeError "list.forEach is not a function")
      end
  | _ => throw (TypeError "list.forEach is not a function")
  end.

(** The rest of [sendMessage], from the settlement of the request on. *)
Definition sendMessage_resume (o : fetch_result) : M state unit :=
  match o with
  | NetworkFailure => throw (TypeError "Failed to fetch")
  | Response _ None => throw (SyntaxError "Unexpected token")
  | Response _ (Some data) =>
      let* reply := get_prop (Some data) "reply" in
      do addMessage "bot" reply then
      let* quick_replies := get_prop (Some data) "quick_replies" in
      renderQuickReplies (if truthy quick_replies then quick_replies else Some (JArr []))
  end.

(** [sendBtn.addEventListener("click", ...)] *)
Definition sendBtn_click : M state unit :=
  let* v := gets chatInput in
  let t := trim v in
  if String.eqb t "" then ret tt else sendMessage (JStr t).

(** [chatInput.addEventListener("keydown", ...)]; [sendBtn.click()] runs the
    click listener before it returns. *)
Definition chatInput_keydown (key : string) : M state unit :=
  if String.eqb key "Enter" then
    do emit PreventDefault then sendBtn_click
  else ret tt.

(** [window.addEventListener("load", ...)] *)
Definition window_load : M state unit :=
  do addMessage "bot"
       (Some (JStr "Hello — I can help with crop care, uploading, or disease symptoms. Try a quick suggestion."))
  then renderQuickReplies (Some (JArr [JStr "How to upload a photo?"; JStr "Tomato care tips"])).

Inductive event :=
| Load                                (* load on window *)
| Typed (v : string)                  (* the user edits the field to hold v *)
| SendClick                           (* click on #sendBtn *)
| KeyDown (key : string)              (* keydown on #chatInput, with e.key *)
| QuickClick (i : nat)                (* click on the i-th quick-reply button *)
| Settled (r : nat) (o : fetch_result). (* the r-th request settles *)

Definition settle (c : M state unit) (s : state) : state :=
  match c s with
  | (Returned _, s') => s'
  | (Thrown e, s') => set_rejections (rejections s' ++ [e]) s'
  end.

Definition handle (e : event) (s : state) : state :=
  match e with
  | Load => settle window_load s
  | Typed v => set_chatInput v s
  | SendClick => settle sendBtn_click s
  | KeyDown key => settle (chatInput_keydown key) s
  | QuickClick i =>
      match quickReplies s !! i with
      | Some b => settle (sendMessage (btn_arg b)) s
      | None => s
      end
  | Settled r o =>
      match requests s !! r with
      | Some (req, false) =>
          settle (sendMessage_resume o) (set_requests (<[r := (req, true)]> (requests s)) s)
      | _ => s
      end
  end.

Definition run (es : list event) (s : state) : state :=
  fold_left (fun s e => handle e s) es s.

(** Modelled from the spec: the page the script finds.  The template that
    declares [#chatHistory], [#chatInput] and [#quickReplies] is not among
    the sources; they start empty. *)
Definition empty_page (storage : gmap string string) (sid : option string)
    (t : list effect) : state :=
  {| localStorage := storage;
     sessionId := sid;
     chatHistory := [];
     chatInput := "";
     quickReplies := [];
     requests := [];
     rejections := [];
     trace := t |}.

(** The top level of the script: the five [const] declarations; the one
    that touches the platform is [localStorage.getItem]. *)
Definition script_load (storage : gmap string string) : state :=
  let sessionId := storage !! "crop_chat_session" in
  empty_page storage sessionId [GetItem "crop_chat_session"].

End Widget.

End Chat.

(** ** A concrete platform for the examples *)

(** Integers as the numbers, printed in decimal. *)
Definition ZNumber : JsNumber :=
  {| number := Z; number_to_string := pretty; number_is_zero := Z.eqb 0 |}.

Definition base64_alphabet : string :=
  "ABCDEFGHIJKLMNOPQRSTUVWXYZabcdefghijklmnopqrstuvwxyz0123456789+/".

Definition base64_digit (n : N) : ascii :=
  match String.get (N.to_nat n) base64_alphabet with
  | Some c => c
  | None => "="%char
  end.

Fixpoint base64 (bs : list Byte.byte) : string :=
  match bs with
  | [] => ""
  | [a] =>
      let x := Byte.to_N a in
      String (base64_digit (x / 4)) (String (base64_digit (x mod 4 * 16)) "==")
  | [a; b] =>
      let x := Byte.to_N a in
      let y := Byte.to_N b in
      String (base64_digit (x / 4))
        (String (base64_digit (x mod 4 * 16 + y / 16))
           (String (base64_digit (y mod 16 * 4)) "="))
  | a :: b :: c :: rest =>
      let x := Byte.to_N a in
      let y := Byte.to_N b in
      let z := Byte.to_N c in
      String (base64_digit (x / 4))
        (String (base64_digit (x mod 4 * 16 + y / 16))
           (String (base64_digit (y mod 16 * 4 + z / 64))
              (String (base64_digit (z mod 64)) (base64 rest))))
  end%N.

(** A data URL as RFC 2397 writes it. *)
Definition rfc2397 : Uploader.FileReaderApi :=
  fun f => "data:" +:+ Uploader.file_type f +:+ ";base64," +:+ base64 (Uploader.file_bytes f).

(** ** Vocabulary of the statements *)

(** [needle] stands somewhere in [hay], character for character. *)
Definition occurs_in (needle hay : string) : Prop :=
  exists pre post, hay = pre +:+ needle +:+ post.

(** Two objects that differ at most in the properties named [ks]. *)
Definition agree_off {num : JsNumber} (ks : list string) (p q : list (string * json)) : Prop :=
  forall k, ~ In k ks -> assoc k p = assoc k q.

(** ** Strings *)

Lemma append_cons (x : ascii) (a b : string) : String x a +:+ b = String x (a +:+ b).
Proof. reflexivity. Qed.

Lemma append_nil_l (b : string) : "" +:+ b = b.
Proof. reflexivity. Qed.

Lemma append_assoc (a b c : string) : (a +:+ b) +:+ c = a +:+ b +:+ c.
Proof.
  induction a as [|x a IH]; [reflexivity|].
  rewrite !append_cons. now rewrite IH.
Qed.

Lemma append_nil_r (a : string) : a +:+ "" = a.
Proof.
  induction a as [|x a IH]; [reflexivity|].
  rewrite append_cons. now rewrite IH.
Qed.

Lemma occurs_in_head (x post : string) : occurs_in x (x +:+ post).
Proof. exists "", post. reflexivity. Qed.

Lemma occurs_in_self (x : string) : occurs_in x x.
Proof. exists "", "". now rewrite append_nil_l, append_nil_r. Qed.

Lemma occurs_in_skip (x p h : string) : occurs_in x h -> occurs_in x (p +:+ h).
Proof.
  intros (pre & post & ->). exists (p +:+ pre), post. now rewrite append_assoc.
Qed.

Lemma occurs_in_left (x h q : string) : occurs_in x h -> occurs_in x (h +:+ q).
Proof.
  intros (pre & post & ->). exists pre, (post +:+ q).
  now rewrite !append_assoc.
Qed.

(** Finds an interpolated piece inside a template. *)
Ltac find_piece :=
  solve [ repeat first
    [ apply occurs_in_self
    | apply occurs_in_head
    | apply occurs_in_left; find_piece
    | apply occurs_in_skip ] ].

(** *** Where a tag cannot stand *)

(** A template as the pieces it is pasted from: its literals and the values
    interpolated between them. *)
Inductive piece :=
| Lit (s : string)
| Val (s : string).

Definition text_of (p : piece) : string :=
  match p with
  | Lit s => s
  | Val s => s
  end.

Fixpoint paste (ps : list piece) : string :=
  match ps with
  | [] => ""
  | p :: rest => text_of p +:+ paste rest
  end.

(** [s] holds no [<]. *)
Definition no_lt (s : string) : bool :=
  forallb (fun c => negb (Ascii.eqb c "<")) (list_ascii_of_string s).

(** [n] and [l] differ at a position both have. *)
Fixpoint differs (n l : string) : bool :=
  match n, l with
  | String a n', String b l' => negb (Ascii.eqb a b) || differs n' l'
  | _, _ => false
  end.

(** After no [<] of the literal [l] do the characters that follow it inside
    [l] spell [n]. *)
Fixpoint lit_clear (n l : string) : bool :=
  match l with
  | EmptyString => true
  | String c l' => (negb (Ascii.eqb c "<") || differs n l') && lit_clear n l'
  end.

Definition clear (n : string) (ps : list piece) : bool :=
  forallb (fun p => match p with Lit l => lit_clear n l | Val _ => true end) ps.

Definition plain_values (ps : list piece) : Prop :=
  forall v, In (Val v) ps -> no_lt v = true.

Lemma occurs_in_empty (a : ascii) (n : string) : ~ occurs_in (String a n) "".
Proof.
  intros (pre & post & Heq). destruct pre; rewrite ?append_cons, ?append_nil_l in Heq;
    discriminate.
Qed.

Lemma occurs_in_cons (m : string) (c : ascii) (r : string) :
  occurs_in m (String c r) -> (exists post, String c r = m +:+ post) \/ occurs_in m r.
Proof.
  intros (pre & post & Heq). destruct pre as [|x pre].
  - left. exists post. now rewrite append_nil_l in Heq.
  - right. rewrite append_cons in Heq. injection Heq as _ ->. now exists pre, post.
Qed.

Lemma differs_sound (n l rest post : string) :
  differs n l = true -> l +:+ rest <> n +:+ post.
Proof.
  revert l. induction n as [|a n IH]; intros [|b l] Hd; try discriminate.
  cbn in Hd. rewrite !append_cons. intros Heq. injection Heq as Hab Hrest.
  apply orb_true_iff in Hd as [Hd|Hd].
  - subst b. now rewrite Ascii.eqb_refl in Hd.
  - now apply (IH l Hd).
Qed.

Lemma lit_clear_sound (n l rest : string) :
  lit_clear n l = true ->
  ~ occurs_in (String "<" n) rest ->
  ~ occurs_in (String "<" n) (l +:+ rest).
Proof.
  induction l as [|c l IH]; intros Hc Hrest; [now rewrite append_nil_l|].
  cbn in Hc. apply andb_true_iff in Hc as [Hhere Hl].
  rewrite append_cons. intros Hocc.
  apply occurs_in_cons in Hocc as [[post Heq]|Hocc]; [|now apply (IH Hl Hrest)].
  rewrite append_cons in Heq. injection Heq as -> Heq.
  cbn in Hhere. now apply (differs_sound n l rest post Hhere).
Qed.

Lemma no_lt_sound (n v rest : string) :
  no_lt v = true ->
  ~ occurs_in (String "<" n) rest ->
  ~ occurs_in (String "<" n) (v +:+ rest).
Proof.
  unfold no_lt. induction v as [|c v IH]; intros Hv Hrest; [now rewrite append_nil_l|].
  cbn in Hv. apply andb_true_iff in Hv as [Hc Hv].
  rewrite append_cons. intros Hocc.
  apply occurs_in_cons in Hocc as [[post Heq]|Hocc]; [|now apply (IH Hv Hrest)].
  rewrite append_cons in Heq. injection Heq as -> _. discriminate.
Qed.

(** A tag that no literal of a template spells does not stand in the text
    pasted from it, as long as the values hold no [<]. *)
Lemma clear_sound (n : string) (ps : list piece) :
  clear n ps = true -> plain_values ps -> ~ occurs_in (String "<" n) (paste ps).
Proof.
  induction ps as [|p ps IH]; intros Hc Hv; [apply occurs_in_empty|].
  cbn in Hc. apply andb_true_iff in Hc as [Hp Hps].
  assert (Hrest : ~ occurs_in (String "<" n) (paste ps)).
  { apply IH; [exact Hps|]. intros v Hin. apply Hv. now right. }
  destruct p as [l|v]; cbn [paste text_of].
  - now apply lit_clear_sound.
  - apply no_lt_sound; [|exact Hrest]. apply Hv. now left.
Qed.

(** ** What a computation leaves alone *)

(** The computation [c] does not change the component [f] of the state,
    however it ends. *)
Definition keeps {S A B} (f : S -> A) (c : M S B) : Prop :=
  forall s, f (snd (c s)) = f s.

Lemma keeps_ret {S A B} (f : S -> A) (b : B) : keeps f (ret b).
Proof. intros s. reflexivity. Qed.

Lemma keeps_throw {S A B} (f : S -> A) (e : js_error) : keeps f (@throw S B e).
Proof. intros s. reflexivity. Qed.

Lemma keeps_gets {S A B} (f : S -> A) (g : S -> B) : keeps f (gets g).
Proof. intros s. reflexivity. Qed.

Lemma keeps_converted {S A} (f : S -> A) (o : option string) : keeps f (converted o).
Proof. intros s. destruct o; reflexivity. Qed.

Lemma keeps_get_prop {num : JsNumber} {S A} (f : S -> A) (v : jsval) (k : string) :
  keeps f (get_prop v k).
Proof. intros s. destruct v as [[]|]; reflexivity. Qed.

Lemma keeps_modify {S A} (f : S -> A) (g : S -> S) :
  (forall s, f (g s) = f s) -> keeps f (modify g).
Proof. intros Hg s. apply Hg. Qed.

Lemma keeps_bind {S A B C} (f : S -> A) (c : M S B) (k : B -> M S C) :
  keeps f c -> (forall b, keeps f (k b)) -> keeps f (bind c k).
Proof.
  intros Hc Hk s. unfold bind. specialize (Hc s).
  destruct (c s) as [[b|e] s']; cbn in *; [|exact Hc].
  now rewrite Hk.
Qed.

Lemma keeps_if {S A B} (f : S -> A) (b : bool) (c d : M S B) :
  keeps f c -> keeps f d -> keeps f (if b then c else d).
Proof. destruct b; auto. Qed.

(** ** The result renderer *)

Module UploaderSpec.
Import Uploader.

Section Renderer.
Context {num : JsNumber} {fr : FileReaderApi}.

Definition is_diseased (props : list (string * json)) : bool :=
  strict_eq_string (assoc "status" props) "Diseased".

(** The properties the branch taken interpolates. *)
Definition interpolated (props : list (string * json)) : list string :=
  ["plant"; "status"; "confidence"] ++
  (if is_diseased props
   then ["disease"; "symptoms"; "treatments"; "prevention"]
   else ["care_tips"]).

(** Every value the branch taken interpolates converts to a string: strings
    and numbers, as an Analysis Result holds them, always do. *)
Definition printable (props : list (string * json)) : bool :=
  forallb (fun k => match template (assoc k props) with Some _ => true | None => false end)
    (interpolated props).

(** The text [displayResults] prints for the property [k] of the result. *)
Definition shown (props : list (string * json)) (k : string) : string :=
  default "" (template (assoc k props)).

(** What [#results] holds once [displayResults] has run on the object
    [props], read off the final state. *)
Definition rendered (props : list (string * json)) (s : state) : content :=
  results (snd (displayResults (Some (JObj props)) s)).

Lemma shown_some (props : list (string * json)) (k : string) :
  printable props = true -> In k (interpolated props) ->
  template (assoc k props) = Some (shown props k).
Proof.
  unfold printable, shown. rewrite forallb_forall. intros Hp Hk.
  specialize (Hp k Hk). now destruct (template (assoc k props)).
Qed.

(** Absent values, [null], booleans, numbers and strings convert. *)
Definition scalar (v : jsval) : bool :=
  match v with
  | Some (JArr _) | Some (JObj _) => false
  | _ => true
  end.

Lemma scalar_printable (props : list (string * json)) :
  (forall k, In k (interpolated props) -> scalar (assoc k props) = true) ->
  printable props = true.
Proof.
  intros Hs. unfold printable. apply forallb_forall. intros k Hk.
  specialize (Hs k Hk). destruct (assoc k props) as [[| [|] | | | |]|]; easy.
Qed.

Lemma displayResults_diseased (props : list (string * json)) (s : state) :
  is_diseased props = true -> printable props = true ->
  displayResults (Some (JObj props)) s =
  (Returned tt, set_results (Html ((
    ("<div class=" +:+ dq +:+ "result-card" +:+ dq +:+ ">" +:+ nl +:+
     "        <h3>Plant: " +:+ shown props "plant" +:+ "</h3>" +:+ nl +:+
     "        <p>Status: " +:+ shown props "status" +:+ "</p>" +:+ nl +:+
     "        <p>Confidence: " +:+ shown props "confidence" +:+ "%</p>") +:+
    "<p><b>Disease:</b> " +:+ shown props "disease" +:+ "</p>" +:+ nl +:+
    "                 <p><b>Symptoms:</b> " +:+ shown props "symptoms" +:+ "</p>" +:+ nl +:+
    "                 <p><b>Treatments:</b> " +:+ shown props "treatments" +:+ "</p>" +:+ nl +:+
    "                 <p><b>Prevention:</b> " +:+ shown props "prevention" +:+ "</p>") +:+
    "</div>")) s).
Proof.
  intros E Hp.
  assert (Hk : forall k, In k ["plant"; "status"; "confidence"; "disease"; "symptoms";
                               "treatments"; "prevention"] ->
               template (assoc k props) = Some (shown props k)).
  { intros k Hk. apply shown_some; [exact Hp|]. unfold interpolated. now rewrite E. }
  unfold is_diseased in E.
  unfold displayResults, bind, get_prop, ret.
  rewrite ?Hk by (cbn; tauto). cbn. rewrite E. cbn.
  rewrite ?Hk by (cbn; tauto). reflexivity.
Qed.

Lemma displayResults_otherwise (props : list (string * json)) (s : state) :
  is_diseased props = false -> printable props = true ->
  displayResults (Some (JObj props)) s =
  (Returned tt, set_results (Html ((
    ("<div class=" +:+ dq +:+ "result-card" +:+ dq +:+ ">" +:+ nl +:+
     "        <h3>Plant: " +:+ shown props "plant" +:+ "</h3>" +:+ nl +:+
     "        <p>Status: " +:+ shown props "status" +:+ "</p>" +:+ nl +:+
     "        <p>Confidence: " +:+ shown props "confidence" +:+ "%</p>") +:+
    "<p><b>Care Tips:</b> " +:+ shown props "care_tips" +:+ "</p>") +:+
    "</div>")) s).
Proof.
  intros E Hp.
  assert (Hk : forall k, In k ["plant"; "status"; "confidence"; "care_tips"] ->
               template (assoc k props) = Some (shown props k)).
  { intros k Hk. apply shown_some; [exact Hp|]. unfold interpolated. now rewrite E. }
  unfold is_diseased in E.
  unfold displayResults, bind, get_prop, ret.
  rewrite ?Hk by (cbn; tauto). cbn. rewrite E. cbn.
  rewrite ?Hk by (cbn; tauto). reflexivity.
Qed.

Lemma rendered_diseased (props : list (string * json)) (s : state) :
  is_diseased props = true -> printable props = true ->
  rendered props s = Html ((
    ("<div class=" +:+ dq +:+ "result-card" +:+ dq +:+ ">" +:+ nl +:+
     "        <h3>Plant: " +:+ shown props "plant" +:+ "</h3>" +:+ nl +:+
     "        <p>Status: " +:+ shown props "status" +:+ "</p>" +:+ nl +:+
     "        <p>Confidence: " +:+ shown props "confidence" +:+ "%</p>") +:+
    "<p><b>Disease:</b> " +:+ shown props "disease" +:+ "</p>" +:+ nl +:+
    "                 <p><b>Symptoms:</b> " +:+ shown props "symptoms" +:+ "</p>" +:+ nl +:+
    "                 <p><b>Treatments:</b> " +:+ shown props "treatments" +:+ "</p>" +:+ nl +:+
    "                 <p><b>Prevention:</b> " +:+ shown props "prevention" +:+ "</p>") +:+
    "</div>").
Proof.
  intros E Hp. unfold rendered. now rewrite (displayResults_diseased props s E Hp).
Qed.

Lemma rendered_otherwise (props : list (string * json)) (s : state) :
  is_diseased props = false -> printable props = true ->
  rendered props s = Html ((
    ("<div class=" +:+ dq +:+ "result-card" +:+ dq +:+ ">" +:+ nl +:+
     "        <h3>Plant: " +:+ shown props "plant" +:+ "</h3>" +:+ nl +:+
     "        <p>Status: " +:+ shown props "status" +:+ "</p>" +:+ nl +:+
     "        <p>Confidence: " +:+ shown props "confidence" +:+ "%</p>") +:+
    "<p><b>Care Tips:</b> " +:+ shown props "care_tips" +:+ "</p>") +:+
    "</div>").
Proof.
  intros E Hp. unfold rendered. now rewrite (displayResults_otherwise props s E Hp).
Qed.

Lemma displayResults_returns (props : list (string * json)) (s : state) :
  printable props = true ->
  displayResults (Some (JObj props)) s = (Returned tt, set_results (rendered props s) s).
Proof.
  intros Hp. unfold rendered. destruct (is_diseased props) eqn:E.
  - now rewrite (displayResults_diseased props s E Hp).
  - now rewrite (displayResults_otherwise props s E Hp).
Qed.

(** A value that does not convert stops the renderer before the
    assignment: the page is as it was. *)
Lemma displayResults_throws (props : list (string * json)) (s : state) :
  printable props = false ->
  exists e, displayResults (Some (JObj props)) s = (Thrown e, s).
Proof.
  intros Hp. unfold printable, interpolated, is_diseased in Hp.
  unfold displayResults, bind, get_prop, ret.
  destruct (template (assoc "plant" props)) eqn:E1; cbn; [|eauto].
  destruct (template (assoc "status" props)) eqn:E2; cbn; [|eauto].
  destruct (template (assoc "confidence" props)) eqn:E3; cbn; [|eauto].
  destruct (strict_eq_string (assoc "status" props) "Diseased"); cbn in *.
  - destruct (template (assoc "disease" props)) eqn:E4; cbn; [|eauto].
    destruct (template (assoc "symptoms" props)) eqn:E5; cbn; [|eauto].
    destruct (template (assoc "treatments" props)) eqn:E6; cbn; [|eauto].
    destruct (template (assoc "prevention" props)) eqn:E7; cbn; [|eauto].
    rewrite E1, E2, E3 in Hp. discriminate.
  - destruct (template (assoc "care_tips" props)) eqn:E4; cbn; [|eauto].
    rewrite E1, E2, E3 in Hp. discriminate.
Qed.

(** The two fragments as templates. *)
Definition diseased_pieces (props : list (string * json)) : list piece :=
  [Lit ("<div class=" +:+ dq +:+ "result-card" +:+ dq +:+ ">" +:+ nl +:+ "        <h3>Plant: ");
   Val (shown props "plant");
   Lit ("</h3>" +:+ nl +:+ "        <p>Status: ");
   Val (shown props "status");
   Lit ("</p>" +:+ nl +:+ "        <p>Confidence: ");
   Val (shown props "confidence");
   Lit ("%</p>" +:+ "<p><b>Disease:</b> ");
   Val (shown props "disease");
   Lit ("</p>" +:+ nl +:+ "                 <p><b>Symptoms:</b> ");
   Val (shown props "symptoms");
   Lit ("</p>" +:+ nl +:+ "                 <p><b>Treatments:</b> ");
   Val (shown props "treatments");
   Lit ("</p>" +:+ nl +:+ "                 <p><b>Prevention:</b> ");
   Val (shown props "prevention");
   Lit ("</p>" +:+ "</div>")].

Definition healthy_pieces (props : list (string * json)) : list piece :=
  [Lit ("<div class=" +:+ dq +:+ "result-card" +:+ dq +:+ ">" +:+ nl +:+ "        <h3>Plant: ");
   Val (shown props "plant");
   Lit ("</h3>" +:+ nl +:+ "        <p>Status: ");
   Val (shown props "status");
   Lit ("</p>" +:+ nl +:+ "        <p>Confidence: ");
   Val (shown props "confidence");
   Lit ("%</p>" +:+ "<p><b>Care Tips:</b> ");
   Val (shown props "care_tips");
   Lit ("</p>" +:+ "</div>")].

(** The values the branch taken interpolates hold no [<]. *)
Definition plain (props : list (string * json)) : Prop :=
  forall k, In k (interpolated props) -> no_lt (shown props k) = true.

Lemma rendered_diseased_pieces (props : list (string * json)) (s : state) :
  is_diseased props = true -> printable props = true ->
  rendered props s = Html (paste (diseased_pieces props)).
Proof.
  intros E Hp. rewrite (rendered_diseased props s E Hp). f_equal.
  cbn [paste diseased_pieces text_of]. now rewrite !append_assoc, append_nil_r.
Qed.

Lemma rendered_healthy_pieces (props : list (string * json)) (s : state) :
  is_diseased props = false -> printable props = true ->
  rendered props s = Html (paste (healthy_pieces props)).
Proof.
  intros E Hp. rewrite (rendered_otherwise props s E Hp). f_equal.
  cbn [paste healthy_pieces text_of]. now rewrite !append_assoc, append_nil_r.
Qed.

Lemma plain_diseased (props : list (string * json)) :
  is_diseased props = true -> plain props -> plain_values (diseased_pieces props).
Proof.
  unfold plain, interpolated. intros -> Hp v Hin. cbn in Hin.
  repeat (destruct Hin as [Hin|Hin];
          [first [discriminate Hin | injection Hin as <-; apply Hp; cbn; tauto]|]).
  destruct Hin.
Qed.

Lemma plain_healthy (props : list (string * json)) :
  is_diseased props = false -> plain props -> plain_values (healthy_pieces props).
Proof.
  unfold plain, interpolated. intros -> Hp v Hin. cbn in Hin.
  repeat (destruct Hin as [Hin|Hin];
          [first [discriminate Hin | injection Hin as <-; apply Hp; cbn; tauto]|]).
  destruct Hin.
Qed.

Ltac not_listed := cbn; intuition discriminate.

Lemma is_diseased_agree (ks : list string) (p q : list (string * json)) :
  ~ In "status" ks -> agree_off ks p q -> is_diseased q = is_diseased p.
Proof. intros Hk Hag. unfold is_diseased. now rewrite (Hag "status" Hk). Qed.

Lemma shown_agree (ks : list string) (p q : list (string * json)) (k : string) :
  ~ In k ks -> agree_off ks p q -> shown q k = shown p k.
Proof. intros Hk Hag. unfold shown. now rewrite (Hag k Hk). Qed.

(** A change of properties the branch taken does not interpolate leaves a
    result printable. *)
Lemma printable_agree (ks : list string) (p q : list (string * json)) :
  ~ In "status" ks -> (forall k, In k (interpolated p) -> ~ In k ks) ->
  agree_off ks p q -> printable q = printable p.
Proof.
  intros Hst Hks Hag. unfold printable.
  assert (Hi : interpolated q = interpolated p)
    by (unfold interpolated; now rewrite (is_diseased_agree ks p q Hst Hag)).
  rewrite Hi. apply Bool.eq_iff_eq_true. rewrite !forallb_forall.
  split; intros Hall k Hk; specialize (Hall k Hk);
    [rewrite <- (Hag k (Hks k Hk)) in Hall | rewrite <- (Hag k (Hks k Hk))]; exact Hall.
Qed.

(** The comparison the renderer branches on holds for the string
    ["Diseased"] and for nothing else. *)
Lemma is_diseased_status (props : list (string * json)) :
  is_diseased props = true <-> assoc "status" props = Some (JStr "Diseased").
Proof.
  unfold is_diseased, strict_eq_string.
  destruct (assoc "status" props) as [[| | |v| |]|]; split; try discriminate.
  - intros Hv. apply String.eqb_eq in Hv. now subst.
  - intros Hv. injection Hv as ->. apply String.eqb_refl.
Qed.

(** C1.  On an Analysis Result (an object whose values shown convert to
    strings) [displayResults] returns, and the only thing it changes is what
    [#results] holds, which it replaces whatever it was.  The fragment shows
    plant, status and confidence.  Which block follows is decided by the
    status alone.  When the status is the string ["Diseased"], the fragment
    is the one with the disease block: the disease, symptoms, treatments and
    prevention texts stand in it, [care_tips] plays no part in it, and the
    care-tips heading stands nowhere in it unless a value shown brings
    markup of its own.  When the status is anything else (another string,
    a value that is no string, or none), the fragment is the one with the
    care-tips block: the care-tips text stands in it, the four disease
    properties play no part, and none of their headings stands in it, with
    the same proviso. *)
Theorem displayResults_branches_on_status (props : list (string * json)) (s : state) :
  printable props = true ->
  (displayResults (Some (JObj props)) s = (Returned tt, set_results (rendered props s) s)
   /\ forall s', rendered props s' = rendered props s)
  /\ (is_diseased props = true <-> assoc "status" props = Some (JStr "Diseased"))
  /\ exists html,
       rendered props s = Html html
       /\ occurs_in (shown props "plant") html
       /\ occurs_in (shown props "status") html
       /\ occurs_in (shown props "confidence") html
       /\ (assoc "status" props = Some (JStr "Diseased") ->
           html = paste (diseased_pieces props)
           /\ (occurs_in (shown props "disease") html
               /\ occurs_in (shown props "symptoms") html
               /\ occurs_in (shown props "treatments") html
               /\ occurs_in (shown props "prevention") html)
           /\ (forall q, agree_off ["care_tips"] props q -> rendered q s = rendered props s)
           /\ (plain props -> ~ occurs_in "<b>Care Tips:</b>" html))
       /\ (assoc "status" props <> Some (JStr "Diseased") ->
           html = paste (healthy_pieces props)
           /\ occurs_in (shown props "care_tips") html
           /\ (forall q, agree_off ["disease"; "symptoms"; "treatments"; "prevention"] props q ->
                 rendered q s = rendered props s)
           /\ (plain props ->
               ~ occurs_in "<b>Disease:</b>" html /\ ~ occurs_in "<b>Symptoms:</b>" html
               /\ ~ occurs_in "<b>Treatments:</b>" html /\ ~ occurs_in "<b>Prevention:</b>" html)).
Proof.
  intros Hp. split; [split|split].
  - now apply displayResults_returns.
  - intros s'. destruct (is_diseased props) eqn:E.
    + now rewrite !rendered_diseased.
    + now rewrite !rendered_otherwise.
  - apply is_diseased_status.
  - destruct (is_diseased props) eqn:E.
    + exists (paste (diseased_pieces props)).
      split; [now apply rendered_diseased_pieces|].
      cbn [paste diseased_pieces text_of].
      split; [find_piece|]. split; [find_piece|]. split; [find_piece|].
      split; [|intros Hs; exfalso; apply Hs; now apply is_diseased_status].
      intros _. split; [reflexivity|]. repeat split; try find_piece.
      * intros q Hag.
        assert (Eq : is_diseased q = true)
          by (rewrite <- E; apply (is_diseased_agree ["care_tips"]); [not_listed | exact Hag]).
        assert (Hq : printable q = true).
        { rewrite <- Hp. apply (printable_agree ["care_tips"]); [not_listed| |exact Hag].
          unfold interpolated. rewrite E. cbn. intuition (subst; discriminate). }
        rewrite (rendered_diseased q s Eq Hq), (rendered_diseased props s E Hp).
        rewrite !(shown_agree ["care_tips"] props q) by (not_listed || exact Hag).
        reflexivity.
      * intros Hplain.
        apply (clear_sound "b>Care Tips:</b>" (diseased_pieces props));
          [reflexivity | now apply plain_diseased].
    + exists (paste (healthy_pieces props)).
      split; [now apply rendered_healthy_pieces|].
      cbn [paste healthy_pieces text_of].
      split; [find_piece|]. split; [find_piece|]. split; [find_piece|].
      split; [intros Hs; apply is_diseased_status in Hs; congruence|].
      intros _. split; [reflexivity|]. repeat split; try find_piece.
      * intros q Hag.
        assert (Eq : is_diseased q = false)
          by (rewrite <- E; apply (is_diseased_agree ["disease"; "symptoms"; "treatments"; "prevention"]);
              [not_listed | exact Hag]).
        assert (Hq : printable q = true).
        { rewrite <- Hp.
          apply (printable_agree ["disease"; "symptoms"; "treatments"; "prevention"]);
            [not_listed| |exact Hag].
          unfold interpolated. rewrite E. cbn. intuition (subst; discriminate). }
        rewrite (rendered_otherwise q s Eq Hq), (rendered_otherwise props s E Hp).
        rewrite !(shown_agree ["disease"; "symptoms"; "treatments"; "prevention"] props q)
          by (not_listed || exact Hag).
        reflexivity.
      * apply (clear_sound "b>Disease:</b>" (healthy_pieces props));
          [reflexivity | now apply plain_healthy].
      * apply (clear_sound "b>Symptoms:</b>" (healthy_pieces props));
          [reflexivity | now apply plain_healthy].
      * apply (clear_sound "b>Treatments:</b>" (healthy_pieces props));
          [reflexivity | now apply plain_healthy].
      * apply (clear_sound "b>Prevention:</b>" (healthy_pieces props));
          [reflexivity | now apply plain_healthy].
Qed.

(** C8.  Every property the branch taken interpolates goes into the string
    assigned to [#results]'s [innerHTML] as it is: when its value is the
    string [v], whatever markup [v] holds, [v] stands in that string
    character for character. *)
Theorem displayResults_interpolates_verbatim
    (props : list (string * json)) (s : state) (k v : string) :
  printable props = true ->
  In k (interpolated props) ->
  assoc k props = Some (JStr v) ->
  exists pre post, rendered props s = Html (pre +:+ v +:+ post).
Proof.
  intros Hp Hk Hv.
  assert (Hshown : shown props k = v) by (unfold shown; now rewrite Hv).
  enough (exists html, rendered props s = Html html /\ occurs_in (shown props k) html) as
    (html & -> & pre & post & ->) by (rewrite Hshown; eauto).
  unfold interpolated in Hk.
  destruct (is_diseased props) eqn:E.
  - eexists. split; [now apply rendered_diseased|].
    cbn in Hk. repeat (destruct Hk as [<-|Hk]; [find_piece|]). destruct Hk.
  - eexists. split; [now apply rendered_otherwise|].
    cbn in Hk. repeat (destruct Hk as [<-|Hk]; [find_piece|]). destruct Hk.
Qed.

(** Each of the eight properties is interpolated under one status or the
    other. *)
Lemma interpolated_covers (k : string) :
  In k ["plant"; "status"; "confidence"; "disease"; "symptoms"; "treatments";
        "prevention"; "care_tips"] ->
  forall props, In k (interpolated props) \/
    (k = "care_tips" /\ is_diseased props = true) \/
    (In k ["disease"; "symptoms"; "treatments"; "prevention"] /\ is_diseased props = false).
Proof.
  intros Hk props. unfold interpolated. destruct (is_diseased props); cbn in *; intuition.
Qed.

End Renderer.

(** A diseased result as the server sends it. *)
Definition blighted : list (string * @json ZNumber) :=
  [("plant", JStr "Tomato"); ("status", JStr "Diseased");
   ("confidence", @JNum ZNumber 93%Z);
   ("disease", JStr "Early Blight"); ("symptoms", JStr "Dark spots on older leaves");
   ("treatments", JStr "Copper fungicide"); ("prevention", JStr "Rotate crops")].

(** A healthy result whose care tips carry markup. *)
Definition marked_up : list (string * @json ZNumber) :=
  [("plant", JStr "Tomato"); ("status", JStr "Healthy");
   ("confidence", @JNum ZNumber 97%Z);
   ("care_tips", JStr "<img src=x onerror=alert(1)>")].

(** A diseased result whose disease name spells the care-tips heading. *)
Definition heading_in_value : list (string * @json ZNumber) :=
  [("plant", JStr "Tomato"); ("status", JStr "Diseased");
   ("confidence", @JNum ZNumber 93%Z);
   ("disease", JStr "<b>Care Tips:</b>"); ("symptoms", JStr "s");
   ("treatments", JStr "t"); ("prevention", JStr "p")].

(** A healthy result as the server sends it. *)
Definition thriving : list (string * @json ZNumber) :=
  [("plant", JStr "Tomato"); ("status", JStr "Healthy");
   ("confidence", @JNum ZNumber 97%Z);
   ("care_tips", JStr "Water at the base of the plant")].

(** A result with the texts of a disease whose status is not the string
    ["Diseased"]: it differs by the case of one letter. *)
Definition lower_case : list (string * @json ZNumber) :=
  [("plant", JStr "Tomato"); ("status", JStr "diseased");
   ("confidence", @JNum ZNumber 93%Z);
   ("disease", JStr "Early Blight"); ("symptoms", JStr "Dark spots on older leaves");
   ("treatments", JStr "Copper fungicide"); ("prevention", JStr "Rotate crops");
   ("care_tips", JStr "Water at the base of the plant")].

Lemma displayResults_branches_on_status_witness :
  (rendered blighted initial =
   Html ("<div class=" +:+ dq +:+ "result-card" +:+ dq +:+ ">" +:+ nl +:+
         "        <h3>Plant: Tomato</h3>" +:+ nl +:+
         "        <p>Status: Diseased</p>" +:+ nl +:+
         "        <p>Confidence: 93%</p><p><b>Disease:</b> Early Blight</p>" +:+ nl +:+
         "                 <p><b>Symptoms:</b> Dark spots on older leaves</p>" +:+ nl +:+
         "                 <p><b>Treatments:</b> Copper fungicide</p>" +:+ nl +:+
         "                 <p><b>Prevention:</b> Rotate crops</p></div>")
   /\ ~ occurs_in "<b>Care Tips:</b>" (paste (diseased_pieces blighted)))
  /\ (rendered thriving initial =
      Html ("<div class=" +:+ dq +:+ "result-card" +:+ dq +:+ ">" +:+ nl +:+
            "        <h3>Plant: Tomato</h3>" +:+ nl +:+
            "        <p>Status: Healthy</p>" +:+ nl +:+
            "        <p>Confidence: 97%</p>" +:+
            "<p><b>Care Tips:</b> Water at the base of the plant</p></div>")
      /\ ~ occurs_in "<b>Disease:</b>" (paste (healthy_pieces thriving))
      /\ ~ occurs_in "<b>Symptoms:</b>" (paste (healthy_pieces thriving))
      /\ ~ occurs_in "<b>Treatments:</b>" (paste (healthy_pieces thriving))
      /\ ~ occurs_in "<b>Prevention:</b>" (paste (healthy_pieces thriving)))
  /\ (rendered lower_case initial =
      Html ("<div class=" +:+ dq +:+ "result-card" +:+ dq +:+ ">" +:+ nl +:+
            "        <h3>Plant: Tomato</h3>" +:+ nl +:+
            "        <p>Status: diseased</p>" +:+ nl +:+
            "        <p>Confidence: 93%</p>" +:+
            "<p><b>Care Tips:</b> Water at the base of the plant</p></div>")
      /\ ~ occurs_in "<b>Disease:</b>" (paste (healthy_pieces lower_case))).
Proof.
  split; [|split].
  - destruct (displayResults_branches_on_status blighted initial eq_refl)
      as (_ & _ & html & Hr & _ & _ & _ & Hd & _).
    destruct (Hd eq_refl) as (Hhtml & _ & _ & Hclear).
    rewrite Hhtml in Hr, Hclear. split; [exact Hr|].
    apply Hclear. intros k Hk. cbn in Hk.
    repeat (destruct Hk as [<-|Hk]; [reflexivity|]). destruct Hk.
  - destruct (displayResults_branches_on_status thriving initial eq_refl)
      as (_ & _ & html & Hr & _ & _ & _ & _ & Hh).
    assert (Hne : assoc "status" thriving <> Some (JStr "Diseased"))
      by (intros H; cbn in H; discriminate H).
    destruct (Hh Hne) as (Hhtml & _ & _ & Hclear).
    rewrite Hhtml in Hr, Hclear. split; [exact Hr|].
    apply Hclear. intros k Hk. cbn in Hk.
    repeat (destruct Hk as [<-|Hk]; [reflexivity|]). destruct Hk.
  - destruct (displayResults_branches_on_status lower_case initial eq_refl)
      as (_ & _ & html & Hr & _ & _ & _ & _ & Hh).
    assert (Hne : assoc "status" lower_case <> Some (JStr "Diseased"))
      by (intros H; cbn in H; discriminate H).
    destruct (Hh Hne) as (Hhtml & _ & _ & Hclear).
    rewrite Hhtml in Hr, Hclear. split; [exact Hr|].
    apply Hclear. intros k Hk. cbn in Hk.
    repeat (destruct Hk as [<-|Hk]; [reflexivity|]). destruct Hk.
Defined.

Lemma displayResults_interpolates_verbatim_witness :
  exists pre post,
    rendered marked_up initial = Html (pre +:+ "<img src=x onerror=alert(1)>" +:+ post).
Proof.
  apply (displayResults_interpolates_verbatim marked_up initial "care_tips").
  - reflexivity.
  - simpl. do 3 right. left. reflexivity.
  - reflexivity.
Defined.

(** The proviso of C1 is needed: a value may spell a heading itself. *)
Example heading_from_a_value :
  exists html, rendered heading_in_value initial = Html html
               /\ occurs_in "<b>Care Tips:</b>" html.
Proof.
  eexists. split; [apply (rendered_diseased heading_in_value initial); reflexivity|].
  change (shown heading_in_value "disease") with "<b>Care Tips:</b>".
  find_piece.
Qed.

(** *** Selecting a file and its preview *)

Section Selection.
Context {num : JsNumber} {fr : FileReaderApi}.

(** The markup [reader.onload] assigns for the file [f]. *)
Definition preview_of (f : file) : content :=
  Html ("<img src=" +:+ dq +:+ dataURL f +:+ dq +:+ " alt=" +:+ dq +:+ "Preview" +:+ dq +:+ ">").

(** The read started by the latest selection has completed. *)
Definition latest_loaded (s : state) : bool :=
  match last (readers s) with
  | Some rd => fired rd
  | None => false
  end.

(** Every read has completed. *)
Definition all_loaded (s : state) : bool := forallb fired (readers s).

(** [e] is no load of a reader older than one that has fired already: reads
    complete in the order they were started. *)
Definition in_order (e : event) (s : state) : bool :=
  match e with
  | ReaderLoad r => forallb (fun rd => negb (fired rd)) (drop (S r) (readers s))
  | _ => true
  end.

Fixpoint all_in_order (es : list event) (s : state) : bool :=
  match es with
  | [] => true
  | e :: rest => in_order e s && all_in_order rest (handle e s)
  end.

(** The claim as the specification words it: once the reads have completed,
    the preview is the latest selected file's. *)
Definition preview_is_latest (s : state) : Prop :=
  forall f, selectedFile s = Some f -> preview s = preview_of f.

Lemma forallb_drop_lookup {A} (P : A -> bool) (n : nat) (l : list A) :
  forallb P (drop n l) = true <->
  forall i x, l !! i = Some x -> n <= i -> P x = true.
Proof.
  rewrite forallb_forall. split.
  - intros Hall i x Hi Hn. apply Hall. apply list_elem_of_In.
    apply list_elem_of_lookup. exists (i - n).
    rewrite lookup_drop. now replace (n + (i - n)) with i by lia.
  - intros Hall x Hx. apply list_elem_of_In, list_elem_of_lookup in Hx.
    destruct Hx as [i Hi]. rewrite lookup_drop in Hi.
    apply (Hall (n + i) x Hi). lia.
Qed.

(** What the renderer and the rest of the analyze handler leave alone. *)
Lemma displayResults_keeps {A} (f : state -> A) (result : jsval) :
  (forall v s, f (set_results v s) = f s) -> keeps f (displayResults result).
Proof.
  intros Hf. unfold displayResults.
  repeat first
    [ apply keeps_ret | apply keeps_converted | apply keeps_get_prop
    | apply keeps_modify; intros ?; apply Hf
    | apply keeps_if
    | apply keeps_bind; [|intros ?] ].
Qed.

Lemma analyze_resume_keeps {A} (f : state -> A) (o : fetch_result) :
  (forall v s, f (set_results v s) = f s) -> keeps f (analyze_resume o).
Proof.
  intros Hf. destruct o as [|status [data|]]; cbn [analyze_resume].
  - apply keeps_throw.
  - apply keeps_bind; [apply keeps_get_prop | intros ?; now apply displayResults_keeps].
  - apply keeps_throw.
Qed.

Lemma settle_keeps {A} (f : state -> A) (c : M state unit) (s : state) :
  (forall v s, f (set_rejections v s) = f s) -> keeps f c -> f (settle c s) = f s.
Proof.
  intros Hf Hc. unfold settle. specialize (Hc s).
  destruct (c s) as [[[]|e] s']; cbn in *; [exact Hc|]. now rewrite Hf.
Qed.

Lemma analyze_resume_frame (o : fetch_result) (s : state) :
  let s' := settle (analyze_resume o) s in
  selectedFile s' = selectedFile s /\ preview s' = preview s
  /\ readers s' = readers s /\ uploads s' = uploads s
  /\ analyzeDisabled s' = analyzeDisabled s.
Proof.
  cbv zeta.
  repeat split; apply settle_keeps; try reflexivity; now apply analyze_resume_keeps.
Qed.

(** The selected file is the one the youngest reader reads, and the preview
    is that of the youngest reader that has fired, as long as reads complete
    in order. *)
Definition coherent (s : state) : Prop :=
  selectedFile s = reading <$> last (readers s)
  /\ forall r rd, readers s !! r = Some rd -> fired rd = true ->
       forallb (fun rd => negb (fired rd)) (drop (S r) (readers s)) = true ->
       preview s = preview_of (reading rd).

Lemma coherent_initial : coherent initial.
Proof. split; [reflexivity | intros r rd Hr; destruct r; discriminate]. Qed.

Lemma coherent_select (f : file) (s s' : state) :
  coherent s ->
  selectedFile s' = Some f ->
  readers s' = readers s ++ [{| reading := f; fired := false |}] ->
  preview s' = preview s ->
  coherent s'.
Proof.
  intros [_ Hprev] Hsel Hrd Hpv. split.
  - rewrite Hsel, Hrd, last_snoc. reflexivity.
  - intros r rd Hr Hf Hall. rewrite Hrd in Hr, Hall. rewrite Hpv.
    destruct (decide (r < length (readers s))) as [Hlt|Hge].
    + rewrite lookup_app_l in Hr by exact Hlt.
      apply (Hprev r rd Hr Hf).
      apply forallb_drop_lookup. intros i x Hi Hle.
      apply (proj1 (forallb_drop_lookup _ _ _) Hall i x); [|exact Hle].
      rewrite lookup_app_l; [exact Hi | eapply lookup_lt_Some, Hi].
    + rewrite lookup_app_r in Hr by lia.
      destruct (r - length (readers s)) as [|n]; cbn in Hr; [|destruct n; discriminate].
      injection Hr as <-. discriminate.
Qed.

Lemma coherent_same (s s' : state) :
  coherent s ->
  selectedFile s' = selectedFile s -> readers s' = readers s -> preview s' = preview s ->
  coherent s'.
Proof. unfold coherent. intros Hc -> -> ->. exact Hc. Qed.

Lemma coherent_load (r0 : nat) (f : file) (s s' : state) :
  coherent s ->
  readers s !! r0 = Some {| reading := f; fired := false |} ->
  forallb (fun rd => negb (fired rd)) (drop (S r0) (readers s)) = true ->
  selectedFile s' = selectedFile s ->
  readers s' = <[r0 := {| reading := f; fired := true |}]> (readers s) ->
  preview s' = preview_of f ->
  coherent s'.
Proof.
  intros [Hsel _] Hr0 Hord Hsel' Hrd Hpv. split.
  - rewrite Hsel', Hsel, Hrd. rewrite !last_lookup, length_insert.
    destruct (decide (r0 = pred (length (readers s)))) as [->|Hne].
    + rewrite list_lookup_insert_eq, Hr0; [reflexivity|].
      apply lookup_lt_Some in Hr0. lia.
    + now rewrite list_lookup_insert_ne.
  - intros r rd Hr Hf Hall. rewrite Hrd in Hr, Hall. rewrite Hpv.
    assert (Hlen : r0 < length (readers s)) by (eapply lookup_lt_Some, Hr0).
    destruct (Nat.lt_trichotomy r r0) as [Hlt|[->|Hgt]].
    + exfalso.
      pose proof (proj1 (forallb_drop_lookup _ _ _) Hall r0
                    {| reading := f; fired := true |}) as Hbad.
      rewrite list_lookup_insert_eq in Hbad by exact Hlen.
      specialize (Hbad eq_refl ltac:(lia)). discriminate.
    + rewrite list_lookup_insert_eq in Hr by exact Hlen. now injection Hr as <-.
    + exfalso. rewrite list_lookup_insert_ne in Hr by lia.
      pose proof (proj1 (forallb_drop_lookup _ _ _) Hord r rd Hr ltac:(lia)) as Hbad.
      cbn in Hbad. rewrite Hf in Hbad. discriminate.
Qed.

Lemma coherent_step (e : event) (s : state) :
  coherent s -> in_order e s = true -> coherent (handle e s).
Proof.
  intros Hc Hord. destruct e as [|files| | |files|r| |u o]; cbn in *.
  - now apply (coherent_same s).
  - destruct files as [|f fs]; cbn; [exact Hc|]. now apply (coherent_select f s).
  - now apply (coherent_same s).
  - now apply (coherent_same s).
  - destruct files as [|f fs]; cbn; [now apply (coherent_same s)|].
    now apply (coherent_select f s).
  - destruct (readers s !! r) as [[f [|]]|] eqn:Hr; try exact Hc.
    now apply (coherent_load r f s).
  - unfold settle, analyze_click, bind, gets.
    destruct (selectedFile s) eqn:E; cbn; now apply (coherent_same s).
  - destruct (uploads s !! u) as [[req [|]]|]; try exact Hc.
    pose proof (analyze_resume_frame o (set_uploads (<[u:=(req, true)]> (uploads s)) s))
      as (F1 & F2 & F3 & _).
    now apply (coherent_same s).
Qed.

Lemma coherent_run (es : list event) (s : state) :
  coherent s -> all_in_order es s = true -> coherent (run es s).
Proof.
  revert s. induction es as [|e es IH]; intros s Hc Hord; [exact Hc|].
  cbn in Hord. apply andb_true_iff in Hord as [Hone Hrest].
  cbn. apply IH; [now apply coherent_step | exact Hrest].
Qed.

(** C4 (amended).  A selection, by the picker or by a drop, makes its first
    file the selected one in place of the previous, enables the analyze
    action and starts a read of that file; it sends nothing and leaves the
    preview as it is.  A read that completes sets the preview to the data
    URL of the file it read, and sends nothing.  When the reads complete in
    the order they were started, the preview is that of the latest selected
    file as soon as its read has completed. *)
Theorem selection_then_preview (es : list event) :
  all_in_order es initial = true ->
  (forall s0 f fs e, e = InputChange (f :: fs) \/ e = Drop (f :: fs) ->
     selectedFile (handle e s0) = Some f
     /\ analyzeDisabled (handle e s0) = false
     /\ readers (handle e s0) = readers s0 ++ [{| reading := f; fired := false |}]
     /\ preview (handle e s0) = preview s0
     /\ uploads (handle e s0) = uploads s0)
  /\ (forall s0 r f, readers s0 !! r = Some {| reading := f; fired := false |} ->
        preview (handle (ReaderLoad r) s0) = preview_of f
        /\ selectedFile (handle (ReaderLoad r) s0) = selectedFile s0
        /\ uploads (handle (ReaderLoad r) s0) = uploads s0)
  /\ (latest_loaded (run es initial) = true -> preview_is_latest (run es initial)).
Proof.
  intros Hord. split; [|split].
  - intros s0 f fs e [-> | ->]; cbn; auto.
  - intros s0 r f Hr. cbn. rewrite Hr. cbn. auto.
  - intros Hlast f Hsel.
    destruct (coherent_run es initial coherent_initial Hord) as [Hs Hp].
    unfold latest_loaded in Hlast. rewrite Hs in Hsel.
    destruct (last (readers (run es initial))) as [rd|] eqn:Hl; [|discriminate].
    injection Hsel as <-.
    rewrite last_lookup in Hl.
    apply (Hp _ rd Hl Hlast).
    apply forallb_drop_lookup. intros i x Hi Hle.
    apply lookup_lt_Some in Hi. lia.
Qed.

End Selection.

Definition leaf_a : file :=
  {| file_name := "a.png"; file_type := "image/png"; file_bytes := [Byte.x01; Byte.x02; Byte.x03] |}.
Definition leaf_b : file :=
  {| file_name := "b.png"; file_type := "image/png"; file_bytes := [Byte.x04; Byte.x05] |}.

Lemma selection_then_preview_witness :
  preview (run (num := ZNumber) (fr := rfc2397)
             [InputChange [leaf_a]; Drop [leaf_b]; ReaderLoad 0; ReaderLoad 1] initial)
  = preview_of (fr := rfc2397) leaf_b.
Proof.
  exact (proj2 (proj2 (selection_then_preview (num := ZNumber) (fr := rfc2397)
           [InputChange [leaf_a]; Drop [leaf_b]; ReaderLoad 0; ReaderLoad 1] eq_refl))
         eq_refl leaf_b eq_refl).
Defined.

(** C4 as stated fails: the picker selects [a.png], a drop replaces it by
    [b.png], the read of [b.png] completes first and the read of [a.png]
    after it.  Both reads are done, [b.png] is the selected file, and the
    preview is that of [a.png]. *)
Lemma preview_not_always_latest :
  ~ (forall es : list event,
       all_loaded (run (num := ZNumber) (fr := rfc2397) es initial) = true ->
       preview_is_latest (fr := rfc2397) (run (num := ZNumber) (fr := rfc2397) es initial)).
Proof.
  intros Hall.
  specialize (Hall [InputChange [leaf_a]; Drop [leaf_b]; ReaderLoad 1; ReaderLoad 0]
                eq_refl leaf_b eq_refl).
  vm_compute in Hall. discriminate Hall.
Qed.

Example stale_preview :
  let s := run (num := ZNumber) (fr := rfc2397)
             [InputChange [leaf_a]; Drop [leaf_b]; ReaderLoad 1; ReaderLoad 0] initial in
  selectedFile s = Some leaf_b
  /\ preview s = Html ("<img src=" +:+ dq +:+ "data:image/png;base64,AQID" +:+ dq +:+
                       " alt=" +:+ dq +:+ "Preview" +:+ dq +:+ ">").
Proof. split; reflexivity. Qed.

End UploaderSpec.

(** ** The chat widget *)

Module ChatSpec.
Import Chat.

Section Transcript.
Context {num : JsNumber}.

(** The element [addMessage(who, text)] appends, [t] being the text. *)
Definition entry (who : string) (t : string) : message :=
  {| msg_class := "msg " +:+ (if String.eqb who "bot" then "bot" else "user");
     msg_content := Text t |}.

Definition user_entry (t : string) : message :=
  {| msg_class := "msg user"; msg_content := Text t |}.
Definition bot_entry (t : string) : message :=
  {| msg_class := "msg bot"; msg_content := Text t |}.

(** The button [renderQuickReplies] makes of the label [l]. *)
Definition label_button (l : string) : button :=
  {| btn_class := "quick-btn"; btn_content := Text l; btn_arg := JStr l |}.

(** The request [sendMessage(text)] makes under the session id [sid]. *)
Definition chat_request (sid : option string) (text : json) : request :=
  {| req_url := "/api/chat";
     req_method := "POST";
     req_headers := [("Content-Type", "application/json")];
     req_body := JObj [("session_id", match sid with Some v => JStr v | None => JNull end);
                       ("message", text)] |}.

(** [data.k] on a parsed body that is not [null]. *)
Definition prop_of (data : json) (k : string) : jsval :=
  match data with
  | JObj props => assoc k props
  | _ => None
  end.

Ltac chat_steps :=
  unfold emit, bind, modify, gets, ret, throw,
    set_chatHistory, set_chatInput, set_quickReplies, set_requests,
    set_rejections, set_trace; cbn.

(** *** The handlers on well-formed values *)

Lemma addMessage_run (who : string) (text : jsval) (t : string) (s : state) :
  dom_string text = Some t ->
  addMessage who text s =
  (Returned tt,
   {| localStorage := localStorage s; sessionId := sessionId s;
      chatHistory := chatHistory s ++ [entry who t];
      chatInput := chatInput s; quickReplies := quickReplies s;
      requests := requests s; rejections := rejections s;
      trace := trace s ++ [AppendMessage (entry who t); ScrollToEnd] |}).
Proof.
  intros Ht. unfold addMessage, entry, bind at 1. rewrite Ht. chat_steps.
  now rewrite <- app_assoc.
Qed.

Lemma addMessage_throws (who : string) (text : jsval) (s : state) :
  dom_string text = None -> exists e, addMessage who text s = (Thrown e, s).
Proof.
  intros Ht. unfold addMessage, bind at 1. rewrite Ht. eexists. reflexivity.
Qed.

Lemma sendMessage_run (text : string) (s : state) :
  sendMessage (JStr text) s =
  (Returned tt,
   {| localStorage := localStorage s; sessionId := sessionId s;
      chatHistory := chatHistory s ++ [user_entry text];
      chatInput := ""; quickReplies := quickReplies s;
      requests := requests s ++ [(chat_request (sessionId s) (JStr text), false)];
      rejections := rejections s;
      trace := trace s ++ [AppendMessage (user_entry text); ScrollToEnd;
                           SetInput ""; Fetch (chat_request (sessionId s) (JStr text))] |}).
Proof.
  unfold sendMessage, bind at 1.
  rewrite (addMessage_run "user" (Some (JStr text)) text s eq_refl). chat_steps.
  now rewrite <- !app_assoc.
Qed.

Lemma forEach_labels (labels : list string) (s : state) :
  forEach (JStr <$> labels) add_quick_reply s =
  (Returned tt,
   {| localStorage := localStorage s; sessionId := sessionId s;
      chatHistory := chatHistory s; chatInput := chatInput s;
      quickReplies := quickReplies s ++ (label_button <$> labels);
      requests := requests s; rejections := rejections s;
      trace := trace s ++ (AppendButton <$> (label_button <$> labels)) |}).
Proof.
  revert s. induction labels as [|l labels IH]; intros s.
  - destruct s. cbn. now rewrite !app_nil_r.
  - cbn [fmap list_fmap forEach]. unfold bind at 1, add_quick_reply at 1. chat_steps.
    rewrite IH. cbn. now rewrite <- !app_assoc.
Qed.

Lemma renderQuickReplies_labels (labels : list string) (s : state) :
  renderQuickReplies (Some (JArr (JStr <$> labels))) s =
  (Returned tt,
   {| localStorage := localStorage s; sessionId := sessionId s;
      chatHistory := chatHistory s; chatInput := chatInput s;
      quickReplies := label_button <$> labels;
      requests := requests s; rejections := rejections s;
      trace := trace s ++ ClearQuickReplies :: (AppendButton <$> (label_button <$> labels)) |}).
Proof.
  unfold renderQuickReplies. chat_steps.
  destruct labels as [|l labels]; [reflexivity|].
  pose proof (forEach_labels (l :: labels)) as Hf.
  cbn [fmap list_fmap] in Hf |- *. rewrite Hf. cbn. now rewrite <- !app_assoc.
Qed.

Lemma get_prop_run (data : json) (k : string) (s : state) :
  data <> JNull -> get_prop (Some data) k s = (Returned (prop_of data k), s).
Proof. intros Hd. destruct data; try reflexivity. congruence. Qed.

(** The response of a server that follows the contract: a reply and the
    labels of the quick replies, or none. *)
Lemma resume_run (status : nat) (props : list (string * json)) (reply : string)
    (labels : list string) (s : state) :
  assoc "reply" props = Some (JStr reply) ->
  assoc "quick_replies" props = Some (JArr (JStr <$> labels))
    \/ (assoc "quick_replies" props = None /\ labels = []) ->
  sendMessage_resume (Response status (Some (JObj props))) s =
  (Returned tt,
   {| localStorage := localStorage s; sessionId := sessionId s;
      chatHistory := chatHistory s ++ [bot_entry reply];
      chatInput := chatInput s;
      quickReplies := label_button <$> labels;
      requests := requests s; rejections := rejections s;
      trace := trace s ++
        [AppendMessage (bot_entry reply); ScrollToEnd; ClearQuickReplies] ++
        (AppendButton <$> (label_button <$> labels)) |}).
Proof.
  intros Hreply Hquick. unfold sendMessage_resume, bind.
  rewrite !get_prop_run by discriminate. cbn [prop_of]. rewrite Hreply.
  rewrite (addMessage_run "bot" (Some (JStr reply)) reply s eq_refl).
  rewrite get_prop_run by discriminate. cbn [prop_of].
  destruct Hquick as [Hq | [Hq ->]]; rewrite Hq; cbn [truthy].
  - rewrite renderQuickReplies_labels. cbn. now rewrite <- !app_assoc.
  - rewrite (renderQuickReplies_labels []). cbn. now rewrite <- !app_assoc.
Qed.

(** *** What every event preserves *)

Definition text_entry (m : message) : Prop := exists t, msg_content m = Text t.
Definition text_button (b : button) : Prop := exists t, btn_content b = Text t.
Definition not_storage (e : effect) : Prop := forall k, e <> GetItem k.
Definition carries (sid : option string) (rq : request * bool) : Prop :=
  exists text, fst rq = chat_request sid text.

(** What no handler undoes: the storage and the session id stay, the
    transcript and the trace only grow, by text entries and by effects other
    than storage reads, buttons hold text, requests carry the session id. *)
Definition extends (s s' : state) : Prop :=
  localStorage s' = localStorage s
  /\ sessionId s' = sessionId s
  /\ (exists new, chatHistory s' = chatHistory s ++ new /\ Forall text_entry new)
  /\ (exists new, trace s' = trace s ++ new /\ Forall not_storage new)
  /\ (Forall text_button (quickReplies s) -> Forall text_button (quickReplies s'))
  /\ (Forall (carries (sessionId s)) (requests s) ->
      Forall (carries (sessionId s)) (requests s')).

Ltac grows_by_nothing :=
  exists []; split; [now rewrite app_nil_r | constructor].

Lemma extends_refl (s : state) : extends s s.
Proof. repeat split; auto; grows_by_nothing. Qed.

Lemma extends_trans (s1 s2 s3 : state) : extends s1 s2 -> extends s2 s3 -> extends s1 s3.
Proof.
  intros (L1 & I1 & (h1 & H1 & T1) & (t1 & Tr1 & N1) & B1 & R1)
         (L2 & I2 & (h2 & H2 & T2) & (t2 & Tr2 & N2) & B2 & R2).
  repeat split.
  - congruence.
  - congruence.
  - exists (h1 ++ h2). split; [rewrite H2, H1; now rewrite app_assoc | now apply Forall_app].
  - exists (t1 ++ t2). split; [rewrite Tr2, Tr1; now rewrite app_assoc | now apply Forall_app].
  - auto.
  - intros Hr. rewrite <- I1. apply R2. rewrite I1. auto.
Qed.

(** A computation all of whose runs extend the state they start from. *)
Definition extending {A} (c : M state A) : Prop := forall s, extends s (snd (c s)).

Lemma extending_ret {A} (a : A) : extending (ret a).
Proof. intros s. apply extends_refl. Qed.

Lemma extending_throw {A} (e : js_error) : extending (@throw state A e).
Proof. intros s. apply extends_refl. Qed.

Lemma extending_gets {A} (g : state -> A) : extending (gets g).
Proof. intros s. apply extends_refl. Qed.

Lemma extending_converted (o : option string) : extending (converted o).
Proof. intros s. destruct o; apply extends_refl. Qed.

Lemma extending_get_prop (v : jsval) (k : string) : extending (get_prop v k).
Proof. intros s. destruct v as [[]|]; apply extends_refl. Qed.

Lemma extending_bind {A B} (c : M state A) (k : A -> M state B) :
  extending c -> (forall a, extending (k a)) -> extending (bind c k).
Proof.
  intros Hc Hk s. unfold bind. specialize (Hc s).
  destruct (c s) as [[a|e] s']; cbn in *; [|exact Hc].
  eapply extends_trans; [exact Hc | apply Hk].
Qed.

Lemma extending_if {A} (b : bool) (c d : M state A) :
  extending c -> extending d -> extending (if b then c else d).
Proof. destruct b; auto. Qed.

Ltac extends_by_run :=
  unfold extends; cbn; repeat split; auto;
  try grows_by_nothing;
  try (eexists; split; [reflexivity|]);
  repeat first
    [ apply Forall_nil_2
    | apply Forall_cons; split; [first [ now eexists | intros ?; discriminate ]|] ].

Lemma extending_emit (e : effect) : not_storage e -> extending (emit e).
Proof.
  intros He s. unfold emit, modify. extends_by_run. now repeat constructor.
Qed.

Lemma extending_append_message (m : message) :
  text_entry m ->
  extending (modify (fun s => set_chatHistory (chatHistory s ++ [m]) s)).
Proof.
  intros Hm s. unfold modify. extends_by_run. now repeat constructor.
Qed.

Lemma extending_set_chatInput (v : string) : extending (modify (set_chatInput v)).
Proof. intros s. unfold modify. extends_by_run. Qed.

Lemma extending_clear_buttons : extending (modify (set_quickReplies [])).
Proof. intros s. unfold modify. extends_by_run. Qed.

Lemma extending_append_button (b : button) :
  text_button b ->
  extending (modify (fun s => set_quickReplies (quickReplies s ++ [b]) s)).
Proof.
  intros Hb s. unfold modify. extends_by_run.
  intros Hall. apply Forall_app. split; [exact Hall|]. now repeat constructor.
Qed.

Lemma extending_fetch (text : json) :
  extending (bind (gets sessionId) (fun sid =>
    bind (modify (fun s => set_requests (requests s ++ [(chat_request sid text, false)]) s))
      (fun _ => emit (Fetch (chat_request sid text))))).
Proof.
  intros s. unfold bind, gets, modify, emit. extends_by_run.
  intros Hall. apply Forall_app. split; [exact Hall|].
  repeat constructor. now exists text.
Qed.

Ltac extending_steps :=
  repeat first
    [ apply extending_ret | apply extending_throw | apply extending_gets
    | apply extending_converted | apply extending_get_prop
    | apply extending_set_chatInput | apply extending_clear_buttons
    | apply extending_append_message; eexists; reflexivity
    | apply extending_append_button; eexists; reflexivity
    | apply extending_emit; intros ?; discriminate
    | apply extending_if
    | apply extending_bind; [|intros ?] ].

Lemma extending_addMessage (who : string) (text : jsval) : extending (addMessage who text).
Proof. unfold addMessage. extending_steps. Qed.

Lemma extending_sendMessage (text : json) : extending (sendMessage text).
Proof.
  unfold sendMessage.
  apply extending_bind; [apply extending_addMessage|intros _].
  apply extending_bind; [apply extending_set_chatInput|intros _].
  apply extending_bind; [apply extending_emit; intros ?; discriminate|intros _].
  apply extending_fetch.
Qed.

Lemma extending_forEach (items : list json) : extending (forEach items add_quick_reply).
Proof.
  induction items as [|q items IH]; cbn [forEach]; [apply extending_ret|].
  apply extending_bind; [|intros _; exact IH].
  unfold add_quick_reply. extending_steps.
Qed.

Lemma extending_renderQuickReplies (v : jsval) : extending (renderQuickReplies v).
Proof.
  unfold renderQuickReplies.
  apply extending_bind; [apply extending_clear_buttons|intros _].
  apply extending_bind; [apply extending_emit; intros ?; discriminate|intros _].
  apply extending_if; [apply extending_ret|].
  destruct v as [[| | | |[|q items]|props]|];
    try apply extending_throw; try apply extending_ret.
  - apply extending_forEach.
  - destruct (assoc "length" props) as [[| |n| | |]|]; try apply extending_throw.
    apply extending_if; [apply extending_ret | apply extending_throw].
Qed.

Lemma extending_resume (o : fetch_result) : extending (sendMessage_resume o).
Proof.
  destruct o as [|status [data|]]; cbn [sendMessage_resume];
    try apply extending_throw.
  apply extending_bind; [apply extending_get_prop|intros reply].
  apply extending_bind; [apply extending_addMessage|intros _].
  apply extending_bind; [apply extending_get_prop|intros quick_replies].
  apply extending_renderQuickReplies.
Qed.

Lemma extending_sendBtn_click : extending sendBtn_click.
Proof.
  unfold sendBtn_click. apply extending_bind; [apply extending_gets|intros v].
  apply extending_if; [apply extending_ret | apply extending_sendMessage].
Qed.

Lemma extends_rejection (e : js_error) (s : state) :
  extends s (set_rejections (rejections s ++ [e]) s).
Proof. extends_by_run. Qed.

Lemma extends_settle (c : M state unit) (s : state) :
  extending c -> extends s (settle c s).
Proof.
  intros Hc. unfold settle. specialize (Hc s).
  destruct (c s) as [[[]|e] s']; cbn in *; [exact Hc|].
  eapply extends_trans; [exact Hc | apply extends_rejection].
Qed.

Lemma extends_settled (r : nat) (req : request) (s : state) :
  requests s !! r = Some (req, false) ->
  extends s (set_requests (<[r := (req, true)]> (requests s)) s).
Proof.
  intros Hr. extends_by_run.
  intros Hall. apply Forall_insert; [exact Hall|].
  rewrite Forall_lookup in Hall. exact (Hall r _ Hr).
Qed.

(** What one event can do to the page. *)
Lemma handle_step (e : event) (s : state) : extends s (handle e s).
Proof.
  destruct e as [|v| |key|i|r o]; cbn [handle].
  - apply extends_settle. unfold window_load.
    apply extending_bind; [apply extending_addMessage|intros _].
    apply extending_renderQuickReplies.
  - extends_by_run.
  - apply extends_settle, extending_sendBtn_click.
  - apply extends_settle. unfold chatInput_keydown.
    apply extending_if; [|apply extending_ret].
    apply extending_bind; [apply extending_emit; intros ?; discriminate|intros _].
    apply extending_sendBtn_click.
  - destruct (quickReplies s !! i) as [b|]; [|apply extends_refl].
    apply extends_settle, extending_sendMessage.
  - destruct (requests s !! r) as [[req [|]]|] eqn:Hr; try apply extends_refl.
    eapply extends_trans; [apply (extends_settled r req s Hr)|].
    apply extends_settle, extending_resume.
Qed.

Lemma run_extends (es : list event) (s : state) : extends s (run es s).
Proof.
  revert s. induction es as [|e es IH]; intros s; [apply extends_refl|].
  cbn. eapply extends_trans; [apply handle_step | apply IH].
Qed.

(** *** Sending a message *)

(** C2.  [sendMessage(text)] appends one user entry holding [text], clears
    the field and then issues one POST of [{session_id, message: text}] to
    [/api/chat], in this order and with nothing else; the request is then
    pending.  When its response arrives with the reply [reply] and the
    quick replies [labels] (or none), one bot entry holding [reply] is
    appended and the buttons are replaced by one per label, none for an
    empty list.  No event removes or reorders entries of the transcript. *)
Theorem sendMessage_sequence (text : string) (s : state) :
  let req := chat_request (sessionId s) (JStr text) in
  let r := length (requests s) in
  let s1 := settle (sendMessage (JStr text)) s in
  s1 = {| localStorage := localStorage s; sessionId := sessionId s;
          chatHistory := chatHistory s ++ [user_entry text];
          chatInput := ""; quickReplies := quickReplies s;
          requests := requests s ++ [(req, false)];
          rejections := rejections s;
          trace := trace s ++ [AppendMessage (user_entry text); ScrollToEnd;
                               SetInput ""; Fetch req] |}
  /\ requests s1 !! r = Some (req, false)
  /\ (forall s2 status props reply labels,
        requests s2 !! r = Some (req, false) ->
        assoc "reply" props = Some (JStr reply) ->
        assoc "quick_replies" props = Some (JArr (JStr <$> labels))
          \/ (assoc "quick_replies" props = None /\ labels = []) ->
        handle (Settled r (Response status (Some (JObj props)))) s2 =
        {| localStorage := localStorage s2; sessionId := sessionId s2;
           chatHistory := chatHistory s2 ++ [bot_entry reply];
           chatInput := chatInput s2;
           quickReplies := label_button <$> labels;
           requests := <[r := (req, true)]> (requests s2);
           rejections := rejections s2;
           trace := trace s2 ++
             [AppendMessage (bot_entry reply); ScrollToEnd; ClearQuickReplies] ++
             (AppendButton <$> (label_button <$> labels)) |})
  /\ (forall e s0, chatHistory s0 `prefix_of` chatHistory (handle e s0)).
Proof.
  cbv zeta. unfold settle. rewrite sendMessage_run. cbn [fst snd].
  split; [reflexivity|]. split; [|split].
  - cbn. rewrite lookup_app_r by lia. now rewrite Nat.sub_diag.
  - intros s2 status props reply labels Hr Hreply Hquick.
    cbn [handle]. rewrite Hr. unfold settle.
    now rewrite (resume_run status props reply labels _ Hreply Hquick).
  - intros e s0. destruct (handle_step e s0) as (_ & _ & (new & -> & _) & _).
    now exists new.
Qed.

(** *** Quick replies and the keyboard *)

(** The claim as the specification words it: a click on the quick reply
    labelled [label] leaves the page as typing [label] and clicking the send
    button does. *)
Definition click_is_typing (label : string) : Prop :=
  forall s i b,
    quickReplies s !! i = Some b -> btn_arg b = JStr label ->
    handle (QuickClick i) s = handle SendClick (handle (Typed label) s).

Lemma sendBtn_click_run (s : state) :
  settle sendBtn_click s =
  if String.eqb (trim (chatInput s)) ""
  then s
  else snd (sendMessage (JStr (trim (chatInput s))) s).
Proof.
  unfold settle, sendBtn_click, bind, gets.
  destruct (String.eqb (trim (chatInput s)) ""); [reflexivity|].
  now rewrite sendMessage_run.
Qed.

Lemma keydown_enter_run (s : state) :
  handle (KeyDown "Enter") s =
  settle sendBtn_click (set_trace (trace s ++ [PreventDefault]) s).
Proof. reflexivity. Qed.

Lemma eqb_empty_false (t : string) : t <> "" -> String.eqb t "" = false.
Proof. intros Ht. now apply String.eqb_neq. Qed.

(** C3 (amended).  For a label that is not empty and has no white space at
    either end, a click on its quick-reply button leaves the page exactly as
    typing the label and clicking the send button does: both call
    [sendMessage] with the label. *)
Theorem quick_reply_as_typed (label : string) :
  trim label = label -> label <> "" -> click_is_typing label.
Proof.
  intros Htrim Hne s i b Hi Hb.
  cbn [handle]. rewrite Hi, Hb, sendBtn_click_run.
  cbn [chatInput set_chatInput]. rewrite Htrim, (eqb_empty_false label Hne).
  unfold settle. rewrite !sendMessage_run. reflexivity.
Qed.

(** The white space [trim] removes, as ECMAScript lists it (WhiteSpace and
    LineTerminator), each code point by the bytes of its UTF-8 form: TAB,
    LF, VT, FF, CR, SPACE, U+00A0, U+1680, U+2000 to U+200A, U+2028, U+2029,
    U+202F, U+205F, U+3000 and U+FEFF. *)
Definition utf8 (bytes : list nat) : string :=
  string_of_list_ascii (ascii_of_nat <$> bytes).

Definition white_space : list string :=
  [utf8 [9]; utf8 [10]; utf8 [11]; utf8 [12]; utf8 [13]; utf8 [32];
   utf8 [194; 160];
   utf8 [225; 154; 128];
   utf8 [226; 128; 128]; utf8 [226; 128; 129]; utf8 [226; 128; 130];
   utf8 [226; 128; 131]; utf8 [226; 128; 132]; utf8 [226; 128; 133];
   utf8 [226; 128; 134]; utf8 [226; 128; 135]; utf8 [226; 128; 136];
   utf8 [226; 128; 137]; utf8 [226; 128; 138];
   utf8 [226; 128; 168]; utf8 [226; 128; 169]; utf8 [226; 128; 175];
   utf8 [226; 129; 159];
   utf8 [227; 128; 128];
   utf8 [239; 187; 191]].

Definition joined (l : list string) : string := fold_right String.append "" l.

(** A content that is white space from its first character to its last,
    the empty content included. *)
Definition white_space_only (v : string) : Prop :=
  exists l, Forall (fun w => In w white_space) l /\ v = joined l.

(** A character that shows: the ASCII characters from [!] to [~]. *)
Definition graphic (c : ascii) : bool :=
  let n := nat_of_ascii c in
  Nat.leb 33 n && Nat.leb n 126.

(** A content with a character that shows. *)
Definition visible (v : string) : bool := existsb graphic (list_ascii_of_string v).

Lemma strip_white_space (w rest : string) :
  In w white_space -> strip false (w +:+ rest) = strip false rest.
Proof.
  intros Hin. unfold white_space in Hin.
  repeat (destruct Hin as [<-|Hin]; [reflexivity|]). destruct Hin.
Qed.

Lemma trim_white_space_only (v : string) : white_space_only v -> trim v = "".
Proof.
  intros (l & Hl & ->).
  assert (Hs : strip false (joined l) = "").
  { induction Hl as [|w l Hw _ IH]; [reflexivity|].
    cbn [joined fold_right]. fold (joined l). now rewrite (strip_white_space w _ Hw). }
  unfold trim. now rewrite Hs.
Qed.

Lemma ws1_not_graphic (c : ascii) : ws1 c = true -> graphic c = false.
Proof.
  unfold ws1, graphic. cbv zeta.
  rewrite orb_true_iff, andb_true_iff, andb_false_iff, !Nat.leb_le, Nat.eqb_eq, !Nat.leb_gt.
  lia.
Qed.

Lemma ws2_not_graphic (c1 c2 : ascii) :
  ws2 c1 c2 = true -> graphic c1 = false /\ graphic c2 = false.
Proof.
  unfold ws2, graphic. cbv zeta.
  rewrite andb_true_iff, !andb_false_iff, !Nat.eqb_eq, !Nat.leb_gt.
  lia.
Qed.

Lemma ws3_not_graphic (c1 c2 c3 : ascii) :
  ws3 c1 c2 c3 = true -> graphic c1 = false /\ graphic c2 = false /\ graphic c3 = false.
Proof.
  unfold ws3, graphic. cbv zeta.
  rewrite !orb_true_iff, !andb_true_iff, !orb_true_iff, !andb_true_iff, !andb_false_iff,
    !Nat.eqb_eq, !Nat.leb_le, !Nat.leb_gt.
  lia.
Qed.

(** [strip] removes no character that shows. *)
Lemma strip_keeps_visible (n : nat) :
  forall (back : bool) (v : string),
    String.length v <= n -> visible (strip back v) = visible v.
Proof.
  unfold visible. induction n as [|n IH]; intros back v Hn.
  - destruct v; [reflexivity | cbn in Hn; lia].
  - destruct v as [|c1 r1]; [reflexivity|]. cbn [String.length] in Hn.
    cbn [strip]. destruct (ws1 c1) eqn:W1.
    { rewrite IH by lia. cbn [list_ascii_of_string existsb].
      now rewrite (ws1_not_graphic c1 W1). }
    destruct r1 as [|c2 r2]; [reflexivity|]. cbn [String.length] in Hn.
    destruct (if back then ws2 c2 c1 else ws2 c1 c2) eqn:W2.
    { rewrite IH by lia. cbn [list_ascii_of_string existsb].
      destruct back; apply ws2_not_graphic in W2 as [-> ->]; reflexivity. }
    destruct r2 as [|c3 r3]; [reflexivity|]. cbn [String.length] in Hn.
    destruct (if back then ws3 c3 c2 c1 else ws3 c1 c2 c3) eqn:W3; [|reflexivity].
    rewrite IH by lia. cbn [list_ascii_of_string existsb].
    destruct back; apply ws3_not_graphic in W3 as (-> & -> & ->); reflexivity.
Qed.

Lemma visible_rev_app (v acc : string) :
  visible (String.rev_app v acc) = visible v || visible acc.
Proof.
  unfold visible. revert acc. induction v as [|c v IH]; intros acc; [reflexivity|].
  cbn [String.rev_app list_ascii_of_string existsb]. rewrite IH.
  cbn [list_ascii_of_string existsb].
  destruct (graphic c), (existsb graphic (list_ascii_of_string v)); reflexivity.
Qed.

Lemma visible_rev (v : string) : visible (String.rev v) = visible v.
Proof. unfold String.rev. rewrite visible_rev_app. apply orb_false_r. Qed.

Lemma trim_visible (v : string) : visible v = true -> trim v <> "".
Proof.
  intros Hv Ht. apply (f_equal visible) in Ht. unfold trim in Ht.
  rewrite visible_rev, (strip_keeps_visible _ true _ (le_n _)), visible_rev,
    (strip_keeps_visible _ false _ (le_n _)), Hv in Ht.
  discriminate Ht.
Qed.

(** C5.  A keydown of Enter calls [preventDefault] and then runs the send
    button's click listener.  When the trimmed content of the field is not
    empty, that is one entry and one request, for the trimmed text; when it
    is empty, nothing is sent and the transcript stays.  A content that is
    white space only, of whatever kinds, trims to the empty text, so Enter
    sends nothing; a content with a character that shows does not, so Enter
    sends once.  Any other key does nothing. *)
Theorem enter_sends_once (s : state) :
  let t := trim (chatInput s) in
  let prevented := set_trace (trace s ++ [PreventDefault]) s in
  handle (KeyDown "Enter") s = handle SendClick prevented
  /\ (t <> "" ->
      handle (KeyDown "Enter") s =
      {| localStorage := localStorage s; sessionId := sessionId s;
         chatHistory := chatHistory s ++ [user_entry t];
         chatInput := ""; quickReplies := quickReplies s;
         requests := requests s ++ [(chat_request (sessionId s) (JStr t), false)];
         rejections := rejections s;
         trace := trace s ++ [PreventDefault; AppendMessage (user_entry t); ScrollToEnd;
                              SetInput ""; Fetch (chat_request (sessionId s) (JStr t))] |})
  /\ (t = "" -> handle (KeyDown "Enter") s = prevented)
  /\ (white_space_only (chatInput s) -> t = "")
  /\ (visible (chatInput s) = true -> t <> "")
  /\ (forall key, key <> "Enter" -> handle (KeyDown key) s = s).
Proof.
  cbv zeta. split; [reflexivity|]. split; [|split; [|split; [|split]]].
  - intros Ht. rewrite keydown_enter_run, sendBtn_click_run.
    cbn [chatInput set_trace]. rewrite (eqb_empty_false _ Ht), sendMessage_run.
    cbn. now rewrite <- !app_assoc.
  - intros Ht. rewrite keydown_enter_run, sendBtn_click_run.
    cbn [chatInput set_trace]. now rewrite Ht.
  - apply trim_white_space_only.
  - apply trim_visible.
  - intros key Hkey. cbn [handle]. unfold settle, chatInput_keydown.
    destruct (String.eqb key "Enter") eqn:E;
      [apply String.eqb_eq in E; contradiction | reflexivity].
Qed.

(** *** The page on load *)

Definition welcome : string :=
  "Hello — I can help with crop care, uploading, or disease symptoms. Try a quick suggestion.".

(** C6.  The load handler appends one bot entry with the fixed welcome text
    and puts exactly the two buttons "How to upload a photo?" and "Tomato
    care tips" in place of whatever buttons there were; it sends no request.
    On the page as the script finds it, the transcript is then that one
    entry, and the only effects so far are the read of the session id and
    these insertions. *)
Theorem load_injects_welcome (storage : gmap string string) :
  handle Load (script_load storage) =
    {| localStorage := storage;
       sessionId := storage !! "crop_chat_session";
       chatHistory := [bot_entry welcome];
       chatInput := "";
       quickReplies := [label_button "How to upload a photo?"; label_button "Tomato care tips"];
       requests := [];
       rejections := [];
       trace := [GetItem "crop_chat_session";
                 AppendMessage (bot_entry welcome); ScrollToEnd; ClearQuickReplies;
                 AppendButton (label_button "How to upload a photo?");
                 AppendButton (label_button "Tomato care tips")] |}
  /\ forall s,
       chatHistory (handle Load s) = chatHistory s ++ [bot_entry welcome]
       /\ quickReplies (handle Load s) =
            [label_button "How to upload a photo?"; label_button "Tomato care tips"]
       /\ requests (handle Load s) = requests s
       /\ rejections (handle Load s) = rejections s.
Proof.
  split.
  - reflexivity.
  - intros s. cbn [handle]. unfold settle, window_load, bind.
    erewrite addMessage_run by reflexivity.
    rewrite (renderQuickReplies_labels ["How to upload a photo?"; "Tomato care tips"]).
    cbn. auto.
Qed.

(** *** The session id *)

(** The [session_id] a request's body carries. *)
Definition session_id_of (rq : request) : jsval :=
  match req_body rq with
  | JObj props => assoc "session_id" props
  | _ => None
  end.

(** Reads of the storage among the effects. *)
Definition storage_reads (t : list effect) : list string :=
  omap (fun e => match e with GetItem k => Some k | _ => None end) t.

Lemma storage_reads_none (t : list effect) : Forall not_storage t -> storage_reads t = [].
Proof.
  induction 1 as [|e t He _ IH]; [reflexivity|].
  unfold storage_reads in *. cbn. rewrite IH.
  destruct e; try reflexivity. now destruct (He key).
Qed.

(** C9.  Whatever events follow the load of the script, the storage is as it
    was (the script never writes it), the session id is what the key
    [crop_chat_session] held at load, the one read of the storage is the
    read of that key, the first thing the script does, and every request
    sent carries that value as its [session_id], [null] when the key was
    absent. *)
Theorem session_id_fixed (storage : gmap string string) (es : list event) :
  let s := run es (script_load storage) in
  localStorage s = storage
  /\ sessionId s = storage !! "crop_chat_session"
  /\ (exists rest, trace s = GetItem "crop_chat_session" :: rest /\ Forall not_storage rest)
  /\ storage_reads (trace s) = ["crop_chat_session"]
  /\ Forall (fun rq => session_id_of (fst rq) =
               Some (match storage !! "crop_chat_session" with
                     | Some v => JStr v
                     | None => JNull
                     end)) (requests s).
Proof.
  cbv zeta.
  destruct (run_extends es (script_load storage))
    as (Hl & Hi & _ & (new & Ht & Hnew) & _ & Hreq).
  split; [exact Hl|]. split; [exact Hi|]. split; [|split].
  - exists new. split; [exact Ht | exact Hnew].
  - rewrite Ht. unfold storage_reads. rewrite omap_app.
    fold (storage_reads new). now rewrite (storage_reads_none new Hnew).
  - specialize (Hreq (Forall_nil_2 _)).
    eapply Forall_impl; [exact Hreq|].
    intros [rq settled] (text & Hrq). cbn in Hrq. cbn [fst]. now rewrite Hrq.
Qed.

(** *** Text, not markup *)

Lemma keeps_forEach {A} (f : state -> A) (items : list json) :
  (forall v s, f (set_quickReplies v s) = f s) ->
  (forall v s, f (set_trace v s) = f s) ->
  keeps f (forEach items add_quick_reply).
Proof.
  intros Hq Ht. induction items as [|q items IH]; cbn [forEach]; [apply keeps_ret|].
  apply keeps_bind; [|intros _; exact IH].
  unfold add_quick_reply, emit.
  repeat first
    [ apply keeps_converted
    | apply keeps_modify; intros ?; first [apply Hq | apply Ht]
    | apply keeps_bind; [|intros ?] ].
Qed.

Lemma keeps_renderQuickReplies {A} (f : state -> A) (v : jsval) :
  (forall v s, f (set_quickReplies v s) = f s) ->
  (forall v s, f (set_trace v s) = f s) ->
  keeps f (renderQuickReplies v).
Proof.
  intros Hq Ht. unfold renderQuickReplies, emit.
  apply keeps_bind; [apply keeps_modify; intros ?; apply Hq|intros _].
  apply keeps_bind; [apply keeps_modify; intros ?; apply Ht|intros _].
  apply keeps_if; [apply keeps_ret|].
  destruct v as [[| | | |[|q items]|props]|]; try apply keeps_throw; try apply keeps_ret.
  - now apply keeps_forEach.
  - destruct (assoc "length" props) as [[| |n| | |]|]; try apply keeps_throw.
    apply keeps_if; [apply keeps_ret | apply keeps_throw].
Qed.

(** C10.  [addMessage] stores its text, and [renderQuickReplies] each label,
    through [innerText]: the element holds the string as text, whatever
    markup the string spells.  This holds for the reply of the server and
    for every entry and button of the page after any events; the result
    renderer, in contrast, hands its string to [innerHTML]. *)
Theorem chat_text_is_never_markup :
  (forall who t s,
     chatHistory (snd (addMessage who (Some (JStr t)) s)) =
     chatHistory s ++ [{| msg_class := "msg " +:+ (if String.eqb who "bot" then "bot" else "user");
                          msg_content := Text t |}])
  /\ (forall labels s,
        quickReplies (snd (renderQuickReplies (Some (JArr (JStr <$> labels))) s)) =
        label_button <$> labels)
  /\ (forall status data s r req t,
        requests s !! r = Some (req, false) -> data <> JNull ->
        dom_string (prop_of data "reply") = Some t ->
        chatHistory (handle (Settled r (Response status (Some data))) s) =
        chatHistory s ++ [bot_entry t])
  /\ (forall storage es,
        Forall text_entry (chatHistory (run es (script_load storage)))
        /\ Forall text_button (quickReplies (run es (script_load storage))))
  /\ (forall props s0,
        UploaderSpec.printable props = true ->
        exists html,
          Uploader.results (snd (Uploader.displayResults (Some (JObj props)) s0)) = Html html).
Proof.
  split; [|split; [|split; [|split]]].
  - intros who t s. now rewrite (addMessage_run who (Some (JStr t)) t s eq_refl).
  - intros labels s. now rewrite renderQuickReplies_labels.
  - intros status data s r req t Hr Hd Ht. cbn [handle]. rewrite Hr.
    set (s0 := set_requests (<[r:=(req, true)]> (requests s)) s).
    assert (Hs : chatHistory (settle (sendMessage_resume (Response status (Some data))) s0)
                 = chatHistory (snd (sendMessage_resume (Response status (Some data)) s0))).
    { unfold settle. now destruct (sendMessage_resume _ s0) as [[[]|e] s']. }
    rewrite Hs. unfold sendMessage_resume, bind at 1.
    rewrite (get_prop_run data "reply" s0 Hd). unfold bind at 1.
    rewrite (addMessage_run "bot" _ t s0 Ht).
    match goal with
    | |- chatHistory (snd (?c ?s1)) = _ =>
        assert (Hk : keeps chatHistory c); [|now rewrite (Hk s1)]
    end.
    apply keeps_bind; [apply keeps_get_prop|intros quick_replies].
    now apply keeps_renderQuickReplies.
  - intros storage es.
    destruct (run_extends es (script_load storage))
      as (_ & _ & (new & Hh & Hnew) & _ & Hb & _).
    split; [rewrite Hh; exact Hnew | apply Hb; constructor].
  - intros props s0 Hp. rewrite (UploaderSpec.displayResults_returns props s0 Hp). cbn.
    destruct (UploaderSpec.is_diseased props) eqn:E.
    + rewrite (UploaderSpec.rendered_diseased props s0 E Hp). eauto.
    + rewrite (UploaderSpec.rendered_otherwise props s0 E Hp). eauto.
Qed.

End Transcript.

(** The page after load. *)
Definition loaded : @state ZNumber := handle Load (script_load ∅).

(** The page after load, a click on the first quick reply and an answer
    whose only quick reply ends in a space. *)
Definition padded_label : @state ZNumber :=
  run [Load; QuickClick 0;
       Settled 0 (Response 200 (Some (JObj
         [("reply", JStr "Use the box on the left.");
          ("quick_replies", JArr [JStr "Tomato care tips "])])))]
    (script_load ∅).

(** Contents of the field: three spaces; a no-break space and an
    ideographic space; a label with a space and a tab before it and a
    no-break space and a line feed after it. *)
Definition three_spaces : string := "   ".
Definition wide_spaces : string := utf8 [194; 160] +:+ utf8 [227; 128; 128].
Definition padded_text : string :=
  utf8 [32; 9] +:+ "Tomato care tips" +:+ utf8 [194; 160; 10].

Ltac listed := repeat first [left; reflexivity | right].

Lemma enter_sends_once_witness :
  handle (KeyDown "Enter") (handle (Typed three_spaces) loaded)
    = set_trace (trace loaded ++ [PreventDefault]) (handle (Typed three_spaces) loaded)
  /\ handle (KeyDown "Enter") (handle (Typed wide_spaces) loaded)
    = set_trace (trace loaded ++ [PreventDefault]) (handle (Typed wide_spaces) loaded)
  /\ handle (KeyDown "Enter") (handle (Typed padded_text) loaded)
    = {| localStorage := ∅; sessionId := None;
         chatHistory := chatHistory loaded ++ [user_entry "Tomato care tips"];
         chatInput := ""; quickReplies := quickReplies loaded;
         requests := [(chat_request None (JStr "Tomato care tips"), false)];
         rejections := [];
         trace := trace loaded ++
                  [PreventDefault; AppendMessage (user_entry "Tomato care tips"); ScrollToEnd;
                   SetInput ""; Fetch (chat_request None (JStr "Tomato care tips"))] |}.
Proof.
  split; [|split].
  - destruct (enter_sends_once (num := ZNumber) (handle (Typed three_spaces) loaded))
      as (_ & _ & Hempty & Hws & _).
    apply Hempty, Hws. exists [utf8 [32]; utf8 [32]; utf8 [32]].
    split; [|reflexivity]. repeat (apply List.Forall_cons; [listed|]). apply List.Forall_nil.
  - destruct (enter_sends_once (num := ZNumber) (handle (Typed wide_spaces) loaded))
      as (_ & _ & Hempty & Hws & _).
    apply Hempty, Hws. exists [utf8 [194; 160]; utf8 [227; 128; 128]].
    split; [|reflexivity]. repeat (apply List.Forall_cons; [listed|]). apply List.Forall_nil.
  - destruct (enter_sends_once (num := ZNumber) (handle (Typed padded_text) loaded))
      as (_ & Hsend & _ & _ & Hvisible & _).
    exact (Hsend (Hvisible eq_refl)).
Defined.

Lemma quick_reply_as_typed_witness :
  handle (QuickClick 1) loaded =
  handle SendClick (handle (Typed "Tomato care tips") loaded).
Proof.
  apply (quick_reply_as_typed (num := ZNumber) "Tomato care tips"
           eq_refl (proj1 (String.eqb_neq "Tomato care tips" "") eq_refl)
           loaded 1 (label_button "Tomato care tips"));
    reflexivity.
Defined.

(** C3 as stated fails: the server's quick reply "Tomato care tips " ends in
    a space.  A click on its button sends the label as it is; typed in the
    field and sent, the label is trimmed first, so the two transcripts end
    in different user entries. *)
Lemma padded_quick_reply_differs : ~ (forall label, @click_is_typing ZNumber label).
Proof.
  intros Hclaim.
  specialize (Hclaim "Tomato care tips " padded_label 0
                (label_button "Tomato care tips ") eq_refl eq_refl).
  apply (f_equal chatHistory) in Hclaim.
  vm_compute in Hclaim. discriminate Hclaim.
Qed.

Example padded_quick_reply_entries :
  last (chatHistory (handle (QuickClick 0) padded_label))
    = Some (user_entry "Tomato care tips ")
  /\ last (chatHistory (handle SendClick (handle (Typed "Tomato care tips ") padded_label)))
    = Some (user_entry "Tomato care tips").
Proof. split; reflexivity. Qed.

(** A quick reply with an empty label is sent by a click and not by the
    send button. *)
Example empty_quick_reply :
  let s := run (num := ZNumber)
             [Load; QuickClick 0;
              Settled 0 (Response 200 (Some (JObj
                [("reply", JStr "ok"); ("quick_replies", JArr [JStr ""])])))]
             (script_load ∅) in
  length (requests (handle (QuickClick 0) s)) = 2
  /\ length (requests (handle SendClick (handle (Typed "") s))) = 1.
Proof. split; reflexivity. Qed.

(** An answer with a reply and one quick reply. *)
Definition answer : list (string * @json ZNumber) :=
  [("reply", JStr "Use the box on the left.");
   ("quick_replies", JArr [JStr "Tomato care tips"])].

Lemma sendMessage_sequence_witness :
  handle (Settled 0 (Response 200 (Some (JObj answer))))
    (settle (sendMessage (JStr "How to upload a photo?")) loaded)
  = {| localStorage := ∅; sessionId := None;
       chatHistory := [bot_entry welcome; user_entry "How to upload a photo?";
                       bot_entry "Use the box on the left."];
       chatInput := "";
       quickReplies := [label_button "Tomato care tips"];
       requests := [(chat_request None (JStr "How to upload a photo?"), true)];
       rejections := [];
       trace := trace (settle (sendMessage (JStr "How to upload a photo?")) loaded) ++
                [AppendMessage (bot_entry "Use the box on the left."); ScrollToEnd;
                 ClearQuickReplies; AppendButton (label_button "Tomato care tips")] |}.
Proof.
  exact (proj1 (proj2 (proj2 (sendMessage_sequence (num := ZNumber)
           "How to upload a photo?" loaded)))
         (settle (sendMessage (JStr "How to upload a photo?")) loaded)
         200 answer "Use the box on the left." ["Tomato care tips"]
         eq_refl eq_refl (or_introl eq_refl)).
Defined.

End ChatSpec.

(** ** Requests that fail *)

Module Failures.

Section Unhandled.
Context {num : JsNumber} {fr : Uploader.FileReaderApi}.

(** The settlements under which the promise awaited rejects: the request
    did not complete, or the body of the response is not JSON. *)
Definition rejects (o : fetch_result) : bool :=
  match o with
  | NetworkFailure => true
  | Response _ None => true
  | Response _ (Some _) => false
  end.

(** The settlements the specification counts as failures: those, and every
    response whose status is not 2xx. *)
Definition failed (o : fetch_result) : bool :=
  match o with
  | NetworkFailure => true
  | Response status body =>
      negb (Nat.leb 200 status && Nat.ltb status 300)
      || match body with None => true | Some _ => false end
  end.

(** The claim as the specification words it, for the chat: a failed request
    adds an unhandled rejection and shows nothing. *)
Definition failure_shows_nothing : Prop :=
  forall (s : Chat.state) r req o,
    Chat.requests s !! r = Some (req, false) ->
    failed o = true ->
    Chat.chatHistory (Chat.handle (Chat.Settled r o) s) = Chat.chatHistory s
    /\ Chat.rejections (Chat.handle (Chat.Settled r o) s) <> Chat.rejections s.

(** C7 (amended).  When the request does not complete or the body of the
    response is not JSON, the awaited promise rejects and nothing catches
    it: in either flow the settlement adds one unhandled rejection, marks
    the request settled and changes nothing else, so after a chat message
    the user entry stays and the field stays empty.  The status of a
    response is never read: a response is handled by its body alone. *)
Theorem rejection_is_unhandled (o : fetch_result) :
  rejects o = true ->
  (forall (s : Chat.state) r req,
     Chat.requests s !! r = Some (req, false) ->
     exists e,
       Chat.handle (Chat.Settled r o) s =
       Chat.set_rejections (Chat.rejections s ++ [e])
         (Chat.set_requests (<[r := (req, true)]> (Chat.requests s)) s))
  /\ (forall (s : Chat.state) (text : string),
        let sent := Chat.settle (Chat.sendMessage (JStr text)) s in
        let s' := Chat.handle (Chat.Settled (length (Chat.requests s)) o) sent in
        Chat.chatHistory s' = Chat.chatHistory s ++ [ChatSpec.user_entry text]
        /\ Chat.chatInput s' = ""
        /\ Chat.quickReplies s' = Chat.quickReplies s
        /\ exists e, Chat.rejections s' = Chat.rejections s ++ [e])
  /\ (forall (s : Uploader.state) u req,
        Uploader.uploads s !! u = Some (req, false) ->
        exists e,
          Uploader.handle (Uploader.UploadSettled u o) s =
          Uploader.set_rejections (Uploader.rejections s ++ [e])
            (Uploader.set_uploads (<[u := (req, true)]> (Uploader.uploads s)) s))
  /\ (forall (s : Chat.state) r status status' body,
        Chat.handle (Chat.Settled r (Response status body)) s =
        Chat.handle (Chat.Settled r (Response status' body)) s)
  /\ (forall (s : Uploader.state) u status status' body,
        Uploader.handle (Uploader.UploadSettled u (Response status body)) s =
        Uploader.handle (Uploader.UploadSettled u (Response status' body)) s).
Proof.
  intros Ho. split; [|split; [|split; [|split]]].
  - intros s r req Hr. cbn [Chat.handle]. rewrite Hr.
    destruct o as [|status [data|]]; try discriminate; eexists; reflexivity.
  - intros s text. cbv zeta.
    replace (Chat.settle (Chat.sendMessage (JStr text)) s)
      with (snd (Chat.sendMessage (JStr text) s))
      by (unfold Chat.settle; now rewrite ChatSpec.sendMessage_run).
    rewrite ChatSpec.sendMessage_run. cbn [snd Chat.handle Chat.requests].
    rewrite lookup_app_r by lia. rewrite Nat.sub_diag. cbn [lookup list_lookup].
    destruct o as [|status [data|]]; try discriminate; cbn; eauto.
  - intros s u req Hu. cbn [Uploader.handle]. rewrite Hu.
    destruct o as [|status [data|]]; try discriminate; eexists; reflexivity.
  - reflexivity.
  - reflexivity.
Qed.

End Unhandled.

(** A server error whose body is JSON with a reply. *)
Definition error_with_reply : @fetch_result ZNumber :=
  Response 500 (Some (JObj [("reply", JStr "Service unavailable")])).

(** The page after load and one message typed and sent. *)
Definition one_message_sent : @Chat.state ZNumber :=
  Chat.run (num := ZNumber) [Chat.Load; Chat.Typed "hello"; Chat.SendClick]
    (Chat.script_load ∅).

(** C7 as stated fails: a response of status 500 whose body is JSON with a
    [reply] is handled like any other; its reply is shown as a bot entry. *)
Lemma non_2xx_reply_is_shown : ~ @failure_shows_nothing ZNumber.
Proof.
  intros Hclaim.
  destruct (Hclaim one_message_sent 0
              (ChatSpec.chat_request None (JStr "hello")) error_with_reply
              eq_refl eq_refl) as [Hsame _].
  vm_compute in Hsame. discriminate Hsame.
Qed.

Example non_2xx_reply_entry :
  Chat.chatHistory (Chat.handle (Chat.Settled 0 error_with_reply) one_message_sent) =
  [ChatSpec.bot_entry ChatSpec.welcome; ChatSpec.user_entry "hello";
   ChatSpec.bot_entry "Service unavailable"]
  /\ Chat.rejections (Chat.handle (Chat.Settled 0 error_with_reply) one_message_sent) = [].
Proof. split; reflexivity. Qed.

(** An error body without a reply: the bot entry reads "undefined". *)
Example non_2xx_error_entry :
  Chat.chatHistory
    (Chat.handle
       (Chat.Settled 0 (@Response ZNumber 400 (Some (JObj [("error", JStr "message required")]))))
       one_message_sent) =
  [ChatSpec.bot_entry ChatSpec.welcome; ChatSpec.user_entry "hello";
   ChatSpec.bot_entry "undefined"].
Proof. reflexivity. Qed.

Lemma rejection_is_unhandled_witness :
  Chat.chatHistory
    (Chat.handle (Chat.Settled 0 (@NetworkFailure ZNumber)) one_message_sent) =
  [ChatSpec.bot_entry ChatSpec.welcome; ChatSpec.user_entry "hello"]
  /\ Chat.chatInput
       (Chat.handle (Chat.Settled 0 (@NetworkFailure ZNumber)) one_message_sent) = "".
Proof.
  pose proof (proj1 (proj2 (rejection_is_unhandled (num := ZNumber) (fr := rfc2397)
                NetworkFailure eq_refl))
                (Chat.run (num := ZNumber) [Chat.Load; Chat.Typed "hello"]
                   (Chat.script_load ∅)) "hello") as W.
  cbv zeta in W. destruct W as (Wh & Wi & _). split; [exact Wh | exact Wi].
Defined.

End Failures.

(** ** Whole runs *)

(** Replacing an element by one with the same image leaves the images. *)
Lemma fmap_insert_same {A B} (g : A -> B) (l : list A) (i : nat) (x y : A) :
  l !! i = Some x -> g y = g x -> g <$> <[i := y]> l = g <$> l.
Proof.
  intros Hi Hg. rewrite list_fmap_insert. apply list_insert_id.
  now rewrite list_lookup_fmap, Hi, Hg.
Qed.

Lemma last_app_option {A} (o : option A) (k : list A) :
  last (option_list o ++ k) = match last k with Some x => Some x | None => o end.
Proof.
  destruct o as [a|]; cbn; [apply last_cons | now destruct (last k)].
Qed.

(** *** The uploader *)

Module UploaderRuns.
Import Uploader UploaderSpec.

Section Runs.
Context {num : JsNumber} {fr : FileReaderApi}.

(** The request the analyze click makes for the file [f]. *)
Definition upload_of (f : file) : upload_request :=
  {| up_url := "/upload"; up_method := "POST"; up_form := [("file", f)] |}.

(** The fragment for the result [props], by the branch its status takes. *)
Definition card (props : list (string * json)) : content :=
  Html (paste (if is_diseased props then diseased_pieces props else healthy_pieces props)).

(** The file an event selects: the first of a list that is not empty. *)
Definition first_file (e : event) : option file :=
  match e with
  | InputChange (f :: _) | Drop (f :: _) => Some f
  | _ => None
  end.

(** The files selected in the course of [es], oldest first. *)
Definition picks (es : list event) : list file := omap first_file es.

(** The files the analyze clicks of [es] send, [sel] being the file selected
    when [es] starts. *)
Fixpoint sent (sel : option file) (es : list event) : list file :=
  match es with
  | [] => []
  | e :: rest =>
      match e with AnalyzeClick => option_list sel | _ => [] end ++
      sent (match first_file e with Some f => Some f | None => sel end) rest
  end.

(** The latest drag event decides the highlight of the drop area. *)
Definition drag_state (e : event) : option bool :=
  match e with
  | DragOver => Some true
  | DragLeave | Drop _ => Some false
  | _ => None
  end.

(** The events whose listener calls [fileInput.click()], and those whose
    listener calls [e.preventDefault()]. *)
Definition opens_picker (e : event) : bool :=
  match e with FileSelectClick => true | _ => false end.

Definition prevents_default (e : event) : bool :=
  match e with DragOver | Drop _ => true | _ => false end.

Definition is_response (e : event) : bool :=
  match e with UploadSettled _ _ => true | _ => false end.

Definition is_load (e : event) : bool :=
  match e with ReaderLoad _ => true | _ => false end.

(** A body whose [result] is missing or [null]; a body that is no object has
    no [result] either. *)
Definition lacks_result (data : json) : bool :=
  match data with
  | JObj body =>
      match assoc "result" body with
      | None | Some JNull => true
      | Some _ => false
      end
  | _ => true
  end.

(** A [result] that is a boolean, a number, a string or an array. *)
Definition no_object (result : json) : bool :=
  match result with
  | JNull | JObj _ => false
  | _ => true
  end.

(** The fragment of a result none of whose properties is present. *)
Definition undefined_card : content :=
  Html ("<div class=" +:+ dq +:+ "result-card" +:+ dq +:+ ">" +:+ nl +:+
        "        <h3>Plant: undefined</h3>" +:+ nl +:+
        "        <p>Status: undefined</p>" +:+ nl +:+
        "        <p>Confidence: undefined%</p><p><b>Care Tips:</b> undefined</p></div>").

Lemma rendered_card (props : list (string * json)) (s : state) :
  printable props = true -> rendered props s = card props.
Proof.
  intros Hp. unfold card. destruct (is_diseased props) eqn:E.
  - now apply rendered_diseased_pieces.
  - now apply rendered_healthy_pieces.
Qed.

(** What one event does to the selection, the analyze action and the reads
    started. *)
Lemma handle_selects (e : event) (s : state) :
  selectedFile (handle e s) =
    match first_file e with Some f => Some f | None => selectedFile s end
  /\ analyzeDisabled (handle e s) =
    match first_file e with Some _ => false | None => analyzeDisabled s end
  /\ reading <$> readers (handle e s) = (reading <$> readers s) ++ option_list (first_file e).
Proof.
  destruct e as [|files| | |files|r| |u o]; cbn [handle first_file].
  - cbn. now rewrite app_nil_r.
  - destruct files as [|f fs]; cbn; [now rewrite app_nil_r|]. now rewrite fmap_app.
  - cbn. now rewrite app_nil_r.
  - cbn. now rewrite app_nil_r.
  - destruct files as [|f fs]; cbn; [now rewrite app_nil_r|]. now rewrite fmap_app.
  - cbn [option_list option_rect]. rewrite app_nil_r.
    destruct (readers s !! r) as [[f [|]]|] eqn:Hr; try easy.
    cbn. repeat split. now apply (fmap_insert_same reading _ _ _ _ Hr).
  - cbn [option_list option_rect]. rewrite app_nil_r.
    unfold settle, analyze_click, bind, gets. now destruct (selectedFile s) eqn:E.
  - cbn [option_list option_rect]. rewrite app_nil_r.
    destruct (uploads s !! u) as [[req [|]]|]; try easy.
    pose proof (analyze_resume_frame o (set_uploads (<[u:=(req, true)]> (uploads s)) s))
      as (F1 & _ & F3 & _ & F5).
    cbv zeta in *. rewrite F1, F3, F5. easy.
Qed.

(** What one event does to the requests sent. *)
Lemma handle_uploads (e : event) (s : state) :
  fst <$> uploads (handle e s) =
  (fst <$> uploads s) ++
  (upload_of <$> match e with AnalyzeClick => option_list (selectedFile s) | _ => [] end).
Proof.
  destruct e as [|files| | |files|r| |u o]; cbn [handle fmap list_fmap];
    rewrite ?app_nil_r; try reflexivity.
  - now destruct files.
  - now destruct files.
  - now destruct (readers s !! r) as [[f [|]]|].
  - unfold settle, analyze_click, bind, gets.
    destruct (selectedFile s); cbn; [now rewrite fmap_app | now rewrite app_nil_r].
  - destruct (uploads s !! u) as [[req [|]]|] eqn:Hu; try easy.
    pose proof (analyze_resume_frame o (set_uploads (<[u:=(req, true)]> (uploads s)) s))
      as (_ & _ & _ & F4 & _).
    cbv zeta in F4. rewrite F4. cbn. now apply (fmap_insert_same fst _ _ _ _ Hu).
Qed.

Lemma run_selects (es : list event) (s : state) :
  selectedFile (run es s) =
    match last (picks es) with Some f => Some f | None => selectedFile s end
  /\ analyzeDisabled (run es s) =
    match last (picks es) with Some _ => false | None => analyzeDisabled s end
  /\ reading <$> readers (run es s) = (reading <$> readers s) ++ picks es.
Proof.
  revert s. induction es as [|e es IH]; intros s.
  - cbn. now rewrite app_nil_r.
  - destruct (IH (handle e s)) as (I1 & I2 & I3).
    destruct (handle_selects e s) as (H1 & H2 & H3).
    change (run (e :: es) s) with (run es (handle e s)).
    assert (Hp : picks (e :: es) = option_list (first_file e) ++ picks es)
      by (unfold picks; cbn; now destruct (first_file e)).
    rewrite Hp, last_app_option, I1, I2, I3, H1, H2, H3, <- app_assoc.
    destruct (last (picks es)), (first_file e); easy.
Qed.

(** X1.  After any events on the fresh page, the reads started are those of
    the first files of the selections that were not empty (by the picker or
    by a drop), in order; the selected file is the first file of the latest
    such selection, whatever reads completed and whatever was uploaded or
    answered since; and the analyze action is disabled exactly as long as
    there was none.  An empty selection and the further files of a selection
    play no part. *)
Theorem selection_is_latest_first_file (es : list event) :
  let s := run es initial in
  reading <$> readers s = picks es
  /\ selectedFile s = last (picks es)
  /\ analyzeDisabled s = match last (picks es) with Some _ => false | None => true end.
Proof.
  cbv zeta. destruct (run_selects es initial) as (H1 & H2 & H3).
  rewrite H1, H2, H3. cbn. now destruct (last (picks es)).
Qed.

(** X2.  No event deselects: once a file is selected and the analyze action
    enabled they stay so through every later event, a completed or failed
    upload included. *)
Theorem selection_is_never_cleared (es : list event) (s : state) (f : file) :
  selectedFile s = Some f -> analyzeDisabled s = false ->
  is_Some (selectedFile (run es s)) /\ analyzeDisabled (run es s) = false.
Proof.
  intros Hs Ha. destruct (run_selects es s) as (H1 & H2 & _).
  rewrite H1, H2, Hs, Ha. now destruct (last (picks es)).
Qed.

(** X3.  Each click on Analyze sends one POST to [/upload] whose form holds
    the single part [file], the file selected at the moment of the click; a
    click before any selection sends nothing, and no other event sends. *)
Theorem click_uploads_current_selection (es : list event) (s : state) :
  fst <$> uploads (run es s) =
  (fst <$> uploads s) ++ (upload_of <$> sent (selectedFile s) es).
Proof.
  revert s. induction es as [|e es IH]; intros s.
  - cbn. now rewrite app_nil_r.
  - change (run (e :: es) s) with (run es (handle e s)).
    rewrite IH, handle_uploads. destruct (handle_selects e s) as (-> & _).
    cbn [sent]. rewrite fmap_app, <- app_assoc. reflexivity.
Qed.

(** A read completes for the preview shown, or none has and the preview is
    as the page had it. *)
Definition preview_from_a_read (s : state) : Prop :=
  (forallb (fun rd => negb (fired rd)) (readers s) = true /\ preview s = Html "")
  \/ exists r rd, readers s !! r = Some rd /\ fired rd = true
                  /\ preview s = preview_of (reading rd).

Lemma preview_from_a_read_same (s s' : state) :
  preview_from_a_read s -> readers s' = readers s -> preview s' = preview s ->
  preview_from_a_read s'.
Proof. unfold preview_from_a_read. now intros H -> ->. Qed.

Lemma preview_from_a_read_select (f : file) (s s' : state) :
  preview_from_a_read s ->
  readers s' = readers s ++ [{| reading := f; fired := false |}] ->
  preview s' = preview s ->
  preview_from_a_read s'.
Proof.
  unfold preview_from_a_read. intros [[Hn Hp]|(r & rd & Hr & Hf & Hp)] -> ->.
  - left. split; [|exact Hp]. rewrite forallb_app, Hn. reflexivity.
  - right. exists r, rd. split; [|easy].
    rewrite lookup_app_l; [exact Hr | eapply lookup_lt_Some, Hr].
Qed.

Lemma preview_from_a_read_step (e : event) (s : state) :
  preview_from_a_read s -> preview_from_a_read (handle e s).
Proof.
  intros Hs. destruct e as [|files| | |files|r| |u o]; cbn [handle].
  - now apply (preview_from_a_read_same s).
  - destruct files as [|f fs]; [exact Hs|]. now apply (preview_from_a_read_select f s).
  - now apply (preview_from_a_read_same s).
  - now apply (preview_from_a_read_same s).
  - destruct files as [|f fs]; [now apply (preview_from_a_read_same s)|].
    now apply (preview_from_a_read_select f s).
  - destruct (readers s !! r) as [[f [|]]|] eqn:Hr; try exact Hs.
    right. exists r, {| reading := f; fired := true |}. cbn.
    split; [|easy]. apply list_lookup_insert_eq. eapply lookup_lt_Some, Hr.
  - unfold settle, analyze_click, bind, gets.
    destruct (selectedFile s); now apply (preview_from_a_read_same s).
  - destruct (uploads s !! u) as [[req [|]]|]; try exact Hs.
    pose proof (analyze_resume_frame o (set_uploads (<[u:=(req, true)]> (uploads s)) s))
      as (_ & F2 & F3 & _).
    now apply (preview_from_a_read_same s).
Qed.

(** X4.  After any events on the fresh page the preview is empty as long as
    no read has completed, and from then on it is the image of a file that
    was selected and whose read has completed: never of a file still being
    read, and no upload or response changes it. *)
Theorem preview_shows_a_completed_read (es : list event) :
  preview_from_a_read (run es initial).
Proof.
  assert (H : forall s, preview_from_a_read s -> preview_from_a_read (run es s)).
  { induction es as [|e es IH]; intros s Hs; [exact Hs|].
    apply IH, preview_from_a_read_step, Hs. }
  apply H. left. split; reflexivity.
Qed.

Lemma results_step (e : event) (s : state) :
  is_response e = false -> results (handle e s) = results s.
Proof.
  destruct e as [|files| | |files|r| |u o]; cbn [handle is_response]; try easy.
  - now destruct files.
  - now destruct files.
  - now destruct (readers s !! r) as [[f [|]]|].
  - intros _. unfold settle, analyze_click, bind, gets. now destruct (selectedFile s) eqn:E.
Qed.

Lemma preview_step (e : event) (s : state) :
  is_load e = false -> preview (handle e s) = preview s.
Proof.
  destruct e as [|files| | |files|r| |u o]; cbn [handle is_load]; try easy.
  - now destruct files.
  - now destruct files.
  - intros _. unfold settle, analyze_click, bind, gets. now destruct (selectedFile s) eqn:E.
  - intros _. destruct (uploads s !! u) as [[req [|]]|]; try easy.
    now pose proof (analyze_resume_frame o (set_uploads (<[u:=(req, true)]> (uploads s)) s))
      as (_ & F2 & _).
Qed.

(** X5.  The two regions are independent.  As long as no response arrives,
    what [#results] holds stays: a new selection, its preview or a new
    click on Analyze does not clear the result of the previous analysis.
    As long as no read completes, the preview stays. *)
Theorem regions_are_independent (es : list event) (s : state) :
  (forallb (fun e => negb (is_response e)) es = true -> results (run es s) = results s)
  /\ (forallb (fun e => negb (is_load e)) es = true -> preview (run es s) = preview s).
Proof.
  split; revert s; induction es as [|e es IH]; intros s H; try reflexivity;
    cbn in H; apply andb_true_iff in H as [He Hes];
    change (run (e :: es) s) with (run es (handle e s)); rewrite (IH _ Hes).
  - apply results_step. now destruct (is_response e).
  - apply preview_step. now destruct (is_load e).
Qed.

(** X6.  The drop area is highlighted exactly when the latest drag event is
    a dragover: a dragleave or a drop ends it, and no selection, read,
    click or response touches it. *)
Theorem hover_follows_the_drag (es : list event) (s : state) :
  hover (run es s) = default (hover s) (last (omap drag_state es)).
Proof.
  revert s. induction es as [|e es IH]; intros s; [reflexivity|].
  change (run (e :: es) s) with (run es (handle e s)). rewrite IH.
  assert (Hh : hover (handle e s) = default (hover s) (drag_state e)).
  { destruct e as [|files| | |files|r| |u o]; cbn [handle drag_state]; try easy.
    - now destruct files.
    - now destruct files.
    - now destruct (readers s !! r) as [[f [|]]|].
    - unfold settle, analyze_click, bind, gets. now destruct (selectedFile s) eqn:E.
    - destruct (uploads s !! u) as [[req [|]]|]; try easy.
      now rewrite (settle_keeps hover (analyze_resume o) _ (fun _ _ => eq_refl)
                     (analyze_resume_keeps hover o (fun _ _ => eq_refl))). }
  rewrite Hh.
  assert (Ho : omap drag_state (e :: es) = option_list (drag_state e) ++ omap drag_state es)
    by (cbn; now destruct (drag_state e)).
  rewrite Ho, last_app_option.
  destruct (last (omap drag_state es)), (drag_state e); reflexivity.
Qed.

Lemma platform_step (e : event) (s : state) :
  pickerOpened (handle e s) = pickerOpened s + (if opens_picker e then 1 else 0)
  /\ defaultPrevented (handle e s) = defaultPrevented s + (if prevents_default e then 1 else 0).
Proof.
  destruct e as [|files| | |files|r| |u o]; cbn [handle opens_picker prevents_default].
  - cbn. lia.
  - destruct files; cbn; lia.
  - cbn. lia.
  - cbn. lia.
  - destruct files; cbn; lia.
  - destruct (readers s !! r) as [[f [|]]|]; cbn; lia.
  - unfold settle, analyze_click, bind, gets. destruct (selectedFile s) eqn:E; cbn; lia.
  - destruct (uploads s !! u) as [[req [|]]|]; try lia.
    rewrite (settle_keeps pickerOpened (analyze_resume o) _ (fun _ _ => eq_refl)
               (analyze_resume_keeps pickerOpened o (fun _ _ => eq_refl))).
    rewrite (settle_keeps defaultPrevented (analyze_resume o) _ (fun _ _ => eq_refl)
               (analyze_resume_keeps defaultPrevented o (fun _ _ => eq_refl))).
    cbn. lia.
Qed.

(** X7.  The file picker is opened once by each click on the select button
    and by nothing else; the default action is prevented once by each
    dragover and each drop, with or without files, and by nothing else. *)
Theorem listeners_call_the_platform (es : list event) (s : state) :
  pickerOpened (run es s) = pickerOpened s + length (List.filter opens_picker es)
  /\ defaultPrevented (run es s) =
     defaultPrevented s + length (List.filter prevents_default es).
Proof.
  revert s. induction es as [|e es IH]; intros s; [cbn; lia|].
  change (run (e :: es) s) with (run es (handle e s)).
  destruct (IH (handle e s)) as [I1 I2]. destruct (platform_step e s) as [P1 P2].
  rewrite I1, I2, P1, P2. cbn [List.filter].
  destruct (opens_picker e), (prevents_default e); cbn [length]; lia.
Qed.

(** X8.  A response of any status whose body carries an Analysis Result
    under [result] puts the fragment for that result in [#results] and
    marks the request settled; nothing else on the page changes, and
    nothing is rejected. *)
Theorem analysis_response_is_rendered (s : state) (u : nat) (req : upload_request)
    (status : nat) (body props : list (string * json)) :
  uploads s !! u = Some (req, false) ->
  assoc "result" body = Some (JObj props) ->
  printable props = true ->
  handle (UploadSettled u (Response status (Some (JObj body)))) s =
  set_results (card props) (set_uploads (<[u := (req, true)]> (uploads s)) s).
Proof.
  intros Hu Hres Hp. cbn [handle]. rewrite Hu.
  unfold settle, analyze_resume, bind at 1. cbn [get_prop]. unfold ret at 1. rewrite Hres.
  rewrite (displayResults_returns props _ Hp), (rendered_card props _ Hp). reflexivity.
Qed.

(** X9.  A response whose body has no [result], or [null] for it, or is no
    object at all, shows nothing: reading the result throws a [TypeError]
    that nothing catches, [#results] and the rest of the page stay as they
    were, and the request is settled. *)
Theorem analysis_without_result_rejects (s : state) (u : nat) (req : upload_request)
    (status : nat) (data : json) :
  uploads s !! u = Some (req, false) ->
  lacks_result data = true ->
  exists msg,
    handle (UploadSettled u (Response status (Some data))) s =
    set_rejections (rejections s ++ [TypeError msg])
      (set_uploads (<[u := (req, true)]> (uploads s)) s).
Proof.
  intros Hu Hd. cbn [handle]. rewrite Hu.
  unfold settle, analyze_resume, bind at 1.
  destruct data as [| | | | |body]; cbn [get_prop]; try (eexists; reflexivity).
  unfold lacks_result in Hd. unfold ret at 1.
  destruct (assoc "result" body) as [[]|]; try discriminate; eexists; reflexivity.
Qed.

(** X10.  A result one of whose values shown does not convert to a string
    is not rendered, not even in part: the conversion throws before the
    assignment, [#results] and the rest of the page stay as they were, the
    request is settled and the error is an unhandled rejection. *)
Theorem unprintable_result_renders_nothing (s : state) (u : nat) (req : upload_request)
    (status : nat) (body props : list (string * json)) :
  uploads s !! u = Some (req, false) ->
  assoc "result" body = Some (JObj props) ->
  printable props = false ->
  exists err,
    handle (UploadSettled u (Response status (Some (JObj body)))) s =
    set_rejections (rejections s ++ [err])
      (set_uploads (<[u := (req, true)]> (uploads s)) s).
Proof.
  intros Hu Hres Hp. cbn [handle]. rewrite Hu.
  unfold settle, analyze_resume, bind at 1. cbn [get_prop]. unfold ret at 1. rewrite Hres.
  destruct (displayResults_throws props
              (set_uploads (<[u:=(req, true)]> (uploads s)) s) Hp) as [err ->].
  now exists err.
Qed.

(** X11.  Of two uploads in flight the response that arrives last decides
    what [#results] shows, whichever of the two was sent first and however
    the other was answered: the result of an older upload that is answered
    late takes the place of a newer one's. *)
Theorem results_show_the_latest_arrival (s : state) (u1 u2 : nat)
    (req1 req2 : upload_request) (o1 : fetch_result) (status : nat)
    (body props : list (string * json)) :
  u1 <> u2 ->
  uploads s !! u1 = Some (req1, false) ->
  uploads s !! u2 = Some (req2, false) ->
  assoc "result" body = Some (JObj props) ->
  printable props = true ->
  results (handle (UploadSettled u2 (Response status (Some (JObj body))))
             (handle (UploadSettled u1 o1) s)) = card props.
Proof.
  intros Hne H1 H2 Hres Hp.
  assert (Hu : uploads (handle (UploadSettled u1 o1) s) !! u2 = Some (req2, false)).
  { cbn [handle]. rewrite H1.
    pose proof (analyze_resume_frame o1 (set_uploads (<[u1:=(req1, true)]> (uploads s)) s))
      as (_ & _ & _ & F4 & _).
    cbv zeta in F4. rewrite F4. cbn. now rewrite list_lookup_insert_ne. }
  cbn [handle] in Hu |- *. rewrite H1 in Hu |- *. rewrite Hu.
  unfold settle at 1, analyze_resume at 1, bind at 1. cbn [get_prop]. unfold ret at 1.
  rewrite Hres, (displayResults_returns props _ Hp), (rendered_card props _ Hp).
  reflexivity.
Qed.

(** X12.  A [result] that is a boolean, a number, a string or an array has
    none of the properties read: the renderer does not fail on it, it
    prints the care-tips fragment with [undefined] for every value. *)
Theorem result_without_properties_reads_undefined (result : json) (s : state) :
  no_object result = true ->
  displayResults (Some result) s = (Returned tt, set_results undefined_card s).
Proof. destruct result; try discriminate; reflexivity. Qed.

End Runs.

(** The fresh page after [a.png] was picked and Analyze clicked. *)
Definition analysis_pending : state :=
  run (num := ZNumber) (fr := rfc2397) [InputChange [leaf_a]; AnalyzeClick] initial.

(** A result whose plant is an object with a [toString] of its own. *)
Definition unprintable_plant : list (string * @json ZNumber) :=
  [("plant", JObj [("toString", JNull)]); ("status", JStr "Healthy")].

Lemma selection_is_never_cleared_witness :
  is_Some (selectedFile (run (num := ZNumber) (fr := rfc2397)
             [UploadSettled 0 NetworkFailure; InputChange []; AnalyzeClick] analysis_pending))
  /\ analyzeDisabled (run (num := ZNumber) (fr := rfc2397)
        [UploadSettled 0 NetworkFailure; InputChange []; AnalyzeClick] analysis_pending) = false.
Proof.
  exact (selection_is_never_cleared (num := ZNumber) (fr := rfc2397)
           [UploadSettled 0 NetworkFailure; InputChange []; AnalyzeClick]
           analysis_pending leaf_a eq_refl eq_refl).
Defined.

Lemma analysis_response_is_rendered_witness :
  handle (num := ZNumber) (fr := rfc2397)
    (UploadSettled 0 (Response 200 (Some (JObj [("result", JObj blighted)])))) analysis_pending
  = set_results (card blighted)
      (set_uploads (<[0 := (upload_of leaf_a, true)]> (uploads analysis_pending))
         analysis_pending).
Proof.
  exact (analysis_response_is_rendered (num := ZNumber) (fr := rfc2397)
           analysis_pending 0 (upload_of leaf_a) 200
           [("result", JObj blighted)] blighted eq_refl eq_refl eq_refl).
Defined.

Lemma analysis_without_result_rejects_witness :
  exists msg,
    handle (num := ZNumber) (fr := rfc2397)
      (UploadSettled 0 (Response 200 (Some (JObj [("analysis", JObj blighted)]))))
      analysis_pending
    = set_rejections (rejections analysis_pending ++ [TypeError msg])
        (set_uploads (<[0 := (upload_of leaf_a, true)]> (uploads analysis_pending))
           analysis_pending).
Proof.
  exact (analysis_without_result_rejects (num := ZNumber) (fr := rfc2397)
           analysis_pending 0 (upload_of leaf_a) 200
           (JObj [("analysis", JObj blighted)]) eq_refl eq_refl).
Defined.

(** The error of a body that names its result [analysis]. *)
Example result_under_another_name :
  rejections (handle (num := ZNumber) (fr := rfc2397)
    (UploadSettled 0 (Response 200 (Some (JObj [("analysis", JObj blighted)]))))
    analysis_pending)
  = [TypeError "Cannot read properties of undefined (reading 'plant')"].
Proof. reflexivity. Qed.

Lemma unprintable_result_renders_nothing_witness :
  exists err,
    handle (num := ZNumber) (fr := rfc2397)
      (UploadSettled 0 (Response 200 (Some (JObj [("result", JObj unprintable_plant)]))))
      analysis_pending
    = set_rejections (rejections analysis_pending ++ [err])
        (set_uploads (<[0 := (upload_of leaf_a, true)]> (uploads analysis_pending))
           analysis_pending).
Proof.
  exact (unprintable_result_renders_nothing (num := ZNumber) (fr := rfc2397)
           analysis_pending 0 (upload_of leaf_a) 200
           [("result", JObj unprintable_plant)] unprintable_plant eq_refl eq_refl eq_refl).
Defined.

Lemma result_without_properties_reads_undefined_witness :
  displayResults (num := ZNumber) (Some (JStr "Healthy")) initial
  = (Returned tt, set_results undefined_card initial).
Proof.
  exact (result_without_properties_reads_undefined (num := ZNumber)
           (JStr "Healthy") initial eq_refl).
Defined.

(** The page of [analysis_pending] once the result has arrived. *)
Definition analysis_shown : state :=
  handle (num := ZNumber) (fr := rfc2397)
    (UploadSettled 0 (Response 200 (Some (JObj [("result", JObj blighted)])))) analysis_pending.

Lemma regions_are_independent_witness :
  results (run (num := ZNumber) (fr := rfc2397)
             [Drop [leaf_b]; ReaderLoad 1; AnalyzeClick] analysis_shown)
  = card blighted.
Proof.
  exact (proj1 (regions_are_independent (num := ZNumber) (fr := rfc2397)
                  [Drop [leaf_b]; ReaderLoad 1; AnalyzeClick] analysis_shown) eq_refl).
Defined.

(** [a.png] is sent, then [b.png]; the answer for [b.png] comes first. *)
Definition two_in_flight : state :=
  run (num := ZNumber) (fr := rfc2397)
    [InputChange [leaf_a]; AnalyzeClick; InputChange [leaf_b]; AnalyzeClick] initial.

Lemma results_show_the_latest_arrival_witness :
  results (handle (num := ZNumber) (fr := rfc2397)
             (UploadSettled 0 (Response 200 (Some (JObj [("result", JObj blighted)]))))
             (handle (num := ZNumber) (fr := rfc2397)
                (UploadSettled 1 (Response 200 (Some (JObj [("result", JObj marked_up)]))))
                two_in_flight))
  = card blighted.
Proof.
  exact (results_show_the_latest_arrival (num := ZNumber) (fr := rfc2397)
           two_in_flight 1 0 (upload_of leaf_b) (upload_of leaf_a)
           (Response 200 (Some (JObj [("result", JObj marked_up)]))) 200
           [("result", JObj blighted)] blighted
           (fun H => eq_ind 1 (fun n => match n with 0 => False | _ => True end) I 0 H)
           eq_refl eq_refl eq_refl eq_refl).
Defined.

(** Two clicks around a second selection: [a.png] goes first, [b.png]
    second, and the click before any selection sends nothing. *)
Example uploads_follow_the_selection :
  fst <$> uploads (run (num := ZNumber) (fr := rfc2397)
    [AnalyzeClick; InputChange [leaf_a]; AnalyzeClick; Drop [leaf_b; leaf_a]; AnalyzeClick]
    initial)
  = [upload_of leaf_a; upload_of leaf_b].
Proof. reflexivity. Qed.

End UploaderRuns.

(** *** The chat widget *)

Module ChatRuns.
Import Chat ChatSpec.

Section Runs.
Context {num : JsNumber}.

(** The button [renderQuickReplies] makes of the element [q] of the list,
    [t] being the text of [q]. *)
Definition reply_button (q : json) (t : string) : button :=
  {| btn_class := "quick-btn"; btn_content := Text t; btn_arg := q |}.

(** The buttons the loop leaves: one for each element, up to the first whose
    conversion throws. *)
Fixpoint buttons_of (items : list json) : list button :=
  match items with
  | [] => []
  | q :: rest =>
      match dom_string (Some q) with
      | Some t => reply_button q t :: buttons_of rest
      | None => []
      end
  end.

(** The buttons [renderQuickReplies(v)] leaves. *)
Definition quick_buttons (v : jsval) : list button :=
  match v with
  | Some (JArr items) => buttons_of items
  | _ => []
  end.

Definition convertible (q : json) : bool :=
  match dom_string (Some q) with Some _ => true | None => false end.

(** A button shows the text of the value its click sends. *)
Definition labelled (b : button) : Prop :=
  exists t, dom_string (Some (btn_arg b)) = Some t /\ b = reply_button (btn_arg b) t.

(** The events that call [sendMessage]. *)
Definition sends (e : event) : bool :=
  match e with
  | SendClick | QuickClick _ => true
  | KeyDown key => String.eqb key "Enter"
  | _ => false
  end.

Definition is_settlement (e : event) : bool :=
  match e with Settled _ _ => true | _ => false end.

(** The text of a user entry. *)
Definition user_text (m : message) : option string :=
  if String.eqb (msg_class m) "msg user" then
    match msg_content m with Text t => Some t | Html _ => None end
  else None.

(** The [message] a request carries, and the text an entry shows for it. *)
Definition message_of (rq : request) : jsval :=
  match req_body rq with
  | JObj props => assoc "message" props
  | _ => None
  end.

Definition message_text (rq : request) : option string := dom_string (message_of rq).

(** A body that gives no text for the bot entry: [null], whose [reply]
    cannot be read, or one whose [reply] does not convert. *)
Definition unreadable (data : json) : bool :=
  match data with
  | JNull => true
  | _ => match dom_string (prop_of data "reply") with Some _ => false | None => true end
  end.

Ltac run_steps :=
  unfold emit, bind, modify, gets, ret, throw,
    set_chatHistory, set_chatInput, set_quickReplies, set_requests,
    set_rejections, set_trace; cbn.

Lemma chat_settle_proj {A} (f : state -> A) (c : M state unit) (s : state) :
  (forall v s, f (set_rejections v s) = f s) -> f (settle c s) = f (snd (c s)).
Proof.
  intros Hf. unfold settle. destruct (c s) as [[[]|e] s']; cbn; [reflexivity | apply Hf].
Qed.

Lemma keeps_addMessage {A} (f : state -> A) (who : string) (text : jsval) :
  (forall v s, f (set_chatHistory v s) = f s) ->
  (forall v s, f (set_trace v s) = f s) ->
  keeps f (addMessage who text).
Proof.
  intros Hh Ht. unfold addMessage, emit.
  repeat first
    [ apply keeps_converted
    | apply keeps_modify; intros ?; first [apply Hh | apply Ht]
    | apply keeps_bind; [|intros ?] ].
Qed.

Lemma keeps_sendMessage {A} (f : state -> A) (text : json) :
  (forall v s, f (set_chatHistory v s) = f s) ->
  (forall v s, f (set_trace v s) = f s) ->
  (forall v s, f (set_chatInput v s) = f s) ->
  (forall v s, f (set_requests v s) = f s) ->
  keeps f (sendMessage text).
Proof.
  intros Hh Ht Hi Hr. unfold sendMessage, emit.
  apply keeps_bind; [now apply keeps_addMessage|intros _].
  repeat first
    [ apply keeps_gets
    | apply keeps_modify; intros ?; first [apply Hi | apply Ht | apply Hr]
    | apply keeps_bind; [|intros ?] ].
Qed.

Lemma keeps_resume {A} (f : state -> A) (o : fetch_result) :
  (forall v s, f (set_chatHistory v s) = f s) ->
  (forall v s, f (set_quickReplies v s) = f s) ->
  (forall v s, f (set_trace v s) = f s) ->
  keeps f (sendMessage_resume o).
Proof.
  intros Hh Hq Ht. destruct o as [|status [data|]]; cbn [sendMessage_resume];
    try apply keeps_throw.
  apply keeps_bind; [apply keeps_get_prop|intros reply].
  apply keeps_bind; [now apply keeps_addMessage|intros _].
  apply keeps_bind; [apply keeps_get_prop|intros quick_replies].
  now apply keeps_renderQuickReplies.
Qed.

(** *** The handlers on any value *)

Lemma sendMessage_printable (text : json) (t : string) (s : state) :
  dom_string (Some text) = Some t ->
  sendMessage text s =
  (Returned tt,
   {| localStorage := localStorage s; sessionId := sessionId s;
      chatHistory := chatHistory s ++ [user_entry t];
      chatInput := ""; quickReplies := quickReplies s;
      requests := requests s ++ [(chat_request (sessionId s) text, false)];
      rejections := rejections s;
      trace := trace s ++ [AppendMessage (user_entry t); ScrollToEnd;
                           SetInput ""; Fetch (chat_request (sessionId s) text)] |}).
Proof.
  intros Ht. unfold sendMessage, bind at 1.
  rewrite (addMessage_run "user" (Some text) t s Ht). run_steps.
  now rewrite <- !app_assoc.
Qed.

Lemma sendMessage_unprintable (text : json) (s : state) :
  dom_string (Some text) = None -> exists e, sendMessage text s = (Thrown e, s).
Proof.
  intros Ht. unfold sendMessage, bind at 1.
  destruct (addMessage_throws "user" (Some text) s Ht) as [e ->]. now exists e.
Qed.

Lemma add_quick_reply_run (q : json) (s : state) :
  add_quick_reply q s =
  match dom_string (Some q) with
  | Some t =>
      (Returned tt,
       set_trace (trace s ++ [AppendButton (reply_button q t)])
         (set_quickReplies (quickReplies s ++ [reply_button q t]) s))
  | None => (Thrown (TypeError "Cannot convert object to primitive value"), s)
  end.
Proof.
  unfold add_quick_reply, bind at 1. now destruct (dom_string (Some q)).
Qed.

Lemma forEach_buttons (items : list json) (s : state) :
  quickReplies (snd (forEach items add_quick_reply s)) = quickReplies s ++ buttons_of items
  /\ fst (forEach items add_quick_reply s) =
     (if forallb convertible items then Returned tt
      else Thrown (TypeError "Cannot convert object to primitive value"))
  /\ trace (snd (forEach items add_quick_reply s)) =
     trace s ++ (AppendButton <$> buttons_of items).
Proof.
  revert s. induction items as [|q items IH]; intros s.
  - cbn. now rewrite !app_nil_r.
  - cbn [forEach buttons_of forallb]. unfold bind, convertible at 1.
    rewrite add_quick_reply_run.
    destruct (dom_string (Some q)) as [t|]; cbn [andb fst snd];
      [|cbn; now rewrite !app_nil_r].
    destruct (IH (set_trace (trace s ++ [AppendButton (reply_button q t)])
                   (set_quickReplies (quickReplies s ++ [reply_button q t]) s)))
      as (I1 & I2 & I3).
    rewrite I1, I2, I3. cbn. now rewrite <- !app_assoc.
Qed.

Lemma quick_buttons_falsy (v : jsval) : truthy v = false -> quick_buttons v = [].
Proof. now destruct v as [[]|]. Qed.

Lemma renderQuickReplies_buttons (v : jsval) (s : state) :
  quickReplies (snd (renderQuickReplies v s)) = quick_buttons v.
Proof.
  unfold renderQuickReplies, bind at 1. cbn [modify]. unfold bind at 1, emit at 1. cbn [modify].
  destruct (truthy v) eqn:Hv; cbn [negb]; [|now rewrite quick_buttons_falsy].
  destruct v as [[| | | |[|q items]|props]|]; try reflexivity.
  - apply (forEach_buttons (q :: items)).
  - cbn [quick_buttons]. destruct (assoc "length" props) as [[| |n| | |]|]; try reflexivity.
    now destruct (number_is_zero n).
Qed.

Lemma renderQuickReplies_trace (v : jsval) (s : state) :
  trace (snd (renderQuickReplies v s)) =
  trace s ++ ClearQuickReplies :: (AppendButton <$> quick_buttons v).
Proof.
  unfold renderQuickReplies, bind at 1. cbn [modify]. unfold bind at 1, emit at 1. cbn [modify].
  destruct (truthy v) eqn:Hv; cbn [negb]; [|now rewrite quick_buttons_falsy].
  destruct v as [[| | | |[|q items]|props]|]; try reflexivity.
  - destruct (forEach_buttons (q :: items)
                (set_trace (trace (set_quickReplies [] s) ++ [ClearQuickReplies])
                   (set_quickReplies [] s))) as (_ & _ & ->).
    cbn. now rewrite <- app_assoc.
  - cbn [quick_buttons]. destruct (assoc "length" props) as [[| |n| | |]|]; try reflexivity.
    now destruct (number_is_zero n).
Qed.

Lemma labelled_buttons_of (items : list json) : Forall labelled (buttons_of items).
Proof.
  induction items as [|q items IH]; cbn [buttons_of]; [constructor|].
  destruct (dom_string (Some q)) as [t|] eqn:E; constructor; [|exact IH].
  now exists t.
Qed.

Lemma labelled_quick_buttons (v : jsval) : Forall labelled (quick_buttons v).
Proof.
  destruct v as [[| | | |items|]|]; try constructor. apply labelled_buttons_of.
Qed.

(** On a body with a reply that converts, the rest of [sendMessage] is the
    rendering of the quick replies on the page with the bot entry. *)
Lemma resume_readable (status : nat) (data : json) (t : string) (s : state) :
  data <> JNull -> dom_string (prop_of data "reply") = Some t ->
  sendMessage_resume (Response status (Some data)) s =
  renderQuickReplies
    (if truthy (prop_of data "quick_replies")
     then prop_of data "quick_replies" else Some (JArr []))
    {| localStorage := localStorage s; sessionId := sessionId s;
       chatHistory := chatHistory s ++ [bot_entry t];
       chatInput := chatInput s; quickReplies := quickReplies s;
       requests := requests s; rejections := rejections s;
       trace := trace s ++ [AppendMessage (bot_entry t); ScrollToEnd] |}.
Proof.
  intros Hd Ht. unfold sendMessage_resume, bind at 1.
  rewrite (get_prop_run data "reply" s Hd). unfold bind at 1.
  rewrite (addMessage_run "bot" _ t s Ht). unfold bind at 1.
  now rewrite get_prop_run by exact Hd.
Qed.

Lemma resume_unreadable (status : nat) (data : json) (s : state) :
  unreadable data = true ->
  exists e, sendMessage_resume (Response status (Some data)) s = (Thrown e, s).
Proof.
  intros Hu.
  assert (Hd : data = JNull \/ data <> JNull) by (destruct data; auto; right; discriminate).
  destruct Hd as [->|Hd]; [eexists; reflexivity|].
  assert (Ht : dom_string (prop_of data "reply") = None).
  { unfold unreadable in Hu.
    destruct (dom_string (prop_of data "reply")); [now destruct data | reflexivity]. }
  unfold sendMessage_resume, bind at 1.
  rewrite (get_prop_run data "reply" s Hd). unfold bind at 1.
  destruct (addMessage_throws "bot" (prop_of data "reply") s Ht) as [e ->]. now exists e.
Qed.

Lemma readable_reply (data : json) :
  unreadable data = false ->
  data <> JNull /\ exists t, dom_string (prop_of data "reply") = Some t.
Proof.
  unfold unreadable. intros Hu. split; [intros ->; discriminate|].
  destruct (dom_string (prop_of data "reply")) as [t|]; [now exists t | now destruct data].
Qed.

(** A settlement either throws with the page as it was, or appends the bot
    entry and leaves the buttons of the response. *)
Lemma resume_shape (o : fetch_result) (s : state) :
  (exists e, sendMessage_resume o s = (Thrown e, s))
  \/ exists status data t,
       o = Response status (Some data) /\ unreadable data = false
       /\ dom_string (prop_of data "reply") = Some t
       /\ chatHistory (snd (sendMessage_resume o s)) = chatHistory s ++ [bot_entry t]
       /\ quickReplies (snd (sendMessage_resume o s)) = quick_buttons (prop_of data "quick_replies").
Proof.
  destruct o as [|status [data|]]; try (left; eexists; reflexivity).
  destruct (unreadable data) eqn:Hu; [left; now apply resume_unreadable|].
  destruct (readable_reply data Hu) as [Hd [t Ht]].
  right. exists status, data, t. repeat split; try assumption.
  - rewrite (resume_readable status data t s Hd Ht).
    now rewrite (keeps_renderQuickReplies chatHistory _ (fun _ _ => eq_refl) (fun _ _ => eq_refl)).
  - rewrite (resume_readable status data t s Hd Ht), renderQuickReplies_buttons.
    destruct (truthy (prop_of data "quick_replies")) eqn:Hq; [reflexivity|].
    now rewrite (quick_buttons_falsy _ Hq).
Qed.

(** *** One event *)

Lemma load_run (s : state) :
  handle Load s =
  {| localStorage := localStorage s; sessionId := sessionId s;
     chatHistory := chatHistory s ++ [bot_entry welcome];
     chatInput := chatInput s;
     quickReplies := [label_button "How to upload a photo?"; label_button "Tomato care tips"];
     requests := requests s; rejections := rejections s;
     trace := trace s ++
       [AppendMessage (bot_entry welcome); ScrollToEnd; ClearQuickReplies;
        AppendButton (label_button "How to upload a photo?");
        AppendButton (label_button "Tomato care tips")] |}.
Proof.
  cbn [handle]. unfold settle, window_load, bind.
  erewrite addMessage_run by reflexivity.
  pose proof (renderQuickReplies_labels ["How to upload a photo?"; "Tomato care tips"]) as Hq.
  cbn [fmap list_fmap] in Hq. rewrite Hq.
  cbn. now rewrite <- !app_assoc.
Qed.

Lemma keydown_run (key : string) (s : state) :
  handle (KeyDown key) s =
  if String.eqb key "Enter"
  then settle sendBtn_click (set_trace (trace s ++ [PreventDefault]) s)
  else s.
Proof.
  cbn [handle]. unfold chatInput_keydown. now destruct (String.eqb key "Enter").
Qed.

(** What one event can show and send. *)
Inductive shows (e : event) (s s' : state) : Prop :=
| Shows_nothing :
    chatHistory s' = chatHistory s ->
    fst <$> requests s' = fst <$> requests s ->
    shows e s s'
| Shows_bot (t : string) :
    sends e = false ->
    chatHistory s' = chatHistory s ++ [bot_entry t] ->
    fst <$> requests s' = fst <$> requests s ->
    shows e s s'
| Shows_user (text : json) (t : string) :
    sends e = true ->
    dom_string (Some text) = Some t ->
    chatHistory s' = chatHistory s ++ [user_entry t] ->
    fst <$> requests s' = (fst <$> requests s) ++ [chat_request (sessionId s) text] ->
    shows e s s'.

Lemma sendBtn_click_shows (e : event) (s0 s : state) :
  sends e = true ->
  chatHistory s = chatHistory s0 -> requests s = requests s0 -> sessionId s = sessionId s0 ->
  shows e s0 (settle sendBtn_click s).
Proof.
  intros He Hh Hr Hi. rewrite sendBtn_click_run.
  destruct (String.eqb (trim (chatInput s)) "").
  - apply Shows_nothing; congruence.
  - rewrite sendMessage_run. cbn [snd].
    apply (Shows_user e _ _ (JStr (trim (chatInput s))) (trim (chatInput s)));
      cbn; try easy; try congruence.
    now rewrite fmap_app, Hr, Hi.
Qed.

Lemma handle_shows (e : event) (s : state) : shows e s (handle e s).
Proof.
  destruct e as [|v| |key|i|r o].
  - rewrite load_run. now apply (Shows_bot _ _ _ welcome).
  - now apply Shows_nothing.
  - now apply sendBtn_click_shows.
  - rewrite keydown_run. destruct (String.eqb key "Enter") eqn:E.
    + apply sendBtn_click_shows; [exact E | reflexivity..].
    + now apply Shows_nothing.
  - cbn [handle]. destruct (quickReplies s !! i) as [b|]; [|now apply Shows_nothing].
    unfold settle. destruct (dom_string (Some (btn_arg b))) as [t|] eqn:Ht.
    + rewrite (sendMessage_printable _ t s Ht).
      apply (Shows_user _ _ _ (btn_arg b) t); cbn; try easy. now rewrite fmap_app.
    + destruct (sendMessage_unprintable _ s Ht) as [err ->]. now apply Shows_nothing.
  - cbn [handle]. destruct (requests s !! r) as [[req [|]]|] eqn:Hr;
      try now apply Shows_nothing.
    set (s1 := set_requests (<[r:=(req, true)]> (requests s)) s).
    assert (Hreq : fst <$> requests (settle (sendMessage_resume o) s1) = fst <$> requests s).
    { rewrite (chat_settle_proj requests) by reflexivity.
      rewrite (keeps_resume requests o) by reflexivity.
      now apply (fmap_insert_same fst _ _ _ _ Hr). }
    destruct (resume_shape o s1) as [[err He]|(status & data & t & -> & _ & _ & Hh & _)].
    + apply Shows_nothing; [|exact Hreq]. unfold settle. now rewrite He.
    + apply (Shows_bot _ _ _ t); [reflexivity| |exact Hreq].
      now rewrite (chat_settle_proj chatHistory) by reflexivity.
Qed.

(** What one event can do to the buttons: leave them, or put those of a
    list in their place. *)
Lemma handle_buttons (e : event) (s : state) :
  quickReplies (handle e s) = quickReplies s
  \/ exists v, quickReplies (handle e s) = quick_buttons v.
Proof.
  destruct e as [|v| |key|i|r o].
  - right. exists (Some (JArr [JStr "How to upload a photo?"; JStr "Tomato care tips"])).
    now rewrite load_run.
  - now left.
  - left. cbn [handle]. rewrite sendBtn_click_run.
    destruct (String.eqb (trim (chatInput s)) ""); [reflexivity|]. now rewrite sendMessage_run.
  - left. rewrite keydown_run. destruct (String.eqb key "Enter"); [|reflexivity].
    rewrite sendBtn_click_run. cbn [chatInput set_trace].
    destruct (String.eqb (trim (chatInput s)) ""); [reflexivity|]. now rewrite sendMessage_run.
  - left. cbn [handle]. destruct (quickReplies s !! i) as [b|]; [|reflexivity].
    rewrite (chat_settle_proj quickReplies) by reflexivity.
    now rewrite (keeps_sendMessage quickReplies).
  - cbn [handle]. destruct (requests s !! r) as [[req [|]]|] eqn:Hr; try now left.
    set (s1 := set_requests (<[r:=(req, true)]> (requests s)) s).
    rewrite (chat_settle_proj quickReplies) by reflexivity.
    destruct (resume_shape o s1) as [[err He]|(status & data & t & -> & _ & _ & _ & Hq)].
    + left. now rewrite He.
    + right. now exists (prop_of data "quick_replies").
Qed.

Lemma labelled_step (e : event) (s : state) :
  Forall labelled (quickReplies s) -> Forall labelled (quickReplies (handle e s)).
Proof.
  intros Hs. destruct (handle_buttons e s) as [->|[v ->]];
    [exact Hs | apply labelled_quick_buttons].
Qed.

Lemma labelled_run (es : list event) (s : state) :
  Forall labelled (quickReplies s) -> Forall labelled (quickReplies (run es s)).
Proof.
  revert s. induction es as [|e es IH]; intros s Hs; [exact Hs|].
  apply IH, labelled_step, Hs.
Qed.

(** Where every button is labelled, only a settlement can reject. *)
Lemma rejections_step (e : event) (s : state) :
  Forall labelled (quickReplies s) ->
  rejections (handle e s) = rejections s
  \/ (is_settlement e = true /\ exists err, rejections (handle e s) = rejections s ++ [err]).
Proof.
  intros Hs. destruct e as [|v| |key|i|r o].
  - left. now rewrite load_run.
  - now left.
  - left. cbn [handle]. rewrite sendBtn_click_run.
    destruct (String.eqb (trim (chatInput s)) ""); [reflexivity|]. now rewrite sendMessage_run.
  - left. rewrite keydown_run. destruct (String.eqb key "Enter"); [|reflexivity].
    rewrite sendBtn_click_run. cbn [chatInput set_trace].
    destruct (String.eqb (trim (chatInput s)) ""); [reflexivity|]. now rewrite sendMessage_run.
  - left. cbn [handle]. destruct (quickReplies s !! i) as [b|] eqn:Hi; [|reflexivity].
    rewrite Forall_lookup in Hs. destruct (Hs i b Hi) as (t & Ht & _).
    unfold settle. now rewrite (sendMessage_printable _ t s Ht).
  - cbn [handle]. destruct (requests s !! r) as [[req [|]]|] eqn:Hr; try now left.
    set (s1 := set_requests (<[r:=(req, true)]> (requests s)) s).
    pose proof (keeps_resume rejections o (fun _ _ => eq_refl) (fun _ _ => eq_refl)
                  (fun _ _ => eq_refl) s1) as Hk.
    unfold settle. destruct (sendMessage_resume o s1) as [[[]|err] s']; cbn in *.
    + now left.
    + right. split; [reflexivity|]. exists err. now rewrite Hk.
Qed.

(** *** Whole runs *)

(** An entry [addMessage] makes for the user or for the bot. *)
Definition user_or_bot (m : message) : Prop :=
  exists t, m = user_entry t \/ m = bot_entry t.

Lemma user_or_bot_shows (e : event) (s s' : state) :
  shows e s s' -> Forall user_or_bot (chatHistory s) -> Forall user_or_bot (chatHistory s').
Proof.
  intros [Hh _|t _ Hh _|text t _ _ Hh _] Hs; rewrite Hh; [exact Hs| |];
    apply Forall_app; (split; [exact Hs|]); repeat constructor; exists t; auto.
Qed.

(** The user entries and the requests go together. *)
Definition in_step (s : state) : Prop :=
  Some <$> omap user_text (chatHistory s) = message_text <$> (fst <$> requests s).

Lemma in_step_shows (e : event) (s s' : state) : shows e s s' -> in_step s -> in_step s'.
Proof.
  unfold in_step. intros [Hh Hr|t _ Hh Hr|text t _ Ht Hh Hr] Hs; rewrite Hh, Hr.
  - exact Hs.
  - rewrite omap_app. cbn. now rewrite app_nil_r.
  - rewrite omap_app, !fmap_app, Hs. f_equal.
    change (message_text <$> [chat_request (sessionId s) text])
      with [dom_string (Some text)]. now rewrite Ht.
Qed.

(** X13.  After any events on the page as the script finds it, every entry
    of the transcript is a user entry or a bot entry, and the user entries
    and the requests sent correspond one to one, in order: the n-th user
    entry shows the text of the [message] of the n-th request.  No user
    entry is without its request, no request without its entry. *)
Theorem user_entries_match_requests (storage : gmap string string) (es : list event) :
  let s := run es (script_load storage) in
  Forall user_or_bot (chatHistory s)
  /\ Some <$> omap user_text (chatHistory s) = message_text <$> (fst <$> requests s).
Proof.
  cbv zeta.
  assert (H : forall s, Forall user_or_bot (chatHistory s) /\ in_step s ->
                        Forall user_or_bot (chatHistory (run es s)) /\ in_step (run es s)).
  { induction es as [|e es IH]; intros s [Hu Hs]; [now split|].
    apply IH. pose proof (handle_shows e s) as Hsh.
    split; [now apply (user_or_bot_shows e s) | now apply (in_step_shows e s)]. }
  apply H. split; [constructor | reflexivity].
Qed.

(** X14.  A request is sent only by a click on the send button, a keydown of
    Enter or a click on a quick reply, and at most one by each; the load of
    the page and the arrival of a response, whatever it holds, send
    nothing.  The requests sent are never dropped or changed. *)
Theorem only_user_actions_send (es : list event) (s : state) :
  (fst <$> requests s) `prefix_of` (fst <$> requests (run es s))
  /\ length (requests (run es s)) <= length (requests s) + length (List.filter sends es).
Proof.
  revert s. induction es as [|e es IH]; intros s.
  - split; [reflexivity | cbn; lia].
  - change (run (e :: es) s) with (run es (handle e s)).
    destruct (IH (handle e s)) as [Ip Il].
    assert (Hstep : exists new, fst <$> requests (handle e s) = (fst <$> requests s) ++ new
                                /\ length new <= if sends e then 1 else 0).
    { destruct (handle_shows e s) as [_ Hr|t He _ Hr|text t He _ _ Hr].
      - exists []. rewrite app_nil_r. split; [exact Hr | destruct (sends e); cbn; lia].
      - exists []. rewrite app_nil_r. split; [exact Hr | cbn; lia].
      - eexists. split; [exact Hr|]. rewrite He. cbn. lia. }
    destruct Hstep as (new & Hnew & Hlen). split.
    + etrans; [|exact Ip]. rewrite Hnew. now apply prefix_app_r.
    + apply (f_equal length) in Hnew. rewrite length_app, !length_fmap in Hnew.
      cbn [List.filter]. destruct (sends e); cbn [length]; lia.
Qed.

(** X15.  On the page as the script finds it, only the arrival of a response
    can end in an unhandled rejection, and at most one per response: the
    load and the user's actions never throw.  In particular a click on a
    quick reply never throws, a label that does not convert to text never
    having become a button. *)
Theorem rejections_only_from_responses (storage : gmap string string) (es : list event) :
  length (rejections (run es (script_load storage))) <= length (List.filter is_settlement es).
Proof.
  assert (H : forall s, Forall labelled (quickReplies s) ->
                        length (rejections (run es s)) <=
                        length (rejections s) + length (List.filter is_settlement es)).
  { induction es as [|e es IH]; intros s Hs; [cbn; lia|].
    change (run (e :: es) s) with (run es (handle e s)).
    specialize (IH (handle e s) (labelled_step e s Hs)).
    cbn [List.filter].
    destruct (rejections_step e s Hs) as [Hr|[He [err Hr]]]; rewrite Hr in IH.
    - destruct (is_settlement e); cbn [length]; lia.
    - rewrite He. rewrite length_app in IH. cbn [length] in *. lia. }
  apply (H (script_load storage)). constructor.
Qed.

(** X16.  On the page after any events, every quick-reply button shows the
    text of the value its click sends, and a click on it appends one user
    entry with that text, empties the field and sends one request whose
    [message] is that value, a string or not. *)
Theorem quick_reply_sends_its_label (storage : gmap string string) (es : list event)
    (i : nat) (b : button) :
  let s := run es (script_load storage) in
  quickReplies s !! i = Some b ->
  exists t,
    b = reply_button (btn_arg b) t
    /\ dom_string (Some (btn_arg b)) = Some t
    /\ handle (QuickClick i) s =
       {| localStorage := localStorage s; sessionId := sessionId s;
          chatHistory := chatHistory s ++ [user_entry t];
          chatInput := ""; quickReplies := quickReplies s;
          requests := requests s ++ [(chat_request (sessionId s) (btn_arg b), false)];
          rejections := rejections s;
          trace := trace s ++ [AppendMessage (user_entry t); ScrollToEnd; SetInput "";
                               Fetch (chat_request (sessionId s) (btn_arg b))] |}.
Proof.
  cbv zeta. intros Hi.
  pose proof (labelled_run es (script_load storage) (Forall_nil_2 _)) as Hl.
  rewrite Forall_lookup in Hl. destruct (Hl i b Hi) as (t & Ht & Hb).
  exists t. split; [exact Hb|]. split; [exact Ht|].
  cbn [handle]. rewrite Hi. unfold settle. now rewrite (sendMessage_printable _ t _ Ht).
Qed.

(** The page with the buttons cleared. *)
Definition cleared (s : state) : state :=
  set_trace (trace s ++ [ClearQuickReplies]) (set_quickReplies [] s).

(** A list that yields no button and no error: a falsy value, the empty
    array, an object whose [length] is zero. *)
Definition silent (v : jsval) : bool :=
  match v with
  | Some (JArr items) => match items with [] => true | _ => false end
  | Some (JObj props) =>
      match assoc "length" props with
      | Some (JNum n) => number_is_zero n
      | _ => false
      end
  | _ => negb (truthy v)
  end.

(** A truthy value that is no array and has no [forEach]. *)
Definition listless (v : jsval) : bool :=
  match v with
  | Some (JArr _) => false
  | Some (JObj _) => negb (silent v)
  | _ => truthy v
  end.

Lemma renderQuickReplies_silent (v : jsval) (s : state) :
  silent v = true -> renderQuickReplies v s = (Returned tt, cleared s).
Proof.
  intros Hv. unfold renderQuickReplies, bind at 1. cbn [modify]. unfold bind at 1, emit at 1.
  cbn [modify]. destruct v as [[| | | |[|q items]|props]|]; cbn in *; try discriminate;
    try reflexivity.
  - now rewrite (proj1 (negb_true_iff _) Hv).
  - now rewrite (proj1 (negb_true_iff _) Hv).
  - now rewrite (proj1 (negb_true_iff _) Hv).
  - destruct (assoc "length" props) as [[| |n| | |]|]; try discriminate. now rewrite Hv.
Qed.

Lemma renderQuickReplies_listless (v : jsval) (s : state) :
  listless v = true ->
  renderQuickReplies v s = (Thrown (TypeError "list.forEach is not a function"), cleared s).
Proof.
  intros Hv. unfold renderQuickReplies, bind at 1. cbn [modify]. unfold bind at 1, emit at 1.
  cbn [modify]. destruct v as [[| | | |[|q items]|props]|]; cbn in *; try discriminate;
    try (now rewrite Hv).
  destruct (assoc "length" props) as [[| |n| | |]|]; try reflexivity.
  now rewrite (proj1 (negb_true_iff _) Hv).
Qed.

(** X17.  When a response carries a reply, the bot entry is appended and the
    old buttons are taken away before the quick replies are looked at.  A
    [quick_replies] that is missing, falsy, an empty array or an object of
    length zero leaves no button and no error.  One that is a string, a
    number, [true] or any other object has no [forEach]: the call throws a
    [TypeError] that nothing catches, with the bot entry shown and no
    button left. *)
Theorem quick_replies_must_be_an_array (s : state) (r : nat) (req : request)
    (status : nat) (data : json) (t : string) :
  requests s !! r = Some (req, false) ->
  data <> JNull ->
  dom_string (prop_of data "reply") = Some t ->
  let s' := handle (Settled r (Response status (Some data))) s in
  chatHistory s' = chatHistory s ++ [bot_entry t]
  /\ (silent (prop_of data "quick_replies") = true ->
      quickReplies s' = [] /\ rejections s' = rejections s)
  /\ (listless (prop_of data "quick_replies") = true ->
      quickReplies s' = []
      /\ rejections s' = rejections s ++ [TypeError "list.forEach is not a function"]).
Proof.
  intros Hr Hd Ht. cbv zeta. cbn [handle]. rewrite Hr.
  unfold settle. rewrite (resume_readable status data t _ Hd Ht).
  generalize (prop_of data "quick_replies"). intros q.
  split; [|split].
  - match goal with
    | |- chatHistory (match ?c ?s1 with _ => _ end) = _ =>
        pose proof (keeps_renderQuickReplies chatHistory
                      (if truthy q then q else Some (JArr []))
                      (fun _ _ => eq_refl) (fun _ _ => eq_refl) s1) as Hk;
        destruct (c s1) as [[[]|err] s2]
    end; cbn in *; exact Hk.
  - intros Hq.
    assert (Hq' : silent (if truthy q then q else Some (JArr [])) = true)
      by (now destruct (truthy q)).
    now rewrite (renderQuickReplies_silent _ _ Hq').
  - intros Hq.
    assert (Hq' : (if truthy q then q else Some (JArr [])) = q).
    { destruct (truthy q) eqn:E; [reflexivity|].
      destruct q as [[]|]; cbn in *; congruence. }
    rewrite Hq'. now rewrite (renderQuickReplies_listless _ _ Hq).
Qed.

(** X18.  [renderQuickReplies] replaces the buttons, it never adds to them:
    whatever buttons there were, those left are the buttons of the list
    alone, none when the value is no array.  For an array there is one
    button for each element up to the first whose text cannot be had; the
    call returns when every element converts and throws otherwise, with
    the buttons made so far in place.  The transcript and the requests are
    not touched. *)
Theorem quick_replies_replace_the_buttons (v : jsval) (items : list json) (s : state) :
  quickReplies (snd (renderQuickReplies v s)) = quick_buttons v
  /\ quickReplies (snd (renderQuickReplies (Some (JArr items)) s)) = buttons_of items
  /\ fst (renderQuickReplies (Some (JArr items)) s) =
     (if forallb convertible items then Returned tt
      else Thrown (TypeError "Cannot convert object to primitive value"))
  /\ chatHistory (snd (renderQuickReplies v s)) = chatHistory s
  /\ requests (snd (renderQuickReplies v s)) = requests s.
Proof.
  split; [apply renderQuickReplies_buttons|]. split; [apply (renderQuickReplies_buttons (Some (JArr items)))|].
  split; [|split; now apply keeps_renderQuickReplies].
  unfold renderQuickReplies, bind at 1. cbn [modify]. unfold bind at 1, emit at 1.
  cbn [modify truthy negb]. destruct items as [|q items]; [reflexivity|].
  apply (forEach_buttons (q :: items)).
Qed.

(** X19.  A response whose body is [null], or whose [reply] does not convert
    to text, shows nothing: the settlement throws before anything is
    written, so the transcript stays, the old quick replies stay in place,
    and the error is one more unhandled rejection. *)
Theorem unreadable_reply_shows_nothing (s : state) (r : nat) (req : request)
    (status : nat) (data : json) :
  requests s !! r = Some (req, false) ->
  unreadable data = true ->
  exists err,
    handle (Settled r (Response status (Some data))) s =
    set_rejections (rejections s ++ [err])
      (set_requests (<[r := (req, true)]> (requests s)) s).
Proof.
  intros Hr Hu. cbn [handle]. rewrite Hr. unfold settle.
  destruct (resume_unreadable status data
              (set_requests (<[r:=(req, true)]> (requests s)) s) Hu) as [err ->].
  now exists err.
Qed.

Lemma settled_readable (s : state) (r : nat) (req : request) (status : nat)
    (data : json) (t : string) :
  requests s !! r = Some (req, false) ->
  data <> JNull ->
  dom_string (prop_of data "reply") = Some t ->
  let s' := handle (Settled r (Response status (Some data))) s in
  chatHistory s' = chatHistory s ++ [bot_entry t]
  /\ quickReplies s' = quick_buttons (prop_of data "quick_replies")
  /\ requests s' = <[r := (req, true)]> (requests s).
Proof.
  intros Hr Hd Ht. cbv zeta. cbn [handle]. rewrite Hr.
  rewrite (chat_settle_proj chatHistory), (chat_settle_proj quickReplies),
    (chat_settle_proj requests) by reflexivity.
  rewrite (resume_readable status data t _ Hd Ht).
  rewrite (keeps_renderQuickReplies chatHistory _ (fun _ _ => eq_refl) (fun _ _ => eq_refl)).
  rewrite (keeps_renderQuickReplies requests _ (fun _ _ => eq_refl) (fun _ _ => eq_refl)).
  rewrite renderQuickReplies_buttons. repeat split.
  destruct (truthy (prop_of data "quick_replies")) eqn:Hq; [reflexivity|].
  now rewrite (quick_buttons_falsy _ Hq).
Qed.

(** X20.  Replies are shown in the order the responses arrive, not in the
    order the messages were sent: of two requests in flight, the bot entry
    of the one answered first comes first, whichever was sent first, and
    the quick replies left are those of the response that arrived last. *)
Theorem replies_appear_in_arrival_order (s : state) (r1 r2 : nat) (req1 req2 : request)
    (status1 status2 : nat) (data1 data2 : json) (t1 t2 : string) :
  r1 <> r2 ->
  requests s !! r1 = Some (req1, false) ->
  requests s !! r2 = Some (req2, false) ->
  data1 <> JNull -> dom_string (prop_of data1 "reply") = Some t1 ->
  data2 <> JNull -> dom_string (prop_of data2 "reply") = Some t2 ->
  let s' := handle (Settled r2 (Response status2 (Some data2)))
              (handle (Settled r1 (Response status1 (Some data1))) s) in
  chatHistory s' = chatHistory s ++ [bot_entry t1; bot_entry t2]
  /\ quickReplies s' = quick_buttons (prop_of data2 "quick_replies").
Proof.
  intros Hne H1 H2 Hd1 Ht1 Hd2 Ht2. cbv zeta.
  destruct (settled_readable s r1 req1 status1 data1 t1 H1 Hd1 Ht1) as (A1 & _ & A3).
  assert (H2' : requests (handle (Settled r1 (Response status1 (Some data1))) s) !! r2
                = Some (req2, false))
    by (rewrite A3; now rewrite list_lookup_insert_ne).
  destruct (settled_readable _ r2 req2 status2 data2 t2 H2' Hd2 Ht2) as (B1 & B2 & _).
  split; [|exact B2]. rewrite B1, A1, <- app_assoc. reflexivity.
Qed.

(** *** The order of the effects *)

(** What the widget does in one go: a message sent is its user entry, the
    scroll, the clearing of the field and the request, in this order; a bot
    entry comes with its scroll; the buttons are cleared and then made one
    by one. *)
Inductive block : list effect -> Prop :=
| Block_sent (sid : option string) (text : json) (t : string) :
    dom_string (Some text) = Some t ->
    block [AppendMessage (user_entry t); ScrollToEnd; SetInput "";
           Fetch (chat_request sid text)]
| Block_bot (t : string) :
    block [AppendMessage (bot_entry t); ScrollToEnd]
| Block_buttons (v : jsval) :
    block (ClearQuickReplies :: (AppendButton <$> quick_buttons v))
| Block_prevent :
    block [PreventDefault].

(** Every message appended is followed at once by the scroll to the end. *)
Definition scrolled (t : list effect) : Prop :=
  forall i m, t !! i = Some (AppendMessage m) -> t !! S i = Some ScrollToEnd.

Lemma scrolled_app (t u : list effect) : scrolled t -> scrolled u -> scrolled (t ++ u).
Proof.
  intros Ht Hu i m Hi. destruct (decide (i < length t)) as [Hlt|Hge].
  - rewrite lookup_app_l in Hi by exact Hlt. specialize (Ht i m Hi).
    rewrite lookup_app_l; [exact Ht | eapply lookup_lt_Some, Ht].
  - rewrite lookup_app_r in Hi by lia. specialize (Hu _ m Hi).
    rewrite lookup_app_r by lia. now replace (S i - length t) with (S (i - length t)) by lia.
Qed.

Lemma scrolled_block (b : list effect) : block b -> scrolled b.
Proof.
  intros [sid text t _|t|v|] i m Hi.
  - destruct i as [|[|[|[|i]]]]; try discriminate; reflexivity.
  - destruct i as [|[|i]]; try discriminate; reflexivity.
  - destruct i as [|i]; [discriminate|].
    change ((AppendButton <$> quick_buttons v) !! i = Some (AppendMessage m)) in Hi.
    rewrite list_lookup_fmap in Hi. destruct (quick_buttons v !! i); discriminate.
  - destruct i as [|i]; discriminate.
Qed.

Lemma scrolled_blocks (bs : list (list effect)) : Forall block bs -> scrolled (concat bs).
Proof.
  induction 1 as [|b bs Hb _ IH]; [intros i m Hi; destruct i; discriminate|].
  cbn. apply scrolled_app; [now apply scrolled_block | exact IH].
Qed.

Lemma sendBtn_click_blocks (s : state) :
  exists bs, trace (settle sendBtn_click s) = trace s ++ concat bs /\ Forall block bs.
Proof.
  rewrite sendBtn_click_run. destruct (String.eqb (trim (chatInput s)) "").
  - exists []. split; [now rewrite app_nil_r | constructor].
  - rewrite sendMessage_run. eexists [_]. split; [cbn; now rewrite app_nil_r|].
    constructor; [|constructor]. now apply (Block_sent _ (JStr _)).
Qed.

Lemma handle_blocks (e : event) (s : state) :
  exists bs, trace (handle e s) = trace s ++ concat bs /\ Forall block bs.
Proof.
  destruct e as [|v| |key|i|r o].
  - rewrite load_run.
    exists [[AppendMessage (bot_entry welcome); ScrollToEnd];
            ClearQuickReplies ::
              (AppendButton <$> quick_buttons
                 (Some (JArr [JStr "How to upload a photo?"; JStr "Tomato care tips"])))].
    split; [reflexivity|]. repeat constructor.
  - exists []. split; [cbn; now rewrite app_nil_r | constructor].
  - apply sendBtn_click_blocks.
  - rewrite keydown_run. destruct (String.eqb key "Enter").
    + destruct (sendBtn_click_blocks (set_trace (trace s ++ [PreventDefault]) s))
        as (bs & Ht & Hbs).
      exists ([PreventDefault] :: bs). split; [|constructor; [constructor | exact Hbs]].
      rewrite Ht. cbn. now rewrite <- app_assoc.
    + exists []. split; [now rewrite app_nil_r | constructor].
  - cbn [handle]. destruct (quickReplies s !! i) as [b|];
      [|exists []; split; [now rewrite app_nil_r | constructor]].
    unfold settle. destruct (dom_string (Some (btn_arg b))) as [t|] eqn:Ht.
    + rewrite (sendMessage_printable _ t s Ht). eexists [_].
      split; [cbn; now rewrite app_nil_r|]. constructor; [|constructor].
      now apply Block_sent.
    + destruct (sendMessage_unprintable _ s Ht) as [err ->].
      exists []. split; [cbn; now rewrite app_nil_r | constructor].
  - cbn [handle]. destruct (requests s !! r) as [[req [|]]|] eqn:Hr;
      try (exists []; split; [now rewrite app_nil_r | constructor]).
    set (s1 := set_requests (<[r:=(req, true)]> (requests s)) s).
    rewrite (chat_settle_proj trace) by reflexivity.
    destruct o as [|status [data|]];
      try (exists []; split; [cbn; now rewrite app_nil_r | constructor]).
    destruct (unreadable data) eqn:Hu.
    + destruct (resume_unreadable status data s1 Hu) as [err ->].
      exists []. split; [cbn; now rewrite app_nil_r | constructor].
    + destruct (readable_reply data Hu) as [Hd [t Ht]].
      rewrite (resume_readable status data t s1 Hd Ht), renderQuickReplies_trace.
      eexists [_; _]. split; [cbn; rewrite app_nil_r, <- app_assoc; reflexivity|].
      repeat constructor.
Qed.

(** X21.  After any events on the page as the script finds it, what the
    script has done to the page and the platform is the read of the session
    id followed by whole blocks: a message sent (its user entry, the scroll,
    the clearing of the field, the request, in this order), a bot entry with
    its scroll, a replacement of the buttons (the clearing, then one append
    for each), or a [preventDefault].  No request goes out before its user
    entry is shown and the field cleared, and every entry appended is
    followed at once by the scroll to the end of the transcript. *)
Theorem effects_come_in_blocks (storage : gmap string string) (es : list event) :
  let s := run es (script_load storage) in
  (exists bs, trace s = GetItem "crop_chat_session" :: concat bs /\ Forall block bs)
  /\ scrolled (trace s).
Proof.
  cbv zeta.
  assert (H : forall s, exists bs, trace (run es s) = trace s ++ concat bs /\ Forall block bs).
  { induction es as [|e es IH]; intros s.
    - exists []. split; [now rewrite app_nil_r | constructor].
    - change (run (e :: es) s) with (run es (handle e s)).
      destruct (IH (handle e s)) as (bs2 & H2 & B2).
      destruct (handle_blocks e s) as (bs1 & H1 & B1).
      exists (bs1 ++ bs2). split; [|now apply Forall_app].
      now rewrite H2, H1, concat_app, <- app_assoc. }
  destruct (H (script_load storage)) as (bs & Ht & Hbs).
  split; [now exists bs|].
  rewrite Ht. apply (scrolled_app [GetItem "crop_chat_session"]).
  - intros i m Hi. destruct i as [|i]; discriminate.
  - now apply scrolled_blocks.
Qed.

(** X22.  The field is the user's: the arrival of a response, whatever it
    holds, and the load leave what is typed in it, so a draft written while
    a request is pending is kept.  A click on a quick reply is a send like
    any other: it empties the field, whatever it held. *)
Theorem draft_survives_responses :
  (forall r o s, chatInput (handle (Settled r o) s) = chatInput s)
  /\ (forall s, chatInput (handle Load s) = chatInput s)
  /\ (forall storage es v i,
        let s := handle (Typed v) (run es (script_load storage)) in
        is_Some (quickReplies s !! i) -> chatInput (handle (QuickClick i) s) = "").
Proof.
  split; [|split].
  - intros r o s. cbn [handle]. destruct (requests s !! r) as [[req [|]]|]; try reflexivity.
    rewrite (chat_settle_proj chatInput) by reflexivity.
    now rewrite (keeps_resume chatInput o).
  - intros s. now rewrite load_run.
  - intros storage es v i. cbv zeta. intros [b Hb].
    pose proof (labelled_run (es ++ [Typed v]) (script_load storage) (Forall_nil_2 _)) as Hl.
    unfold run in Hl. rewrite fold_left_app in Hl. cbn [fold_left] in Hl.
    fold (run es (script_load storage)) in Hl.
    rewrite Forall_lookup in Hl. destruct (Hl i b Hb) as (t & Ht & _).
    cbn [handle] in *. rewrite Hb. unfold settle.
    now rewrite (sendMessage_printable _ t _ Ht).
Qed.

End Runs.

(** The page after load and one message typed and sent. *)
Definition asked : @state ZNumber :=
  run [Load; Typed "hello"; SendClick] (script_load ∅).

(** An answer whose quick replies are a number and [null]. *)
Definition odd_answer : @json ZNumber :=
  JObj [("reply", JStr "ok"); ("quick_replies", JArr [@JNum ZNumber 3%Z; JNull])].

(** An answer whose quick replies are one string, not a list of them. *)
Definition one_string : @json ZNumber :=
  JObj [("reply", JStr "ok"); ("quick_replies", JStr "Tomato care tips")].

Lemma quick_reply_sends_its_label_witness :
  let s := run [Load; Typed "hello"; SendClick; Settled 0 (Response 200 (Some odd_answer))]
             (script_load ∅) in
  exists t,
    dom_string (Some (@JNum ZNumber 3%Z)) = Some t
    /\ chatHistory (handle (QuickClick 0) s) = chatHistory s ++ [user_entry t]
    /\ fst <$> requests (handle (QuickClick 0) s) =
       (fst <$> requests s) ++ [chat_request None (@JNum ZNumber 3%Z)].
Proof.
  destruct (quick_reply_sends_its_label (num := ZNumber) ∅
              [Load; Typed "hello"; SendClick; Settled 0 (Response 200 (Some odd_answer))]
              0 (reply_button (@JNum ZNumber 3%Z) "3") eq_refl) as (t & _ & Ht & Hs).
  exists t. split; [exact Ht|]. rewrite Hs. split; [reflexivity|].
  cbn [requests]. now rewrite fmap_app.
Defined.

(** The labels of [odd_answer]: the number as it prints, the empty text for
    [null]. *)
Example odd_answer_buttons :
  quickReplies (handle (Settled 0 (Response 200 (Some odd_answer))) asked)
  = [reply_button (@JNum ZNumber 3%Z) "3"; reply_button JNull ""].
Proof. reflexivity. Qed.

Lemma quick_replies_must_be_an_array_witness :
  quickReplies (handle (Settled 0 (Response 200 (Some one_string))) asked) = []
  /\ rejections (handle (Settled 0 (Response 200 (Some one_string))) asked)
     = [TypeError "list.forEach is not a function"].
Proof.
  exact (proj2 (proj2 (quick_replies_must_be_an_array (num := ZNumber) asked 0
           (chat_request None (JStr "hello")) 200 one_string "ok"
           eq_refl (fun H => eq_ind (JObj _) (fun d => match d with JNull => False | _ => True end) I _ H)
           eq_refl)) eq_refl).
Defined.

(** Two messages sent, neither answered yet. *)
Definition two_asked : @state ZNumber :=
  run [Load; Typed "first"; SendClick; Typed "second"; SendClick] (script_load ∅).

Lemma replies_appear_in_arrival_order_witness :
  chatHistory
    (handle (Settled 0 (Response 200 (Some (JObj [("reply", @JStr ZNumber "to the first")]))))
       (handle (Settled 1 (Response 200 (Some (JObj [("reply", @JStr ZNumber "to the second")]))))
          two_asked))
  = chatHistory two_asked ++ [bot_entry "to the second"; bot_entry "to the first"].
Proof.
  exact (proj1 (replies_appear_in_arrival_order (num := ZNumber) two_asked 1 0
           (chat_request None (JStr "second")) (chat_request None (JStr "first"))
           200 200 (JObj [("reply", JStr "to the second")]) (JObj [("reply", JStr "to the first")])
           "to the second" "to the first"
           (fun H => eq_ind 1 (fun n => match n with 0 => False | _ => True end) I 0 H)
           eq_refl eq_refl
           (fun H => eq_ind (JObj _) (fun d => match d with JNull => False | _ => True end) I _ H)
           eq_refl
           (fun H => eq_ind (JObj _) (fun d => match d with JNull => False | _ => True end) I _ H)
           eq_refl)).
Defined.

Lemma draft_survives_responses_witness :
  chatInput (handle (QuickClick 1)
               (handle (Typed "a draft") (run (num := ZNumber) [Load] (script_load ∅)))) = "".
Proof.
  exact (proj2 (proj2 (draft_survives_responses (num := ZNumber))) ∅ [Load] "a draft" 1
           (ex_intro _ (label_button "Tomato care tips") eq_refl)).
Defined.

Lemma unreadable_reply_shows_nothing_witness :
  exists err,
    handle (Settled 0 (Response 200 (Some (@JNull ZNumber)))) asked =
    set_rejections (rejections asked ++ [err])
      (set_requests (<[0 := (chat_request None (JStr "hello"), true)]> (requests asked)) asked).
Proof.
  exact (unreadable_reply_shows_nothing (num := ZNumber) asked 0
           (chat_request None (JStr "hello")) 200 JNull eq_refl eq_refl).
Defined.

(** The error of a [null] body. *)
Example null_body_error :
  rejections (handle (Settled 0 (Response 200 (Some (@JNull ZNumber)))) asked)
  = [TypeError "Cannot read properties of null (reading 'reply')"].
Proof. reflexivity. Qed.

End ChatRuns.
